(** * Job_autopilot: the spreadsheet pipeline, embedded and verified

    The development follows the Python sources file by file:
    [config], [cv_generator], [letter_generator] and [email_sender].
    The Excel workbook is a finite map from sheet names to tables, the
    output folders are a finite map from paths to file contents, and every
    routine runs in a small state-and-exception monad that also records the
    observable events (console lines, API calls, SMTP sessions, sheet
    writes) in the order the code produces them. *)

From Stdlib Require Import ZArith Ascii String Lia.
From stdpp Require Import base option list gmap strings sorting.

(** ** Python strings

    A [str] is modelled by its UTF-8 encoding, one [ascii] per byte: a
    literal of this file is the text of the source, two texts are equal
    when their encodings are, and a text ends with a suffix when its
    encoding does.  Where Python works character by character (white
    space, case) the encoding is cut into its characters first. *)

Module PyStr.

Definition in_range (lo hi : N) (c : ascii) : bool :=
  let n := N_of_ascii c in ((lo <=? n) && (n <=? hi))%N.

(** A byte that continues a character: 10xxxxxx. *)
Definition is_cont (c : ascii) : bool := in_range 128 191 c.

Definition starts_cont (s : string) : bool :=
  match s with String d _ => is_cont d | EmptyString => false end.

(** The characters of a text: each byte that is not a continuation byte
    opens a character, which takes the continuation bytes that follow. *)
Fixpoint chars (s : string) : list string :=
  match s with
  | EmptyString => []
  | String c s' =>
      match chars s' with
      | ch :: rest =>
          if starts_cont s' then String c ch :: rest
          else String c EmptyString :: ch :: rest
      | [] => [String c EmptyString]
      end
  end.

Definition byte (n : N) : ascii := ascii_of_N n.

(** The UTF-8 encoding of a code point. *)
Definition utf8 (n : N) : string :=
  (if n <? 128 then String (byte n) EmptyString
   else if n <? 2048 then
     String (byte (192 + n / 64)) (String (byte (128 + n mod 64)) EmptyString)
   else if n <? 65536 then
     String (byte (224 + n / 4096))
       (String (byte (128 + (n / 64) mod 64))
          (String (byte (128 + n mod 64)) EmptyString))
   else
     String (byte (240 + n / 262144))
       (String (byte (128 + (n / 4096) mod 64))
          (String (byte (128 + (n / 64) mod 64))
             (String (byte (128 + n mod 64)) EmptyString))))%N.

(** The code point a character encodes; [None] for bytes that are not
    the encoding of a code point. *)
Definition code (ch : string) : option N :=
  let n :=
    match ch with
    | String a EmptyString => N_of_ascii a
    | String a (String b EmptyString) =>
        (N_of_ascii a mod 32) * 64 + N_of_ascii b mod 64
    | String a (String b (String c EmptyString)) =>
        (N_of_ascii a mod 16) * 4096 + (N_of_ascii b mod 64) * 64 + N_of_ascii c mod 64
    | String a (String b (String c (String d EmptyString))) =>
        (N_of_ascii a mod 8) * 262144 + (N_of_ascii b mod 64) * 4096
        + (N_of_ascii c mod 64) * 64 + N_of_ascii d mod 64
    | _ => 0
    end%N in
  if String.eqb (utf8 n) ch then Some n else None.

(** [str.isspace] on one character, which is also what [str.strip]
    removes and what the class \s of [re] matches: the code points of
    bidirectional type WS, B or S, or of category Zs. *)
Definition whitespace : list N :=
  [9; 10; 11; 12; 13; 28; 29; 30; 31; 32; 133; 160; 5760;
   8192; 8193; 8194; 8195; 8196; 8197; 8198; 8199; 8200; 8201; 8202;
   8232; 8233; 8239; 8287; 12288]%N.

Definition isspace (ch : string) : bool :=
  match code ch with
  | Some n => existsb (N.eqb n) whitespace
  | None => false
  end.

(** The code points [str.upper] changes, each with the code points it
    becomes (Unicode 14, full case mapping). *)
Definition upper_table : list (N * list N) :=
  [(97, [65]); (98, [66]); (99, [67]); (100, [68]); (101, [69]); (102, [70]); (103, [71]);
   (104, [72]); (105, [73]); (106, [74]); (107, [75]); (108, [76]); (109, [77]);
   (110, [78]); (111, [79]); (112, [80]); (113, [81]); (114, [82]); (115, [83]);
   (116, [84]); (117, [85]); (118, [86]); (119, [87]); (120, [88]); (121, [89]);
   (122, [90]); (181, [924]); (223, [83; 83]); (224, [192]); (225, [193]); (226, [194]);
   (227, [195]); (228, [196]); (229, [197]); (230, [198]); (231, [199]); (232, [200]);
   (233, [201]); (234, [202]); (235, [203]); (236, [204]); (237, [205]); (238, [206]);
   (239, [207]); (240, [208]); (241, [209]); (242, [210]); (243, [211]); (244, [212]);
   (245, [213]); (246, [214]); (248, [216]); (249, [217]); (250, [218]); (251, [219]);
   (252, [220]); (253, [221]); (254, [222]); (255, [376]); (257, [256]); (259, [258]);
   (261, [260]); (263, [262]); (265, [264]); (267, [266]); (269, [268]); (271, [270]);
   (273, [272]); (275, [274]); (277, [276]); (279, [278]); (281, [280]); (283, [282]);
   (285, [284]); (287, [286]); (289, [288]); (291, [290]); (293, [292]); (295, [294]);
   (297, [296]); (299, [298]); (301, [300]); (303, [302]); (305, [73]); (307, [306]);
   (309, [308]); (311, [310]); (314, [313]); (316, [315]); (318, [317]); (320, [319]);
   (322, [321]); (324, [323]); (326, [325]); (328, [327]); (329, [700; 78]); (331, [330]);
   (333, [332]); (335, [334]); (337, [336]); (339, [338]); (341, [340]); (343, [342]);
   (345, [344]); (347, [346]); (349, [348]); (351, [350]); (353, [352]); (355, [354]);
   (357, [356]); (359, [358]); (361, [360]); (363, [362]); (365, [364]); (367, [366]);
   (369, [368]); (371, [370]); (373, [372]); (375, [374]); (378, [377]); (380, [379]);
   (382, [381]); (383, [83]); (384, [579]); (387, [386]); (389, [388]); (392, [391]);
   (396, [395]); (402, [401]); (405, [502]); (409, [408]); (410, [573]); (414, [544]);
   (417, [416]); (419, [418]); (421, [420]); (424, [423]); (429, [428]); (432, [431]);
   (436, [435]); (438, [437]); (441, [440]); (445, [444]); (447, [503]); (453, [452]);
   (454, [452]); (456, [455]); (457, [455]); (459, [458]); (460, [458]); (462, [461]);
   (464, [463]); (466, [465]); (468, [467]); (470, [469]); (472, [471]); (474, [473]);
   (476, [475]); (477, [398]); (479, [478]); (481, [480]); (483, [482]); (485, [484]);
   (487, [486]); (489, [488]); (491, [490]); (493, [492]); (495, [494]); (496, [74; 780]);
   (498, [497]); (499, [497]); (501, [500]); (505, [504]); (507, [506]); (509, [508]);
   (511, [510]); (513, [512]); (515, [514]); (517, [516]); (519, [518]); (521, [520]);
   (523, [522]); (525, [524]); (527, [526]); (529, [528]); (531, [530]); (533, [532]);
   (535, [534]); (537, [536]); (539, [538]); (541, [540]); (543, [542]); (547, [546]);
   (549, [548]); (551, [550]); (553, [552]); (555, [554]); (557, [556]); (559, [558]);
   (561, [560]); (563, [562]); (572, [571]); (575, [11390]); (576, [11391]); (578, [577]);
   (583, [582]); (585, [584]); (587, [586]); (589, [588]); (591, [590]); (592, [11375]);
   (593, [11373]); (594, [11376]); (595, [385]); (596, [390]); (598, [393]); (599, [394]);
   (601, [399]); (603, [400]); (604, [42923]); (608, [403]); (609, [42924]); (611, [404]);
   (613, [42893]); (614, [42922]); (616, [407]); (617, [406]); (618, [42926]);
   (619, [11362]); (620, [42925]); (623, [412]); (625, [11374]); (626, [413]);
   (629, [415]); (637, [11364]); (640, [422]); (642, [42949]); (643, [425]);
   (647, [42929]); (648, [430]); (649, [580]); (650, [433]); (651, [434]); (652, [581]);
   (658, [439]); (669, [42930]); (670, [42928]); (837, [921]); (881, [880]); (883, [882]);
   (887, [886]); (891, [1021]); (892, [1022]); (893, [1023]); (912, [921; 776; 769]);
   (940, [902]); (941, [904]); (942, [905]); (943, [906]); (944, [933; 776; 769]);
   (945, [913]); (946, [914]); (947, [915]); (948, [916]); (949, [917]); (950, [918]);
   (951, [919]); (952, [920]); (953, [921]); (954, [922]); (955, [923]); (956, [924]);
   (957, [925]); (958, [926]); (959, [927]); (960, [928]); (961, [929]); (962, [931]);
   (963, [931]); (964, [932]); (965, [933]); (966, [934]); (967, [935]); (968, [936]);
   (969, [937]); (970, [938]); (971, [939]); (972, [908]); (973, [910]); (974, [911]);
   (976, [914]); (977, [920]); (981, [934]); (982, [928]); (983, [975]); (985, [984]);
   (987, [986]); (989, [988]); (991, [990]); (993, [992]); (995, [994]); (997, [996]);
   (999, [998]); (1001, [1000]); (1003, [1002]); (1005, [1004]); (1007, [1006]);
   (1008, [922]); (1009, [929]); (1010, [1017]); (1011, [895]); (1013, [917]);
   (1016, [1015]); (1019, [1018]); (1072, [1040]); (1073, [1041]); (1074, [1042]);
   (1075, [1043]); (1076, [1044]); (1077, [1045]); (1078, [1046]); (1079, [1047]);
   (1080, [1048]); (1081, [1049]); (1082, [1050]); (1083, [1051]); (1084, [1052]);
   (1085, [1053]); (1086, [1054]); (1087, [1055]); (1088, [1056]); (1089, [1057]);
   (1090, [1058]); (1091, [1059]); (1092, [1060]); (1093, [1061]); (1094, [1062]);
   (1095, [1063]); (1096, [1064]); (1097, [1065]); (1098, [1066]); (1099, [1067]);
   (1100, [1068]); (1101, [1069]); (1102, [1070]); (1103, [1071]); (1104, [1024]);
   (1105, [1025]); (1106, [1026]); (1107, [1027]); (1108, [1028]); (1109, [1029]);
   (1110, [1030]); (1111, [1031]); (1112, [1032]); (1113, [1033]); (1114, [1034]);
   (1115, [1035]); (1116, [1036]); (1117, [1037]); (1118, [1038]); (1119, [1039]);
   (1121, [1120]); (1123, [1122]); (1125, [1124]); (1127, [1126]); (1129, [1128]);
   (1131, [1130]); (1133, [1132]); (1135, [1134]); (1137, [1136]); (1139, [1138]);
   (1141, [1140]); (1143, [1142]); (1145, [1144]); (1147, [1146]); (1149, [1148]);
   (1151, [1150]); (1153, [1152]); (1163, [1162]); (1165, [1164]); (1167, [1166]);
   (1169, [1168]); (1171, [1170]); (1173, [1172]); (1175, [1174]); (1177, [1176]);
   (1179, [1178]); (1181, [1180]); (1183, [1182]); (1185, [1184]); (1187, [1186]);
   (1189, [1188]); (1191, [1190]); (1193, [1192]); (1195, [1194]); (1197, [1196]);
   (1199, [1198]); (1201, [1200]); (1203, [1202]); (1205, [1204]); (1207, [1206]);
   (1209, [1208]); (1211, [1210]); (1213, [1212]); (1215, [1214]); (1218, [1217]);
   (1220, [1219]); (1222, [1221]); (1224, [1223]); (1226, [1225]); (1228, [1227]);
   (1230, [1229]); (1231, [1216]); (1233, [1232]); (1235, [1234]); (1237, [1236]);
   (1239, [1238]); (1241, [1240]); (1243, [1242]); (1245, [1244]); (1247, [1246]);
   (1249, [1248]); (1251, [1250]); (1253, [1252]); (1255, [1254]); (1257, [1256]);
   (1259, [1258]); (1261, [1260]); (1263, [1262]); (1265, [1264]); (1267, [1266]);
   (1269, [1268]); (1271, [1270]); (1273, [1272]); (1275, [1274]); (1277, [1276]);
   (1279, [1278]); (1281, [1280]); (1283, [1282]); (1285, [1284]); (1287, [1286]);
   (1289, [1288]); (1291, [1290]); (1293, [1292]); (1295, [1294]); (1297, [1296]);
   (1299, [1298]); (1301, [1300]); (1303, [1302]); (1305, [1304]); (1307, [1306]);
   (1309, [1308]); (1311, [1310]); (1313, [1312]); (1315, [1314]); (1317, [1316]);
   (1319, [1318]); (1321, [1320]); (1323, [1322]); (1325, [1324]); (1327, [1326]);
   (1377, [1329]); (1378, [1330]); (1379, [1331]); (1380, [1332]); (1381, [1333]);
   (1382, [1334]); (1383, [1335]); (1384, [1336]); (1385, [1337]); (1386, [1338]);
   (1387, [1339]); (1388, [1340]); (1389, [1341]); (1390, [1342]); (1391, [1343]);
   (1392, [1344]); (1393, [1345]); (1394, [1346]); (1395, [1347]); (1396, [1348]);
   (1397, [1349]); (1398, [1350]); (1399, [1351]); (1400, [1352]); (1401, [1353]);
   (1402, [1354]); (1403, [1355]); (1404, [1356]); (1405, [1357]); (1406, [1358]);
   (1407, [1359]); (1408, [1360]); (1409, [1361]); (1410, [1362]); (1411, [1363]);
   (1412, [1364]); (1413, [1365]); (1414, [1366]); (1415, [1333; 1362]); (4304, [7312]);
   (4305, [7313]); (4306, [7314]); (4307, [7315]); (4308, [7316]); (4309, [7317]);
   (4310, [7318]); (4311, [7319]); (4312, [7320]); (4313, [7321]); (4314, [7322]);
   (4315, [7323]); (4316, [7324]); (4317, [7325]); (4318, [7326]); (4319, [7327]);
   (4320, [7328]); (4321, [7329]); (4322, [7330]); (4323, [7331]); (4324, [7332]);
   (4325, [7333]); (4326, [7334]); (4327, [7335]); (4328, [7336]); (4329, [7337]);
   (4330, [7338]); (4331, [7339]); (4332, [7340]); (4333, [7341]); (4334, [7342]);
   (4335, [7343]); (4336, [7344]); (4337, [7345]); (4338, [7346]); (4339, [7347]);
   (4340, [7348]); (4341, [7349]); (4342, [7350]); (4343, [7351]); (4344, [7352]);
   (4345, [7353]); (4346, [7354]); (4349, [7357]); (4350, [7358]); (4351, [7359]);
   (5112, [5104]); (5113, [5105]); (5114, [5106]); (5115, [5107]); (5116, [5108]);
   (5117, [5109]); (7296, [1042]); (7297, [1044]); (7298, [1054]); (7299, [1057]);
   (7300, [1058]); (7301, [1058]); (7302, [1066]); (7303, [1122]); (7304, [42570]);
   (7545, [42877]); (7549, [11363]); (7566, [42950]); (7681, [7680]); (7683, [7682]);
   (7685, [7684]); (7687, [7686]); (7689, [7688]); (7691, [7690]); (7693, [7692]);
   (7695, [7694]); (7697, [7696]); (7699, [7698]); (7701, [7700]); (7703, [7702]);
   (7705, [7704]); (7707, [7706]); (7709, [7708]); (7711, [7710]); (7713, [7712]);
   (7715, [7714]); (7717, [7716]); (7719, [7718]); (7721, [7720]); (7723, [7722]);
   (7725, [7724]); (7727, [7726]); (7729, [7728]); (7731, [7730]); (7733, [7732]);
   (7735, [7734]); (7737, [7736]); (7739, [7738]); (7741, [7740]); (7743, [7742]);
   (7745, [7744]); (7747, [7746]); (7749, [7748]); (7751, [7750]); (7753, [7752]);
   (7755, [7754]); (7757, [7756]); (7759, [7758]); (7761, [7760]); (7763, [7762]);
   (7765, [7764]); (7767, [7766]); (7769, [7768]); (7771, [7770]); (7773, [7772]);
   (7775, [7774]); (7777, [7776]); (7779, [7778]); (7781, [7780]); (7783, [7782]);
   (7785, [7784]); (7787, [7786]); (7789, [7788]); (7791, [7790]); (7793, [7792]);
   (7795, [7794]); (7797, [7796]); (7799, [7798]); (7801, [7800]); (7803, [7802]);
   (7805, [7804]); (7807, [7806]); (7809, [7808]); (7811, [7810]); (7813, [7812]);
   (7815, [7814]); (7817, [7816]); (7819, [7818]); (7821, [7820]); (7823, [7822]);
   (7825, [7824]); (7827, [7826]); (7829, [7828]); (7830, [72; 817]); (7831, [84; 776]);
   (7832, [87; 778]); (7833, [89; 778]); (7834, [65; 702]); (7835, [7776]); (7841, [7840]);
   (7843, [7842]); (7845, [7844]); (7847, [7846]); (7849, [7848]); (7851, [7850]);
   (7853, [7852]); (7855, [7854]); (7857, [7856]); (7859, [7858]); (7861, [7860]);
   (7863, [7862]); (7865, [7864]); (7867, [7866]); (7869, [7868]); (7871, [7870]);
   (7873, [7872]); (7875, [7874]); (7877, [7876]); (7879, [7878]); (7881, [7880]);
   (7883, [7882]); (7885, [7884]); (7887, [7886]); (7889, [7888]); (7891, [7890]);
   (7893, [7892]); (7895, [7894]); (7897, [7896]); (7899, [7898]); (7901, [7900]);
   (7903, [7902]); (7905, [7904]); (7907, [7906]); (7909, [7908]); (7911, [7910]);
   (7913, [7912]); (7915, [7914]); (7917, [7916]); (7919, [7918]); (7921, [7920]);
   (7923, [7922]); (7925, [7924]); (7927, [7926]); (7929, [7928]); (7931, [7930]);
   (7933, [7932]); (7935, [7934]); (7936, [7944]); (7937, [7945]); (7938, [7946]);
   (7939, [7947]); (7940, [7948]); (7941, [7949]); (7942, [7950]); (7943, [7951]);
   (7952, [7960]); (7953, [7961]); (7954, [7962]); (7955, [7963]); (7956, [7964]);
   (7957, [7965]); (7968, [7976]); (7969, [7977]); (7970, [7978]); (7971, [7979]);
   (7972, [7980]); (7973, [7981]); (7974, [7982]); (7975, [7983]); (7984, [7992]);
   (7985, [7993]); (7986, [7994]); (7987, [7995]); (7988, [7996]); (7989, [7997]);
   (7990, [7998]); (7991, [7999]); (8000, [8008]); (8001, [8009]); (8002, [8010]);
   (8003, [8011]); (8004, [8012]); (8005, [8013]); (8016, [933; 787]); (8017, [8025]);
   (8018, [933; 787; 768]); (8019, [8027]); (8020, [933; 787; 769]); (8021, [8029]);
   (8022, [933; 787; 834]); (8023, [8031]); (8032, [8040]); (8033, [8041]); (8034, [8042]);
   (8035, [8043]); (8036, [8044]); (8037, [8045]); (8038, [8046]); (8039, [8047]);
   (8048, [8122]); (8049, [8123]); (8050, [8136]); (8051, [8137]); (8052, [8138]);
   (8053, [8139]); (8054, [8154]); (8055, [8155]); (8056, [8184]); (8057, [8185]);
   (8058, [8170]); (8059, [8171]); (8060, [8186]); (8061, [8187]); (8064, [7944; 921]);
   (8065, [7945; 921]); (8066, [7946; 921]); (8067, [7947; 921]); (8068, [7948; 921]);
   (8069, [7949; 921]); (8070, [7950; 921]); (8071, [7951; 921]); (8072, [7944; 921]);
   (8073, [7945; 921]); (8074, [7946; 921]); (8075, [7947; 921]); (8076, [7948; 921]);
   (8077, [7949; 921]); (8078, [7950; 921]); (8079, [7951; 921]); (8080, [7976; 921]);
   (8081, [7977; 921]); (8082, [7978; 921]); (8083, [7979; 921]); (8084, [7980; 921]);
   (8085, [7981; 921]); (8086, [7982; 921]); (8087, [7983; 921]); (8088, [7976; 921]);
   (8089, [7977; 921]); (8090, [7978; 921]); (8091, [7979; 921]); (8092, [7980; 921]);
   (8093, [7981; 921]); (8094, [7982; 921]); (8095, [7983; 921]); (8096, [8040; 921]);
   (8097, [8041; 921]); (8098, [8042; 921]); (8099, [8043; 921]); (8100, [8044; 921]);
   (8101, [8045; 921]); (8102, [8046; 921]); (8103, [8047; 921]); (8104, [8040; 921]);
   (8105, [8041; 921]); (8106, [8042; 921]); (8107, [8043; 921]); (8108, [8044; 921]);
   (8109, [8045; 921]); (8110, [8046; 921]); (8111, [8047; 921]); (8112, [8120]);
   (8113, [8121]); (8114, [8122; 921]); (8115, [913; 921]); (8116, [902; 921]);
   (8118, [913; 834]); (8119, [913; 834; 921]); (8124, [913; 921]); (8126, [921]);
   (8130, [8138; 921]); (8131, [919; 921]); (8132, [905; 921]); (8134, [919; 834]);
   (8135, [919; 834; 921]); (8140, [919; 921]); (8144, [8152]); (8145, [8153]);
   (8146, [921; 776; 768]); (8147, [921; 776; 769]); (8150, [921; 834]);
   (8151, [921; 776; 834]); (8160, [8168]); (8161, [8169]); (8162, [933; 776; 768]);
   (8163, [933; 776; 769]); (8164, [929; 787]); (8165, [8172]); (8166, [933; 834]);
   (8167, [933; 776; 834]); (8178, [8186; 921]); (8179, [937; 921]); (8180, [911; 921]);
   (8182, [937; 834]); (8183, [937; 834; 921]); (8188, [937; 921]); (8526, [8498]);
   (8560, [8544]); (8561, [8545]); (8562, [8546]); (8563, [8547]); (8564, [8548]);
   (8565, [8549]); (8566, [8550]); (8567, [8551]); (8568, [8552]); (8569, [8553]);
   (8570, [8554]); (8571, [8555]); (8572, [8556]); (8573, [8557]); (8574, [8558]);
   (8575, [8559]); (8580, [8579]); (9424, [9398]); (9425, [9399]); (9426, [9400]);
   (9427, [9401]); (9428, [9402]); (9429, [9403]); (9430, [9404]); (9431, [9405]);
   (9432, [9406]); (9433, [9407]); (9434, [9408]); (9435, [9409]); (9436, [9410]);
   (9437, [9411]); (9438, [9412]); (9439, [9413]); (9440, [9414]); (9441, [9415]);
   (9442, [9416]); (9443, [9417]); (9444, [9418]); (9445, [9419]); (9446, [9420]);
   (9447, [9421]); (9448, [9422]); (9449, [9423]); (11312, [11264]); (11313, [11265]);
   (11314, [11266]); (11315, [11267]); (11316, [11268]); (11317, [11269]);
   (11318, [11270]); (11319, [11271]); (11320, [11272]); (11321, [11273]);
   (11322, [11274]); (11323, [11275]); (11324, [11276]); (11325, [11277]);
   (11326, [11278]); (11327, [11279]); (11328, [11280]); (11329, [11281]);
   (11330, [11282]); (11331, [11283]); (11332, [11284]); (11333, [11285]);
   (11334, [11286]); (11335, [11287]); (11336, [11288]); (11337, [11289]);
   (11338, [11290]); (11339, [11291]); (11340, [11292]); (11341, [11293]);
   (11342, [11294]); (11343, [11295]); (11344, [11296]); (11345, [11297]);
   (11346, [11298]); (11347, [11299]); (11348, [11300]); (11349, [11301]);
   (11350, [11302]); (11351, [11303]); (11352, [11304]); (11353, [11305]);
   (11354, [11306]); (11355, [11307]); (11356, [11308]); (11357, [11309]);
   (11358, [11310]); (11359, [11311]); (11361, [11360]); (11365, [570]); (11366, [574]);
   (11368, [11367]); (11370, [11369]); (11372, [11371]); (11379, [11378]);
   (11382, [11381]); (11393, [11392]); (11395, [11394]); (11397, [11396]);
   (11399, [11398]); (11401, [11400]); (11403, [11402]); (11405, [11404]);
   (11407, [11406]); (11409, [11408]); (11411, [11410]); (11413, [11412]);
   (11415, [11414]); (11417, [11416]); (11419, [11418]); (11421, [11420]);
   (11423, [11422]); (11425, [11424]); (11427, [11426]); (11429, [11428]);
   (11431, [11430]); (11433, [11432]); (11435, [11434]); (11437, [11436]);
   (11439, [11438]); (11441, [11440]); (11443, [11442]); (11445, [11444]);
   (11447, [11446]); (11449, [11448]); (11451, [11450]); (11453, [11452]);
   (11455, [11454]); (11457, [11456]); (11459, [11458]); (11461, [11460]);
   (11463, [11462]); (11465, [11464]); (11467, [11466]); (11469, [11468]);
   (11471, [11470]); (11473, [11472]); (11475, [11474]); (11477, [11476]);
   (11479, [11478]); (11481, [11480]); (11483, [11482]); (11485, [11484]);
   (11487, [11486]); (11489, [11488]); (11491, [11490]); (11500, [11499]);
   (11502, [11501]); (11507, [11506]); (11520, [4256]); (11521, [4257]); (11522, [4258]);
   (11523, [4259]); (11524, [4260]); (11525, [4261]); (11526, [4262]); (11527, [4263]);
   (11528, [4264]); (11529, [4265]); (11530, [4266]); (11531, [4267]); (11532, [4268]);
   (11533, [4269]); (11534, [4270]); (11535, [4271]); (11536, [4272]); (11537, [4273]);
   (11538, [4274]); (11539, [4275]); (11540, [4276]); (11541, [4277]); (11542, [4278]);
   (11543, [4279]); (11544, [4280]); (11545, [4281]); (11546, [4282]); (11547, [4283]);
   (11548, [4284]); (11549, [4285]); (11550, [4286]); (11551, [4287]); (11552, [4288]);
   (11553, [4289]); (11554, [4290]); (11555, [4291]); (11556, [4292]); (11557, [4293]);
   (11559, [4295]); (11565, [4301]); (42561, [42560]); (42563, [42562]); (42565, [42564]);
   (42567, [42566]); (42569, [42568]); (42571, [42570]); (42573, [42572]);
   (42575, [42574]); (42577, [42576]); (42579, [42578]); (42581, [42580]);
   (42583, [42582]); (42585, [42584]); (42587, [42586]); (42589, [42588]);
   (42591, [42590]); (42593, [42592]); (42595, [42594]); (42597, [42596]);
   (42599, [42598]); (42601, [42600]); (42603, [42602]); (42605, [42604]);
   (42625, [42624]); (42627, [42626]); (42629, [42628]); (42631, [42630]);
   (42633, [42632]); (42635, [42634]); (42637, [42636]); (42639, [42638]);
   (42641, [42640]); (42643, [42642]); (42645, [42644]); (42647, [42646]);
   (42649, [42648]); (42651, [42650]); (42787, [42786]); (42789, [42788]);
   (42791, [42790]); (42793, [42792]); (42795, [42794]); (42797, [42796]);
   (42799, [42798]); (42803, [42802]); (42805, [42804]); (42807, [42806]);
   (42809, [42808]); (42811, [42810]); (42813, [42812]); (42815, [42814]);
   (42817, [42816]); (42819, [42818]); (42821, [42820]); (42823, [42822]);
   (42825, [42824]); (42827, [42826]); (42829, [42828]); (42831, [42830]);
   (42833, [42832]); (42835, [42834]); (42837, [42836]); (42839, [42838]);
   (42841, [42840]); (42843, [42842]); (42845, [42844]); (42847, [42846]);
   (42849, [42848]); (42851, [42850]); (42853, [42852]); (42855, [42854]);
   (42857, [42856]); (42859, [42858]); (42861, [42860]); (42863, [42862]);
   (42874, [42873]); (42876, [42875]); (42879, [42878]); (42881, [42880]);
   (42883, [42882]); (42885, [42884]); (42887, [42886]); (42892, [42891]);
   (42897, [42896]); (42899, [42898]); (42900, [42948]); (42903, [42902]);
   (42905, [42904]); (42907, [42906]); (42909, [42908]); (42911, [42910]);
   (42913, [42912]); (42915, [42914]); (42917, [42916]); (42919, [42918]);
   (42921, [42920]); (42933, [42932]); (42935, [42934]); (42937, [42936]);
   (42939, [42938]); (42941, [42940]); (42943, [42942]); (42945, [42944]);
   (42947, [42946]); (42952, [42951]); (42954, [42953]); (42961, [42960]);
   (42967, [42966]); (42969, [42968]); (42998, [42997]); (43859, [42931]); (43888, [5024]);
   (43889, [5025]); (43890, [5026]); (43891, [5027]); (43892, [5028]); (43893, [5029]);
   (43894, [5030]); (43895, [5031]); (43896, [5032]); (43897, [5033]); (43898, [5034]);
   (43899, [5035]); (43900, [5036]); (43901, [5037]); (43902, [5038]); (43903, [5039]);
   (43904, [5040]); (43905, [5041]); (43906, [5042]); (43907, [5043]); (43908, [5044]);
   (43909, [5045]); (43910, [5046]); (43911, [5047]); (43912, [5048]); (43913, [5049]);
   (43914, [5050]); (43915, [5051]); (43916, [5052]); (43917, [5053]); (43918, [5054]);
   (43919, [5055]); (43920, [5056]); (43921, [5057]); (43922, [5058]); (43923, [5059]);
   (43924, [5060]); (43925, [5061]); (43926, [5062]); (43927, [5063]); (43928, [5064]);
   (43929, [5065]); (43930, [5066]); (43931, [5067]); (43932, [5068]); (43933, [5069]);
   (43934, [5070]); (43935, [5071]); (43936, [5072]); (43937, [5073]); (43938, [5074]);
   (43939, [5075]); (43940, [5076]); (43941, [5077]); (43942, [5078]); (43943, [5079]);
   (43944, [5080]); (43945, [5081]); (43946, [5082]); (43947, [5083]); (43948, [5084]);
   (43949, [5085]); (43950, [5086]); (43951, [5087]); (43952, [5088]); (43953, [5089]);
   (43954, [5090]); (43955, [5091]); (43956, [5092]); (43957, [5093]); (43958, [5094]);
   (43959, [5095]); (43960, [5096]); (43961, [5097]); (43962, [5098]); (43963, [5099]);
   (43964, [5100]); (43965, [5101]); (43966, [5102]); (43967, [5103]); (64256, [70; 70]);
   (64257, [70; 73]); (64258, [70; 76]); (64259, [70; 70; 73]); (64260, [70; 70; 76]);
   (64261, [83; 84]); (64262, [83; 84]); (64275, [1348; 1350]); (64276, [1348; 1333]);
   (64277, [1348; 1339]); (64278, [1358; 1350]); (64279, [1348; 1341]); (65345, [65313]);
   (65346, [65314]); (65347, [65315]); (65348, [65316]); (65349, [65317]);
   (65350, [65318]); (65351, [65319]); (65352, [65320]); (65353, [65321]);
   (65354, [65322]); (65355, [65323]); (65356, [65324]); (65357, [65325]);
   (65358, [65326]); (65359, [65327]); (65360, [65328]); (65361, [65329]);
   (65362, [65330]); (65363, [65331]); (65364, [65332]); (65365, [65333]);
   (65366, [65334]); (65367, [65335]); (65368, [65336]); (65369, [65337]);
   (65370, [65338]); (66600, [66560]); (66601, [66561]); (66602, [66562]);
   (66603, [66563]); (66604, [66564]); (66605, [66565]); (66606, [66566]);
   (66607, [66567]); (66608, [66568]); (66609, [66569]); (66610, [66570]);
   (66611, [66571]); (66612, [66572]); (66613, [66573]); (66614, [66574]);
   (66615, [66575]); (66616, [66576]); (66617, [66577]); (66618, [66578]);
   (66619, [66579]); (66620, [66580]); (66621, [66581]); (66622, [66582]);
   (66623, [66583]); (66624, [66584]); (66625, [66585]); (66626, [66586]);
   (66627, [66587]); (66628, [66588]); (66629, [66589]); (66630, [66590]);
   (66631, [66591]); (66632, [66592]); (66633, [66593]); (66634, [66594]);
   (66635, [66595]); (66636, [66596]); (66637, [66597]); (66638, [66598]);
   (66639, [66599]); (66776, [66736]); (66777, [66737]); (66778, [66738]);
   (66779, [66739]); (66780, [66740]); (66781, [66741]); (66782, [66742]);
   (66783, [66743]); (66784, [66744]); (66785, [66745]); (66786, [66746]);
   (66787, [66747]); (66788, [66748]); (66789, [66749]); (66790, [66750]);
   (66791, [66751]); (66792, [66752]); (66793, [66753]); (66794, [66754]);
   (66795, [66755]); (66796, [66756]); (66797, [66757]); (66798, [66758]);
   (66799, [66759]); (66800, [66760]); (66801, [66761]); (66802, [66762]);
   (66803, [66763]); (66804, [66764]); (66805, [66765]); (66806, [66766]);
   (66807, [66767]); (66808, [66768]); (66809, [66769]); (66810, [66770]);
   (66811, [66771]); (66967, [66928]); (66968, [66929]); (66969, [66930]);
   (66970, [66931]); (66971, [66932]); (66972, [66933]); (66973, [66934]);
   (66974, [66935]); (66975, [66936]); (66976, [66937]); (66977, [66938]);
   (66979, [66940]); (66980, [66941]); (66981, [66942]); (66982, [66943]);
   (66983, [66944]); (66984, [66945]); (66985, [66946]); (66986, [66947]);
   (66987, [66948]); (66988, [66949]); (66989, [66950]); (66990, [66951]);
   (66991, [66952]); (66992, [66953]); (66993, [66954]); (66995, [66956]);
   (66996, [66957]); (66997, [66958]); (66998, [66959]); (66999, [66960]);
   (67000, [66961]); (67001, [66962]); (67003, [66964]); (67004, [66965]);
   (68800, [68736]); (68801, [68737]); (68802, [68738]); (68803, [68739]);
   (68804, [68740]); (68805, [68741]); (68806, [68742]); (68807, [68743]);
   (68808, [68744]); (68809, [68745]); (68810, [68746]); (68811, [68747]);
   (68812, [68748]); (68813, [68749]); (68814, [68750]); (68815, [68751]);
   (68816, [68752]); (68817, [68753]); (68818, [68754]); (68819, [68755]);
   (68820, [68756]); (68821, [68757]); (68822, [68758]); (68823, [68759]);
   (68824, [68760]); (68825, [68761]); (68826, [68762]); (68827, [68763]);
   (68828, [68764]); (68829, [68765]); (68830, [68766]); (68831, [68767]);
   (68832, [68768]); (68833, [68769]); (68834, [68770]); (68835, [68771]);
   (68836, [68772]); (68837, [68773]); (68838, [68774]); (68839, [68775]);
   (68840, [68776]); (68841, [68777]); (68842, [68778]); (68843, [68779]);
   (68844, [68780]); (68845, [68781]); (68846, [68782]); (68847, [68783]);
   (68848, [68784]); (68849, [68785]); (68850, [68786]); (71872, [71840]);
   (71873, [71841]); (71874, [71842]); (71875, [71843]); (71876, [71844]);
   (71877, [71845]); (71878, [71846]); (71879, [71847]); (71880, [71848]);
   (71881, [71849]); (71882, [71850]); (71883, [71851]); (71884, [71852]);
   (71885, [71853]); (71886, [71854]); (71887, [71855]); (71888, [71856]);
   (71889, [71857]); (71890, [71858]); (71891, [71859]); (71892, [71860]);
   (71893, [71861]); (71894, [71862]); (71895, [71863]); (71896, [71864]);
   (71897, [71865]); (71898, [71866]); (71899, [71867]); (71900, [71868]);
   (71901, [71869]); (71902, [71870]); (71903, [71871]); (93792, [93760]);
   (93793, [93761]); (93794, [93762]); (93795, [93763]); (93796, [93764]);
   (93797, [93765]); (93798, [93766]); (93799, [93767]); (93800, [93768]);
   (93801, [93769]); (93802, [93770]); (93803, [93771]); (93804, [93772]);
   (93805, [93773]); (93806, [93774]); (93807, [93775]); (93808, [93776]);
   (93809, [93777]); (93810, [93778]); (93811, [93779]); (93812, [93780]);
   (93813, [93781]); (93814, [93782]); (93815, [93783]); (93816, [93784]);
   (93817, [93785]); (93818, [93786]); (93819, [93787]); (93820, [93788]);
   (93821, [93789]); (93822, [93790]); (93823, [93791]); (125218, [125184]);
   (125219, [125185]); (125220, [125186]); (125221, [125187]); (125222, [125188]);
   (125223, [125189]); (125224, [125190]); (125225, [125191]); (125226, [125192]);
   (125227, [125193]); (125228, [125194]); (125229, [125195]); (125230, [125196]);
   (125231, [125197]); (125232, [125198]); (125233, [125199]); (125234, [125200]);
   (125235, [125201]); (125236, [125202]); (125237, [125203]); (125238, [125204]);
   (125239, [125205]); (125240, [125206]); (125241, [125207]); (125242, [125208]);
   (125243, [125209]); (125244, [125210]); (125245, [125211]); (125246, [125212]);
   (125247, [125213]); (125248, [125214]); (125249, [125215]); (125250, [125216]);
   (125251, [125217])]%N.

(** The code points [str.lower] changes, taken one at a time. *)
Definition lower_table : list (N * list N) :=
  [(65, [97]); (66, [98]); (67, [99]); (68, [100]); (69, [101]); (70, [102]); (71, [103]);
   (72, [104]); (73, [105]); (74, [106]); (75, [107]); (76, [108]); (77, [109]);
   (78, [110]); (79, [111]); (80, [112]); (81, [113]); (82, [114]); (83, [115]);
   (84, [116]); (85, [117]); (86, [118]); (87, [119]); (88, [120]); (89, [121]);
   (90, [122]); (192, [224]); (193, [225]); (194, [226]); (195, [227]); (196, [228]);
   (197, [229]); (198, [230]); (199, [231]); (200, [232]); (201, [233]); (202, [234]);
   (203, [235]); (204, [236]); (205, [237]); (206, [238]); (207, [239]); (208, [240]);
   (209, [241]); (210, [242]); (211, [243]); (212, [244]); (213, [245]); (214, [246]);
   (216, [248]); (217, [249]); (218, [250]); (219, [251]); (220, [252]); (221, [253]);
   (222, [254]); (256, [257]); (258, [259]); (260, [261]); (262, [263]); (264, [265]);
   (266, [267]); (268, [269]); (270, [271]); (272, [273]); (274, [275]); (276, [277]);
   (278, [279]); (280, [281]); (282, [283]); (284, [285]); (286, [287]); (288, [289]);
   (290, [291]); (292, [293]); (294, [295]); (296, [297]); (298, [299]); (300, [301]);
   (302, [303]); (304, [105; 775]); (306, [307]); (308, [309]); (310, [311]); (313, [314]);
   (315, [316]); (317, [318]); (319, [320]); (321, [322]); (323, [324]); (325, [326]);
   (327, [328]); (330, [331]); (332, [333]); (334, [335]); (336, [337]); (338, [339]);
   (340, [341]); (342, [343]); (344, [345]); (346, [347]); (348, [349]); (350, [351]);
   (352, [353]); (354, [355]); (356, [357]); (358, [359]); (360, [361]); (362, [363]);
   (364, [365]); (366, [367]); (368, [369]); (370, [371]); (372, [373]); (374, [375]);
   (376, [255]); (377, [378]); (379, [380]); (381, [382]); (385, [595]); (386, [387]);
   (388, [389]); (390, [596]); (391, [392]); (393, [598]); (394, [599]); (395, [396]);
   (398, [477]); (399, [601]); (400, [603]); (401, [402]); (403, [608]); (404, [611]);
   (406, [617]); (407, [616]); (408, [409]); (412, [623]); (413, [626]); (415, [629]);
   (416, [417]); (418, [419]); (420, [421]); (422, [640]); (423, [424]); (425, [643]);
   (428, [429]); (430, [648]); (431, [432]); (433, [650]); (434, [651]); (435, [436]);
   (437, [438]); (439, [658]); (440, [441]); (444, [445]); (452, [454]); (453, [454]);
   (455, [457]); (456, [457]); (458, [460]); (459, [460]); (461, [462]); (463, [464]);
   (465, [466]); (467, [468]); (469, [470]); (471, [472]); (473, [474]); (475, [476]);
   (478, [479]); (480, [481]); (482, [483]); (484, [485]); (486, [487]); (488, [489]);
   (490, [491]); (492, [493]); (494, [495]); (497, [499]); (498, [499]); (500, [501]);
   (502, [405]); (503, [447]); (504, [505]); (506, [507]); (508, [509]); (510, [511]);
   (512, [513]); (514, [515]); (516, [517]); (518, [519]); (520, [521]); (522, [523]);
   (524, [525]); (526, [527]); (528, [529]); (530, [531]); (532, [533]); (534, [535]);
   (536, [537]); (538, [539]); (540, [541]); (542, [543]); (544, [414]); (546, [547]);
   (548, [549]); (550, [551]); (552, [553]); (554, [555]); (556, [557]); (558, [559]);
   (560, [561]); (562, [563]); (570, [11365]); (571, [572]); (573, [410]); (574, [11366]);
   (577, [578]); (579, [384]); (580, [649]); (581, [652]); (582, [583]); (584, [585]);
   (586, [587]); (588, [589]); (590, [591]); (880, [881]); (882, [883]); (886, [887]);
   (895, [1011]); (902, [940]); (904, [941]); (905, [942]); (906, [943]); (908, [972]);
   (910, [973]); (911, [974]); (913, [945]); (914, [946]); (915, [947]); (916, [948]);
   (917, [949]); (918, [950]); (919, [951]); (920, [952]); (921, [953]); (922, [954]);
   (923, [955]); (924, [956]); (925, [957]); (926, [958]); (927, [959]); (928, [960]);
   (929, [961]); (931, [963]); (932, [964]); (933, [965]); (934, [966]); (935, [967]);
   (936, [968]); (937, [969]); (938, [970]); (939, [971]); (975, [983]); (984, [985]);
   (986, [987]); (988, [989]); (990, [991]); (992, [993]); (994, [995]); (996, [997]);
   (998, [999]); (1000, [1001]); (1002, [1003]); (1004, [1005]); (1006, [1007]);
   (1012, [952]); (1015, [1016]); (1017, [1010]); (1018, [1019]); (1021, [891]);
   (1022, [892]); (1023, [893]); (1024, [1104]); (1025, [1105]); (1026, [1106]);
   (1027, [1107]); (1028, [1108]); (1029, [1109]); (1030, [1110]); (1031, [1111]);
   (1032, [1112]); (1033, [1113]); (1034, [1114]); (1035, [1115]); (1036, [1116]);
   (1037, [1117]); (1038, [1118]); (1039, [1119]); (1040, [1072]); (1041, [1073]);
   (1042, [1074]); (1043, [1075]); (1044, [1076]); (1045, [1077]); (1046, [1078]);
   (1047, [1079]); (1048, [1080]); (1049, [1081]); (1050, [1082]); (1051, [1083]);
   (1052, [1084]); (1053, [1085]); (1054, [1086]); (1055, [1087]); (1056, [1088]);
   (1057, [1089]); (1058, [1090]); (1059, [1091]); (1060, [1092]); (1061, [1093]);
   (1062, [1094]); (1063, [1095]); (1064, [1096]); (1065, [1097]); (1066, [1098]);
   (1067, [1099]); (1068, [1100]); (1069, [1101]); (1070, [1102]); (1071, [1103]);
   (1120, [1121]); (1122, [1123]); (1124, [1125]); (1126, [1127]); (1128, [1129]);
   (1130, [1131]); (1132, [1133]); (1134, [1135]); (1136, [1137]); (1138, [1139]);
   (1140, [1141]); (1142, [1143]); (1144, [1145]); (1146, [1147]); (1148, [1149]);
   (1150, [1151]); (1152, [1153]); (1162, [1163]); (1164, [1165]); (1166, [1167]);
   (1168, [1169]); (1170, [1171]); (1172, [1173]); (1174, [1175]); (1176, [1177]);
   (1178, [1179]); (1180, [1181]); (1182, [1183]); (1184, [1185]); (1186, [1187]);
   (1188, [1189]); (1190, [1191]); (1192, [1193]); (1194, [1195]); (1196, [1197]);
   (1198, [1199]); (1200, [1201]); (1202, [1203]); (1204, [1205]); (1206, [1207]);
   (1208, [1209]); (1210, [1211]); (1212, [1213]); (1214, [1215]); (1216, [1231]);
   (1217, [1218]); (1219, [1220]); (1221, [1222]); (1223, [1224]); (1225, [1226]);
   (1227, [1228]); (1229, [1230]); (1232, [1233]); (1234, [1235]); (1236, [1237]);
   (1238, [1239]); (1240, [1241]); (1242, [1243]); (1244, [1245]); (1246, [1247]);
   (1248, [1249]); (1250, [1251]); (1252, [1253]); (1254, [1255]); (1256, [1257]);
   (1258, [1259]); (1260, [1261]); (1262, [1263]); (1264, [1265]); (1266, [1267]);
   (1268, [1269]); (1270, [1271]); (1272, [1273]); (1274, [1275]); (1276, [1277]);
   (1278, [1279]); (1280, [1281]); (1282, [1283]); (1284, [1285]); (1286, [1287]);
   (1288, [1289]); (1290, [1291]); (1292, [1293]); (1294, [1295]); (1296, [1297]);
   (1298, [1299]); (1300, [1301]); (1302, [1303]); (1304, [1305]); (1306, [1307]);
   (1308, [1309]); (1310, [1311]); (1312, [1313]); (1314, [1315]); (1316, [1317]);
   (1318, [1319]); (1320, [1321]); (1322, [1323]); (1324, [1325]); (1326, [1327]);
   (1329, [1377]); (1330, [1378]); (1331, [1379]); (1332, [1380]); (1333, [1381]);
   (1334, [1382]); (1335, [1383]); (1336, [1384]); (1337, [1385]); (1338, [1386]);
   (1339, [1387]); (1340, [1388]); (1341, [1389]); (1342, [1390]); (1343, [1391]);
   (1344, [1392]); (1345, [1393]); (1346, [1394]); (1347, [1395]); (1348, [1396]);
   (1349, [1397]); (1350, [1398]); (1351, [1399]); (1352, [1400]); (1353, [1401]);
   (1354, [1402]); (1355, [1403]); (1356, [1404]); (1357, [1405]); (1358, [1406]);
   (1359, [1407]); (1360, [1408]); (1361, [1409]); (1362, [1410]); (1363, [1411]);
   (1364, [1412]); (1365, [1413]); (1366, [1414]); (4256, [11520]); (4257, [11521]);
   (4258, [11522]); (4259, [11523]); (4260, [11524]); (4261, [11525]); (4262, [11526]);
   (4263, [11527]); (4264, [11528]); (4265, [11529]); (4266, [11530]); (4267, [11531]);
   (4268, [11532]); (4269, [11533]); (4270, [11534]); (4271, [11535]); (4272, [11536]);
   (4273, [11537]); (4274, [11538]); (4275, [11539]); (4276, [11540]); (4277, [11541]);
   (4278, [11542]); (4279, [11543]); (4280, [11544]); (4281, [11545]); (4282, [11546]);
   (4283, [11547]); (4284, [11548]); (4285, [11549]); (4286, [11550]); (4287, [11551]);
   (4288, [11552]); (4289, [11553]); (4290, [11554]); (4291, [11555]); (4292, [11556]);
   (4293, [11557]); (4295, [11559]); (4301, [11565]); (5024, [43888]); (5025, [43889]);
   (5026, [43890]); (5027, [43891]); (5028, [43892]); (5029, [43893]); (5030, [43894]);
   (5031, [43895]); (5032, [43896]); (5033, [43897]); (5034, [43898]); (5035, [43899]);
   (5036, [43900]); (5037, [43901]); (5038, [43902]); (5039, [43903]); (5040, [43904]);
   (5041, [43905]); (5042, [43906]); (5043, [43907]); (5044, [43908]); (5045, [43909]);
   (5046, [43910]); (5047, [43911]); (5048, [43912]); (5049, [43913]); (5050, [43914]);
   (5051, [43915]); (5052, [43916]); (5053, [43917]); (5054, [43918]); (5055, [43919]);
   (5056, [43920]); (5057, [43921]); (5058, [43922]); (5059, [43923]); (5060, [43924]);
   (5061, [43925]); (5062, [43926]); (5063, [43927]); (5064, [43928]); (5065, [43929]);
   (5066, [43930]); (5067, [43931]); (5068, [43932]); (5069, [43933]); (5070, [43934]);
   (5071, [43935]); (5072, [43936]); (5073, [43937]); (5074, [43938]); (5075, [43939]);
   (5076, [43940]); (5077, [43941]); (5078, [43942]); (5079, [43943]); (5080, [43944]);
   (5081, [43945]); (5082, [43946]); (5083, [43947]); (5084, [43948]); (5085, [43949]);
   (5086, [43950]); (5087, [43951]); (5088, [43952]); (5089, [43953]); (5090, [43954]);
   (5091, [43955]); (5092, [43956]); (5093, [43957]); (5094, [43958]); (5095, [43959]);
   (5096, [43960]); (5097, [43961]); (5098, [43962]); (5099, [43963]); (5100, [43964]);
   (5101, [43965]); (5102, [43966]); (5103, [43967]); (5104, [5112]); (5105, [5113]);
   (5106, [5114]); (5107, [5115]); (5108, [5116]); (5109, [5117]); (7312, [4304]);
   (7313, [4305]); (7314, [4306]); (7315, [4307]); (7316, [4308]); (7317, [4309]);
   (7318, [4310]); (7319, [4311]); (7320, [4312]); (7321, [4313]); (7322, [4314]);
   (7323, [4315]); (7324, [4316]); (7325, [4317]); (7326, [4318]); (7327, [4319]);
   (7328, [4320]); (7329, [4321]); (7330, [4322]); (7331, [4323]); (7332, [4324]);
   (7333, [4325]); (7334, [4326]); (7335, [4327]); (7336, [4328]); (7337, [4329]);
   (7338, [4330]); (7339, [4331]); (7340, [4332]); (7341, [4333]); (7342, [4334]);
   (7343, [4335]); (7344, [4336]); (7345, [4337]); (7346, [4338]); (7347, [4339]);
   (7348, [4340]); (7349, [4341]); (7350, [4342]); (7351, [4343]); (7352, [4344]);
   (7353, [4345]); (7354, [4346]); (7357, [4349]); (7358, [4350]); (7359, [4351]);
   (7680, [7681]); (7682, [7683]); (7684, [7685]); (7686, [7687]); (7688, [7689]);
   (7690, [7691]); (7692, [7693]); (7694, [7695]); (7696, [7697]); (7698, [7699]);
   (7700, [7701]); (7702, [7703]); (7704, [7705]); (7706, [7707]); (7708, [7709]);
   (7710, [7711]); (7712, [7713]); (7714, [7715]); (7716, [7717]); (7718, [7719]);
   (7720, [7721]); (7722, [7723]); (7724, [7725]); (7726, [7727]); (7728, [7729]);
   (7730, [7731]); (7732, [7733]); (7734, [7735]); (7736, [7737]); (7738, [7739]);
   (7740, [7741]); (7742, [7743]); (7744, [7745]); (7746, [7747]); (7748, [7749]);
   (7750, [7751]); (7752, [7753]); (7754, [7755]); (7756, [7757]); (7758, [7759]);
   (7760, [7761]); (7762, [7763]); (7764, [7765]); (7766, [7767]); (7768, [7769]);
   (7770, [7771]); (7772, [7773]); (7774, [7775]); (7776, [7777]); (7778, [7779]);
   (7780, [7781]); (7782, [7783]); (7784, [7785]); (7786, [7787]); (7788, [7789]);
   (7790, [7791]); (7792, [7793]); (7794, [7795]); (7796, [7797]); (7798, [7799]);
   (7800, [7801]); (7802, [7803]); (7804, [7805]); (7806, [7807]); (7808, [7809]);
   (7810, [7811]); (7812, [7813]); (7814, [7815]); (7816, [7817]); (7818, [7819]);
   (7820, [7821]); (7822, [7823]); (7824, [7825]); (7826, [7827]); (7828, [7829]);
   (7838, [223]); (7840, [7841]); (7842, [7843]); (7844, [7845]); (7846, [7847]);
   (7848, [7849]); (7850, [7851]); (7852, [7853]); (7854, [7855]); (7856, [7857]);
   (7858, [7859]); (7860, [7861]); (7862, [7863]); (7864, [7865]); (7866, [7867]);
   (7868, [7869]); (7870, [7871]); (7872, [7873]); (7874, [7875]); (7876, [7877]);
   (7878, [7879]); (7880, [7881]); (7882, [7883]); (7884, [7885]); (7886, [7887]);
   (7888, [7889]); (7890, [7891]); (7892, [7893]); (7894, [7895]); (7896, [7897]);
   (7898, [7899]); (7900, [7901]); (7902, [7903]); (7904, [7905]); (7906, [7907]);
   (7908, [7909]); (7910, [7911]); (7912, [7913]); (7914, [7915]); (7916, [7917]);
   (7918, [7919]); (7920, [7921]); (7922, [7923]); (7924, [7925]); (7926, [7927]);
   (7928, [7929]); (7930, [7931]); (7932, [7933]); (7934, [7935]); (7944, [7936]);
   (7945, [7937]); (7946, [7938]); (7947, [7939]); (7948, [7940]); (7949, [7941]);
   (7950, [7942]); (7951, [7943]); (7960, [7952]); (7961, [7953]); (7962, [7954]);
   (7963, [7955]); (7964, [7956]); (7965, [7957]); (7976, [7968]); (7977, [7969]);
   (7978, [7970]); (7979, [7971]); (7980, [7972]); (7981, [7973]); (7982, [7974]);
   (7983, [7975]); (7992, [7984]); (7993, [7985]); (7994, [7986]); (7995, [7987]);
   (7996, [7988]); (7997, [7989]); (7998, [7990]); (7999, [7991]); (8008, [8000]);
   (8009, [8001]); (8010, [8002]); (8011, [8003]); (8012, [8004]); (8013, [8005]);
   (8025, [8017]); (8027, [8019]); (8029, [8021]); (8031, [8023]); (8040, [8032]);
   (8041, [8033]); (8042, [8034]); (8043, [8035]); (8044, [8036]); (8045, [8037]);
   (8046, [8038]); (8047, [8039]); (8072, [8064]); (8073, [8065]); (8074, [8066]);
   (8075, [8067]); (8076, [8068]); (8077, [8069]); (8078, [8070]); (8079, [8071]);
   (8088, [8080]); (8089, [8081]); (8090, [8082]); (8091, [8083]); (8092, [8084]);
   (8093, [8085]); (8094, [8086]); (8095, [8087]); (8104, [8096]); (8105, [8097]);
   (8106, [8098]); (8107, [8099]); (8108, [8100]); (8109, [8101]); (8110, [8102]);
   (8111, [8103]); (8120, [8112]); (8121, [8113]); (8122, [8048]); (8123, [8049]);
   (8124, [8115]); (8136, [8050]); (8137, [8051]); (8138, [8052]); (8139, [8053]);
   (8140, [8131]); (8152, [8144]); (8153, [8145]); (8154, [8054]); (8155, [8055]);
   (8168, [8160]); (8169, [8161]); (8170, [8058]); (8171, [8059]); (8172, [8165]);
   (8184, [8056]); (8185, [8057]); (8186, [8060]); (8187, [8061]); (8188, [8179]);
   (8486, [969]); (8490, [107]); (8491, [229]); (8498, [8526]); (8544, [8560]);
   (8545, [8561]); (8546, [8562]); (8547, [8563]); (8548, [8564]); (8549, [8565]);
   (8550, [8566]); (8551, [8567]); (8552, [8568]); (8553, [8569]); (8554, [8570]);
   (8555, [8571]); (8556, [8572]); (8557, [8573]); (8558, [8574]); (8559, [8575]);
   (8579, [8580]); (9398, [9424]); (9399, [9425]); (9400, [9426]); (9401, [9427]);
   (9402, [9428]); (9403, [9429]); (9404, [9430]); (9405, [9431]); (9406, [9432]);
   (9407, [9433]); (9408, [9434]); (9409, [9435]); (9410, [9436]); (9411, [9437]);
   (9412, [9438]); (9413, [9439]); (9414, [9440]); (9415, [9441]); (9416, [9442]);
   (9417, [9443]); (9418, [9444]); (9419, [9445]); (9420, [9446]); (9421, [9447]);
   (9422, [9448]); (9423, [9449]); (11264, [11312]); (11265, [11313]); (11266, [11314]);
   (11267, [11315]); (11268, [11316]); (11269, [11317]); (11270, [11318]);
   (11271, [11319]); (11272, [11320]); (11273, [11321]); (11274, [11322]);
   (11275, [11323]); (11276, [11324]); (11277, [11325]); (11278, [11326]);
   (11279, [11327]); (11280, [11328]); (11281, [11329]); (11282, [11330]);
   (11283, [11331]); (11284, [11332]); (11285, [11333]); (11286, [11334]);
   (11287, [11335]); (11288, [11336]); (11289, [11337]); (11290, [11338]);
   (11291, [11339]); (11292, [11340]); (11293, [11341]); (11294, [11342]);
   (11295, [11343]); (11296, [11344]); (11297, [11345]); (11298, [11346]);
   (11299, [11347]); (11300, [11348]); (11301, [11349]); (11302, [11350]);
   (11303, [11351]); (11304, [11352]); (11305, [11353]); (11306, [11354]);
   (11307, [11355]); (11308, [11356]); (11309, [11357]); (11310, [11358]);
   (11311, [11359]); (11360, [11361]); (11362, [619]); (11363, [7549]); (11364, [637]);
   (11367, [11368]); (11369, [11370]); (11371, [11372]); (11373, [593]); (11374, [625]);
   (11375, [592]); (11376, [594]); (11378, [11379]); (11381, [11382]); (11390, [575]);
   (11391, [576]); (11392, [11393]); (11394, [11395]); (11396, [11397]); (11398, [11399]);
   (11400, [11401]); (11402, [11403]); (11404, [11405]); (11406, [11407]);
   (11408, [11409]); (11410, [11411]); (11412, [11413]); (11414, [11415]);
   (11416, [11417]); (11418, [11419]); (11420, [11421]); (11422, [11423]);
   (11424, [11425]); (11426, [11427]); (11428, [11429]); (11430, [11431]);
   (11432, [11433]); (11434, [11435]); (11436, [11437]); (11438, [11439]);
   (11440, [11441]); (11442, [11443]); (11444, [11445]); (11446, [11447]);
   (11448, [11449]); (11450, [11451]); (11452, [11453]); (11454, [11455]);
   (11456, [11457]); (11458, [11459]); (11460, [11461]); (11462, [11463]);
   (11464, [11465]); (11466, [11467]); (11468, [11469]); (11470, [11471]);
   (11472, [11473]); (11474, [11475]); (11476, [11477]); (11478, [11479]);
   (11480, [11481]); (11482, [11483]); (11484, [11485]); (11486, [11487]);
   (11488, [11489]); (11490, [11491]); (11499, [11500]); (11501, [11502]);
   (11506, [11507]); (42560, [42561]); (42562, [42563]); (42564, [42565]);
   (42566, [42567]); (42568, [42569]); (42570, [42571]); (42572, [42573]);
   (42574, [42575]); (42576, [42577]); (42578, [42579]); (42580, [42581]);
   (42582, [42583]); (42584, [42585]); (42586, [42587]); (42588, [42589]);
   (42590, [42591]); (42592, [42593]); (42594, [42595]); (42596, [42597]);
   (42598, [42599]); (42600, [42601]); (42602, [42603]); (42604, [42605]);
   (42624, [42625]); (42626, [42627]); (42628, [42629]); (42630, [42631]);
   (42632, [42633]); (42634, [42635]); (42636, [42637]); (42638, [42639]);
   (42640, [42641]); (42642, [42643]); (42644, [42645]); (42646, [42647]);
   (42648, [42649]); (42650, [42651]); (42786, [42787]); (42788, [42789]);
   (42790, [42791]); (42792, [42793]); (42794, [42795]); (42796, [42797]);
   (42798, [42799]); (42802, [42803]); (42804, [42805]); (42806, [42807]);
   (42808, [42809]); (42810, [42811]); (42812, [42813]); (42814, [42815]);
   (42816, [42817]); (42818, [42819]); (42820, [42821]); (42822, [42823]);
   (42824, [42825]); (42826, [42827]); (42828, [42829]); (42830, [42831]);
   (42832, [42833]); (42834, [42835]); (42836, [42837]); (42838, [42839]);
   (42840, [42841]); (42842, [42843]); (42844, [42845]); (42846, [42847]);
   (42848, [42849]); (42850, [42851]); (42852, [42853]); (42854, [42855]);
   (42856, [42857]); (42858, [42859]); (42860, [42861]); (42862, [42863]);
   (42873, [42874]); (42875, [42876]); (42877, [7545]); (42878, [42879]); (42880, [42881]);
   (42882, [42883]); (42884, [42885]); (42886, [42887]); (42891, [42892]); (42893, [613]);
   (42896, [42897]); (42898, [42899]); (42902, [42903]); (42904, [42905]);
   (42906, [42907]); (42908, [42909]); (42910, [42911]); (42912, [42913]);
   (42914, [42915]); (42916, [42917]); (42918, [42919]); (42920, [42921]); (42922, [614]);
   (42923, [604]); (42924, [609]); (42925, [620]); (42926, [618]); (42928, [670]);
   (42929, [647]); (42930, [669]); (42931, [43859]); (42932, [42933]); (42934, [42935]);
   (42936, [42937]); (42938, [42939]); (42940, [42941]); (42942, [42943]);
   (42944, [42945]); (42946, [42947]); (42948, [42900]); (42949, [642]); (42950, [7566]);
   (42951, [42952]); (42953, [42954]); (42960, [42961]); (42966, [42967]);
   (42968, [42969]); (42997, [42998]); (65313, [65345]); (65314, [65346]);
   (65315, [65347]); (65316, [65348]); (65317, [65349]); (65318, [65350]);
   (65319, [65351]); (65320, [65352]); (65321, [65353]); (65322, [65354]);
   (65323, [65355]); (65324, [65356]); (65325, [65357]); (65326, [65358]);
   (65327, [65359]); (65328, [65360]); (65329, [65361]); (65330, [65362]);
   (65331, [65363]); (65332, [65364]); (65333, [65365]); (65334, [65366]);
   (65335, [65367]); (65336, [65368]); (65337, [65369]); (65338, [65370]);
   (66560, [66600]); (66561, [66601]); (66562, [66602]); (66563, [66603]);
   (66564, [66604]); (66565, [66605]); (66566, [66606]); (66567, [66607]);
   (66568, [66608]); (66569, [66609]); (66570, [66610]); (66571, [66611]);
   (66572, [66612]); (66573, [66613]); (66574, [66614]); (66575, [66615]);
   (66576, [66616]); (66577, [66617]); (66578, [66618]); (66579, [66619]);
   (66580, [66620]); (66581, [66621]); (66582, [66622]); (66583, [66623]);
   (66584, [66624]); (66585, [66625]); (66586, [66626]); (66587, [66627]);
   (66588, [66628]); (66589, [66629]); (66590, [66630]); (66591, [66631]);
   (66592, [66632]); (66593, [66633]); (66594, [66634]); (66595, [66635]);
   (66596, [66636]); (66597, [66637]); (66598, [66638]); (66599, [66639]);
   (66736, [66776]); (66737, [66777]); (66738, [66778]); (66739, [66779]);
   (66740, [66780]); (66741, [66781]); (66742, [66782]); (66743, [66783]);
   (66744, [66784]); (66745, [66785]); (66746, [66786]); (66747, [66787]);
   (66748, [66788]); (66749, [66789]); (66750, [66790]); (66751, [66791]);
   (66752, [66792]); (66753, [66793]); (66754, [66794]); (66755, [66795]);
   (66756, [66796]); (66757, [66797]); (66758, [66798]); (66759, [66799]);
   (66760, [66800]); (66761, [66801]); (66762, [66802]); (66763, [66803]);
   (66764, [66804]); (66765, [66805]); (66766, [66806]); (66767, [66807]);
   (66768, [66808]); (66769, [66809]); (66770, [66810]); (66771, [66811]);
   (66928, [66967]); (66929, [66968]); (66930, [66969]); (66931, [66970]);
   (66932, [66971]); (66933, [66972]); (66934, [66973]); (66935, [66974]);
   (66936, [66975]); (66937, [66976]); (66938, [66977]); (66940, [66979]);
   (66941, [66980]); (66942, [66981]); (66943, [66982]); (66944, [66983]);
   (66945, [66984]); (66946, [66985]); (66947, [66986]); (66948, [66987]);
   (66949, [66988]); (66950, [66989]); (66951, [66990]); (66952, [66991]);
   (66953, [66992]); (66954, [66993]); (66956, [66995]); (66957, [66996]);
   (66958, [66997]); (66959, [66998]); (66960, [66999]); (66961, [67000]);
   (66962, [67001]); (66964, [67003]); (66965, [67004]); (68736, [68800]);
   (68737, [68801]); (68738, [68802]); (68739, [68803]); (68740, [68804]);
   (68741, [68805]); (68742, [68806]); (68743, [68807]); (68744, [68808]);
   (68745, [68809]); (68746, [68810]); (68747, [68811]); (68748, [68812]);
   (68749, [68813]); (68750, [68814]); (68751, [68815]); (68752, [68816]);
   (68753, [68817]); (68754, [68818]); (68755, [68819]); (68756, [68820]);
   (68757, [68821]); (68758, [68822]); (68759, [68823]); (68760, [68824]);
   (68761, [68825]); (68762, [68826]); (68763, [68827]); (68764, [68828]);
   (68765, [68829]); (68766, [68830]); (68767, [68831]); (68768, [68832]);
   (68769, [68833]); (68770, [68834]); (68771, [68835]); (68772, [68836]);
   (68773, [68837]); (68774, [68838]); (68775, [68839]); (68776, [68840]);
   (68777, [68841]); (68778, [68842]); (68779, [68843]); (68780, [68844]);
   (68781, [68845]); (68782, [68846]); (68783, [68847]); (68784, [68848]);
   (68785, [68849]); (68786, [68850]); (71840, [71872]); (71841, [71873]);
   (71842, [71874]); (71843, [71875]); (71844, [71876]); (71845, [71877]);
   (71846, [71878]); (71847, [71879]); (71848, [71880]); (71849, [71881]);
   (71850, [71882]); (71851, [71883]); (71852, [71884]); (71853, [71885]);
   (71854, [71886]); (71855, [71887]); (71856, [71888]); (71857, [71889]);
   (71858, [71890]); (71859, [71891]); (71860, [71892]); (71861, [71893]);
   (71862, [71894]); (71863, [71895]); (71864, [71896]); (71865, [71897]);
   (71866, [71898]); (71867, [71899]); (71868, [71900]); (71869, [71901]);
   (71870, [71902]); (71871, [71903]); (93760, [93792]); (93761, [93793]);
   (93762, [93794]); (93763, [93795]); (93764, [93796]); (93765, [93797]);
   (93766, [93798]); (93767, [93799]); (93768, [93800]); (93769, [93801]);
   (93770, [93802]); (93771, [93803]); (93772, [93804]); (93773, [93805]);
   (93774, [93806]); (93775, [93807]); (93776, [93808]); (93777, [93809]);
   (93778, [93810]); (93779, [93811]); (93780, [93812]); (93781, [93813]);
   (93782, [93814]); (93783, [93815]); (93784, [93816]); (93785, [93817]);
   (93786, [93818]); (93787, [93819]); (93788, [93820]); (93789, [93821]);
   (93790, [93822]); (93791, [93823]); (125184, [125218]); (125185, [125219]);
   (125186, [125220]); (125187, [125221]); (125188, [125222]); (125189, [125223]);
   (125190, [125224]); (125191, [125225]); (125192, [125226]); (125193, [125227]);
   (125194, [125228]); (125195, [125229]); (125196, [125230]); (125197, [125231]);
   (125198, [125232]); (125199, [125233]); (125200, [125234]); (125201, [125235]);
   (125202, [125236]); (125203, [125237]); (125204, [125238]); (125205, [125239]);
   (125206, [125240]); (125207, [125241]); (125208, [125242]); (125209, [125243]);
   (125210, [125244]); (125211, [125245]); (125212, [125246]); (125213, [125247]);
   (125214, [125248]); (125215, [125249]); (125216, [125250]); (125217, [125251])]%N.

Definition assoc (n : N) (table : list (N * list N)) : option (list N) :=
  snd <$> find (λ e, N.eqb e.1 n) table.

(** The texts of a list, one after the other. *)
Fixpoint join (l : list string) : string :=
  match l with
  | [] => EmptyString
  | x :: rest => x +:+ join rest
  end.

(** One character through a case table: a code point the table does not
    list stays as it is. *)
Definition map_char (table : list (N * list N)) (ch : string) : string :=
  match code ch with
  | Some n =>
      match assoc n table with
      | Some image => join (utf8 <$> image)
      | None => ch
      end
  | None => ch
  end.

(** [s.upper()]. *)
Definition upper (s : string) : string := join (map_char upper_table <$> chars s).

(** [s.lower()], each character by itself: the one rule of Python that
    looks at the neighbours, which of the two small sigmas a capital sigma
    becomes, is left out.  The texts a lower-cased text is compared with
    here (nan, none, the mail domains) hold no sigma, so the outcome of
    these comparisons is the one of Python. *)
Definition lower (s : string) : string := join (map_char lower_table <$> chars s).

Fixpoint lstrip_chars (l : list string) : list string :=
  match l with
  | ch :: rest => if isspace ch then lstrip_chars rest else l
  | [] => []
  end.

(** [s.strip()] with no argument. *)
Definition strip (s : string) : string :=
  join (reverse (lstrip_chars (reverse (lstrip_chars (chars s))))).

(** Every character of [s] is whitespace. *)
Definition all_space (s : string) : bool := forallb isspace (chars s).

(** [s.endswith(suffix)]. *)
Fixpoint endswith (s suffix : string) : bool :=
  String.eqb s suffix ||
  match s with
  | EmptyString => false
  | String _ s' => endswith s' suffix
  end.

(** Truth value of a [str]: the empty string is falsy. *)
Definition truthy (s : string) : bool := negb (String.eqb s "").

End PyStr.

Arguments PyStr.upper : simpl never.
Arguments PyStr.lower : simpl never.
Arguments PyStr.strip : simpl never.
Arguments PyStr.all_space : simpl never.
Arguments PyStr.isspace : simpl never.

(** Two tests on an entry of a case table, run over the whole of a
    table: the image of the code point is not the empty text; and the image
    is the text Y for the code point of y only. *)
Definition image_nonempty (e : N * list N) : bool :=
  negb (String.eqb (PyStr.join (PyStr.utf8 <$> e.2)) "").

Definition only_y (e : N * list N) : bool :=
  implb (String.eqb (PyStr.join (PyStr.utf8 <$> e.2)) "Y") (N.eqb e.1 121).

(** ** Spreadsheet cells

    A cell read by [pd.read_excel] is missing ([NaN]), a text or a number
    (an integer: the counters and limits of the senders sheet are whole
    numbers).  [fillna("")] turns the missing ones into the empty text.
    On a column that holds a text the [.str] accessor works cell by
    cell; on a column that holds none it does not exist (see
    [str_accessor]). *)

Inductive cell :=
| NaN
| Str (s : string)
| Num (z : Z).

Definition fillna (c : cell) : cell :=
  match c with NaN => Str "" | _ => c end.

Definition isna (c : cell) : bool :=
  match c with NaN => true | _ => false end.

(** The [.str] accessor works element-wise and yields NaN on a cell that
    is not a text. *)
Definition str_strip (c : cell) : cell :=
  match c with Str s => Str (PyStr.strip s) | _ => NaN end.

Definition str_upper (c : cell) : cell :=
  match c with Str s => Str (PyStr.upper s) | _ => NaN end.

(** [column == "text"], element-wise. *)
Definition eq_text (c : cell) (s : string) : bool :=
  match c with Str t => String.eqb t s | _ => false end.

(** ** Records of the four sheets *)

Record Profile := {
  profile_id : string;
  nom : string;
  prenom : string;
  profil_pro : string;
  contact : list (string * string)
}.

(** The [intitulé] column is taken to be present, so the default of
    [getattr(offer, 'intitulé', ...)] is never used. *)
Record JobOffer := {
  job_id : string;
  intitule : string;
  infos : string;
  recruiter_email : string
}.

Record Application := {
  app_profile_id : string;
  app_job_id : string;
  generate_lm : cell;
  email_sent : cell;
  sent_at : cell
}.

Record Sender := {
  email : string;
  password : string;
  daily_limit : cell;
  sent_today : cell;
  sender_host : option string
}.

(** A sheet is a table of one of the four shapes, or any other table of
    the workbook.  An [applications] sheet without the [sent_at] column is
    the table whose [sent_at] cells are all missing: once read, the cells
    are the empty text, which is what [send_applications] makes of the
    absent column. *)
Inductive Sheet :=
| SProfiles (rows : list Profile)
| SJobOffers (rows : list JobOffer)
| SApplications (rows : list Application)
| SSenders (rows : list Sender)
| SOther (rows : list (list cell)).

Definition fillna_application (a : Application) : Application :=
  {| app_profile_id := app_profile_id a; app_job_id := app_job_id a;
     generate_lm := fillna (generate_lm a);
     email_sent := fillna (email_sent a);
     sent_at := fillna (sent_at a) |}.

Definition fillna_sender (s : Sender) : Sender :=
  {| email := email s; password := password s;
     daily_limit := fillna (daily_limit s);
     sent_today := fillna (sent_today s);
     sender_host := sender_host s |}.

Definition fillna_sheet (s : Sheet) : Sheet :=
  match s with
  | SProfiles rows => SProfiles rows
  | SJobOffers rows => SJobOffers rows
  | SApplications rows => SApplications (fillna_application <$> rows)
  | SSenders rows => SSenders (fillna_sender <$> rows)
  | SOther rows => SOther (fmap (M:=list) fillna <$> rows)
  end.

(** [df.iterrows()]: the rows with their index labels (a RangeIndex). *)
Definition iterrows {A} (df : list A) : list (nat * A) := imap pair df.

(** [df.loc[mask].squeeze()]: exactly one matching row collapses to that
    row; no row, or several, stay a table. *)
Inductive squeezed (A : Type) :=
| Row (a : A)
| Frame (rows : list A).
Arguments Row {A} a.
Arguments Frame {A} rows.

Definition squeeze {A} (rows : list A) : squeezed A :=
  match rows with
  | [a] => Row a
  | _ => Frame rows
  end.

(** A value taken from a squeezed selection: a scalar for a row, a whole
    column for a table. *)
Inductive field :=
| Scalar (s : string)
| Column (col : list string).

Definition getfield {A} (f : A → string) (x : squeezed A) : field :=
  match x with
  | Row a => Scalar (f a)
  | Frame rows => Column (f <$> rows)
  end.

(** ** Time stamps *)

Record datetime := {
  year : nat; month : nat; day : nat;
  hour : nat; minute : nat; second : nat
}.

Definition digit (n : nat) : ascii := ascii_of_nat (48 + n mod 10).

(** Two decimal digits, zero padded (what %d, %m, %H, %M and %S print). *)
Definition pad2 (n : nat) : string :=
  String (digit (n / 10)) (String (digit n) EmptyString).

(** Four decimal digits (what %Y prints for the years 1000 to 9999). *)
Definition pad4 (n : nat) : string := pad2 (n / 100) +:+ pad2 n.

(** [dt.strftime("%d/%m/%Y %H:%M:%S")]. *)
Definition strftime (dt : datetime) : string :=
  pad2 (day dt) +:+ "/" +:+ pad2 (month dt) +:+ "/" +:+ pad4 (year dt) +:+ " " +:+
  pad2 (hour dt) +:+ ":" +:+ pad2 (minute dt) +:+ ":" +:+ pad2 (second dt).

(** ** The world of a run, its events and its exceptions *)

Record Environ := {
  SMTP_EMAIL : option string;
  SMTP_PASSWORD : option string;
  SMTP_HOST : option string
}.

(** [workbook] is the Excel file DATA_FILE, one table per sheet name;
    [disk] holds the other files under DATA_DIR, by path. *)
Record World := {
  workbook : gmap string Sheet;
  disk : gmap string string;
  environ : Environ
}.

Definition set_workbook (f : gmap string Sheet → gmap string Sheet) (w : World) : World :=
  {| workbook := f (workbook w); disk := disk w; environ := environ w |}.

Definition set_disk (f : gmap string string → gmap string string) (w : World) : World :=
  {| workbook := workbook w; disk := f (disk w); environ := environ w |}.

(** The sender account handed to the SMTP session: a row of [senders]
    as a dict, or the account of the environment variables. *)
Record SenderDict := {
  dict_email : option string;
  dict_password : option string;
  dict_smtp_host : option string;
  dict_daily_limit : option Z;
  dict_sent_today : option Z
}.

(** An f-string is kept as its fragments, so that a column standing
    where a text was expected stays visible. *)
Record EmailMessage := {
  msg_from : option string;
  msg_to : field;
  msg_subject : string;
  msg_html : list field;
  msg_attachments : list (string * string)
}.

Inductive Line :=
| CvPresent (name : string)
| CvDone (path : string)
| NoLetter
| LetterPresent (name : string)
| LetterDone (path : string)
| NoEmail
| PdfMissing (profile job : string)
| Sent (prenom nom : string) (recruiter : field) (host : string)
| SendFailed.

Inductive Event :=
| Print (line : Line)
| SummaryRequest (profile : Profile)
| LetterRequest (idx : nat) (profil : Profile) (job_infos : field)
| Pdfkit (path : string)
| SmtpSession (idx : nat) (host : string) (login : SenderDict)
    (msg : EmailMessage) (accepted : bool)
| ExcelWrite (sheet_name : string).

Inductive exn :=
| ValueError
| FileNotFoundError
| KeyError
| AttributeError
| IndexError
| RuntimeError (msg : string)
| SMTPException.

Inductive result (A : Type) :=
| Ok (a : A)
| Raise (e : exn).
Arguments Ok {A} a.
Arguments Raise {A} e.

(** A routine: from a world to its outcome, the world it leaves and the
    events it produced, oldest first.  An exception keeps the effects made
    before it. *)
Definition M (A : Type) : Type := World → result A * World * list Event.

#[global] Instance M_ret : MRet M := λ A a w, (Ok a, w, []).

#[global] Instance M_bind : MBind M := λ A B k m w,
  match m w with
  | (Ok a, w1, o1) => let '(r, w2, o2) := k a w1 in (r, w2, o1 ++ o2)
  | (Raise e, w1, o1) => (Raise e, w1, o1)
  end.

Definition raise {A} (e : exn) : M A := λ w, (Raise e, w, []).

Definition lift {A} (r : result A) : M A := λ w, (r, w, []).

Definition emit (ev : Event) : M unit := λ w, (Ok tt, w, [ev]).

Definition print (l : Line) : M unit := emit (Print l).

Definition gets {A} (f : World → A) : M A := λ w, (Ok (f w), w, []).

Definition modify (f : World → World) : M unit := λ w, (Ok tt, f w, []).

(** [try: body except <classes>: handler]; [handler e] is [None] for an
    exception the clause does not name, which then propagates. *)
Definition try_except {A} (body : M A) (handler : exn → option (M A)) : M A := λ w,
  match body w with
  | (Raise e, w1, o1) =>
      match handler e with
      | Some h => let '(r, w2, o2) := h w1 in (r, w2, o1 ++ o2)
      | None => (Raise e, w1, o1)
      end
  | done => done
  end.

(** [pd.read_excel(DATA_FILE, sheet_name=...)]: a missing sheet is a
    ValueError. *)
Definition read_excel (sheet_name : string) : M Sheet := λ w,
  match workbook w !! sheet_name with
  | Some s => (Ok s, w, [])
  | None => (Raise ValueError, w, [])
  end.

(** [df.to_excel(writer, sheet_name=...)] under
    [ExcelWriter(mode="a", if_sheet_exists="replace")]. *)
Definition to_excel (sheet_name : string) (df : Sheet) : M unit :=
  modify (set_workbook (insert sheet_name df));; emit (ExcelWrite sheet_name).

(** Column access on a table of the wrong shape fails. *)
Definition as_profiles (s : Sheet) : result (list Profile) :=
  match s with SProfiles rows => Ok rows | _ => Raise AttributeError end.

Definition as_joboffers (s : Sheet) : result (list JobOffer) :=
  match s with SJobOffers rows => Ok rows | _ => Raise AttributeError end.

Definition as_applications (s : Sheet) : result (list Application) :=
  match s with SApplications rows => Ok rows | _ => Raise AttributeError end.

Definition as_senders (s : Sheet) : result (list Sender) :=
  match s with SSenders rows => Ok rows | _ => Raise KeyError end.

(** [column.str]: pandas gives the accessor to a column that holds
    texts, or no row at all, and raises AttributeError on a column of
    numbers only. *)
Definition is_text (c : cell) : bool :=
  match c with Str _ => true | _ => false end.

Definition str_accessor (column : list cell) : result unit :=
  if bool_decide (column = []) || existsb is_text column then Ok ()
  else Raise AttributeError.

(** [profil.nom.upper()]: on a row [profil.nom] is a text; on a table it
    is a column, which has no method [upper]: an AttributeError. *)
Definition as_row {A} (x : squeezed A) : result A :=
  match x with
  | Row a => Ok a
  | Frame _ => Raise AttributeError
  end.

(** ** What the pipeline calls and does not own

    pandas' number parser and sort, the directory matcher, the OpenAI
    calls, Jinja and wkhtmltopdf, the SMTP server and the clock.  The
    answers that may differ from one call to the next are indexed by the
    row being processed.  The SMTP server may refuse a message, which is
    the transport error [send_applications] handles; the text generator,
    the renderer and the converter are taken to answer, since the builders
    have no handler for their failures: what is proved of a run of a
    builder is proved of a run in which they did. *)
Class Externals := {
  to_numeric_text : string → option Z;
  sort_values : list (nat * Sender) → list (nat * Sender);
  glob : gmap string string → string → string → option string;
  generate_profile_summary : nat → Profile → string;
  generate_letter_text : nat → Profile → field → string;
  render_cv : Profile → string;
  render_lm : Profile → string → squeezed JobOffer → string → string;
  wkhtmltopdf : string → string;
  smtp_accepts : nat → string → SenderDict → EmailMessage → bool;
  now : nat → datetime;
  today : string
}.

(** ** config.py *)

Module config.

Definition DATA_DIR : string := "data".
Definition TEMPL_DIR : string := "templates".
Definition DATA_FILE : string := "data/profiles_job_test.xlsx".
Definition CV_DIR : string := "data/cv".
Definition LM_DIR : string := "data/lm".

(** [dir / name] for a relative [name]. *)
Definition joinpath (dir name : string) : string := dir +:+ "/" +:+ name.

End config.

(** ** email_sender.py *)

Module email_sender.
Import config.

Section WithExternals.
Context `{Externals}.

Definition SMTP_PORT : Z := 587.

(** Read a sheet of the workbook and replace NaN with the empty text. *)
Definition _read (sheet : string) : M Sheet :=
  df ← read_excel sheet; mret (fillna_sheet df).

Definition smtp_host (address : string) : string :=
  let addr := PyStr.lower address in
  if PyStr.endswith addr "@gmail.com" then "smtp.gmail.com"
  else if PyStr.endswith addr "@outlook.com"
          || PyStr.endswith addr "@hotmail.com"
          || PyStr.endswith addr "@live.com"
  then "smtp-mail.outlook.com"
  else "smtp.gmail.com".

(** [pd.to_numeric(column, errors="coerce")], element-wise: a missing
    cell or a text that is no number becomes NaN ([None]). *)
Definition to_numeric (c : cell) : option Z :=
  match c with
  | Num z => Some z
  | Str s => to_numeric_text s
  | NaN => None
  end.

(** [.fillna(0).astype(int)] after [to_numeric].  The numbers of the
    sheet are taken to fit the 64-bit integers of the column; the counter
    that is incremented is below a limit that fits, so the increment does
    not leave that range. *)
Definition to_int (c : cell) : Z := default 0%Z (to_numeric c).

Definition coerce_counters (s : Sender) : Sender :=
  {| email := email s; password := password s;
     daily_limit := Num (to_int (daily_limit s));
     sent_today := Num (to_int (sent_today s));
     sender_host := sender_host s |}.

(** The value of a cell of an integer column. *)
Definition int_value (c : cell) : Z :=
  match c with Num z => z | _ => 0%Z end.

(** [df.sent_today < df.daily_limit], row by row. *)
Definition under_quota (s : Sender) : bool :=
  (int_value (sent_today s) <? int_value (daily_limit s))%Z.

(** [df.loc[label, "sent_today"] += 1] on one row. *)
Definition increment (s : Sender) : Sender :=
  {| email := email s; password := password s;
     daily_limit := daily_limit s;
     sent_today := Num (int_value (sent_today s) + 1);
     sender_host := sender_host s |}.

(** [snd.to_dict()]. *)
Definition to_dict (s : Sender) : SenderDict :=
  {| dict_email := Some (email s);
     dict_password := Some (password s);
     dict_smtp_host := sender_host s;
     dict_daily_limit := Some (int_value (daily_limit s));
     dict_sent_today := Some (int_value (sent_today s)) |}.

(** [a or b] on an optional text: [None] and the empty text are falsy. *)
Definition or_else (a : option string) (b : string) : string :=
  match a with
  | Some s => if PyStr.truthy s then s else b
  | None => b
  end.

(** The account of the environment variables (single-account mode). *)
Definition env_sender (env : Environ) : SenderDict :=
  {| dict_email := SMTP_EMAIL env;
     dict_password := SMTP_PASSWORD env;
     dict_smtp_host :=
       Some (or_else (SMTP_HOST env) (smtp_host (default "" (SMTP_EMAIL env))));
     dict_daily_limit := None;
     dict_sent_today := None |}.

Definition no_sender : string :=
  "No sender available – all daily quotas reached".

(** Returns the sender dict and the senders table, or [None] for the
    table in single-account mode. *)
Definition pick_sender : M (SenderDict * option (list Sender)) :=
  try_except
    (sheet ← _read "senders";
     rows ← lift (as_senders sheet);
     let df := coerce_counters <$> rows in
     let avail := filter (λ r, under_quota r.2) (iterrows df) in
     if bool_decide (avail = []) then raise (RuntimeError no_sender)
     else
       match sort_values avail with
       | (name, snd) :: _ => mret (to_dict snd, Some (alter increment name df))
       | [] => raise IndexError
       end)
    (λ e, match e with
          | ValueError | FileNotFoundError =>
              Some (env ← gets environ; mret (env_sender env, None))
          | _ => None
          end).

(** [sender.get("smtp_host") or smtp_host(sender["email"])]; the host
    is inferred from the address only when the dict gives none, and an
    address that is [None] has no method [lower]. *)
Definition resolve_host (sender : SenderDict) : result string :=
  let infer :=
    match dict_email sender with
    | Some e => Ok (smtp_host e)
    | None => Raise AttributeError
    end in
  match dict_smtp_host sender with
  | Some h => if PyStr.truthy h then Ok h else infer
  | None => infer
  end.

(** [f.read_bytes()] for each attachment. *)
Fixpoint read_files (files : list string) : M (list (string * string)) :=
  match files with
  | [] => mret []
  | f :: rest =>
      content ← gets (λ w, disk w !! f);
      match content with
      | None => raise FileNotFoundError
      | Some bytes => others ← read_files rest; mret ((f, bytes) :: others)
      end
  end.

(** The message with its HTML part and its attachments (the MIME type
    of an attachment is not kept).  The three header values are taken to
    hold no line break: on one that does, the assignment of the header
    raises ValueError, which is not modelled. *)
Definition build_msg (frm : option string) (to : field) (sub : string)
    (html : list field) (files : list string) : M EmailMessage :=
  attachments ← read_files files;
  mret {| msg_from := frm; msg_to := to; msg_subject := sub;
          msg_html := html; msg_attachments := attachments |}.

(** One STARTTLS session on port 587: the server accepts the message or
    the session raises. *)
Definition send_email (idx : nat) (host : string) (snd : SenderDict)
    (msg : EmailMessage) : M unit :=
  let accepted := smtp_accepts idx host snd msg in
  emit (SmtpSession idx host snd msg accepted);;
  if accepted then mret () else raise SMTPException.

(** [apps.email_sent.isna() | (apps.email_sent.str.strip() == "")]. *)
Definition mask_no_email (a : Application) : bool :=
  isna (email_sent a) || eq_text (str_strip (email_sent a)) "".

(** [apps[(apps.generate_lm.str.upper() == "Y") & mask_no_email]], with
    the index labels of the rows kept. *)
Definition todo (apps : list Application) : list (nat * Application) :=
  filter (λ r, eq_text (str_upper (generate_lm r.2)) "Y" && mask_no_email r.2)
         (iterrows apps).

(** The two [apps.at[idx, ...] = ...] assignments after a success. *)
Definition mark_sent (stamp : string) (a : Application) : Application :=
  {| app_profile_id := app_profile_id a; app_job_id := app_job_id a;
     generate_lm := generate_lm a;
     email_sent := Str "YES";
     sent_at := Str stamp |}.

Definition cv_pattern (NOM prenom : string) : string :=
  "CV_" +:+ NOM +:+ "_" +:+ prenom +:+ ".pdf".

Definition lm_name (NOM prenom job : string) : string :=
  "LM_" +:+ NOM +:+ "_" +:+ prenom +:+ "_" +:+ job +:+ ".pdf".

Definition body_html (title : field) (prenom nom : string) : list field :=
  [ Scalar "<p>Bonjour,</p>";
    Scalar "<p>Veuillez trouver ci-joint mon CV et ma lettre de motivation pour le poste <strong>";
    title;
    Scalar "</strong>.</p>";
    Scalar ("<p>Cordialement,<br>" +:+ prenom +:+ " " +:+ nom +:+ "</p>") ].

(** The in-memory tables of the loop: [apps] and [senders_df]. *)
Definition Tables : Type := list Application * option (list Sender).

Inductive control :=
| Continue (t : Tables)
| Break (t : Tables).

(** The body of the loop over [todo.iterrows()] for one [(idx, row)]. *)
Definition dispatch_row (force : bool) (profs offers : Sheet)
    (idx : nat) (row : Application) (t : Tables) : M control :=
  profiles ← lift (as_profiles profs);
  let profil :=
    squeeze (filter (λ p, bool_decide (profile_id p = app_profile_id row)) profiles) in
  joboffers ← lift (as_joboffers offers);
  let offer :=
    squeeze (filter (λ o, bool_decide (job_id o = app_job_id row)) joboffers) in
  (* locate the PDF files *)
  p ← lift (as_row profil);
  let nom_ := nom p in
  let prenom_ := prenom p in
  files ← gets disk;
  let cv_pdf := glob files CV_DIR (cv_pattern (PyStr.upper nom_) prenom_) in
  let lm_pdf := joinpath LM_DIR (lm_name (PyStr.upper nom_) prenom_ (app_job_id row)) in
  match cv_pdf, files !! lm_pdf with
  | Some cv, Some _ =>
      let html := body_html (getfield intitule offer) prenom_ nom_ in
      (* pick the sender account *)
      '(sender, senders_df) ← pick_sender;
      host ← lift (resolve_host sender);
      msg ← build_msg (dict_email sender) (getfield recruiter_email offer)
              ("Candidature – " +:+ prenom_ +:+ " " +:+ nom_) html [cv; lm_pdf];
      (* send and update the tracking columns *)
      try_except
        (send_email idx host sender msg;;
         print (Sent prenom_ nom_ (getfield recruiter_email offer) host);;
         mret (Continue (alter (mark_sent (strftime (now idx))) idx t.1, senders_df)))
        (λ exc, Some
           (print SendFailed;;
            mret (if force then Continue (t.1, senders_df)
                  else Break (t.1, senders_df))))
  | _, _ =>
      print (PdfMissing (app_profile_id row) (app_job_id row));;
      mret (Continue t)
  end.

Fixpoint send_loop (force : bool) (profs offers : Sheet)
    (rows : list (nat * Application)) (t : Tables) : M Tables :=
  match rows with
  | [] => mret t
  | (idx, row) :: rest =>
      c ← dispatch_row force profs offers idx row t;
      match c with
      | Continue t' => send_loop force profs offers rest t'
      | Break t' => mret t'
      end
  end.

(** Loop over the rows of [applications] where generate_lm is 'Y' and
    email_sent is blank, e-mail CV and cover letter, mark the row as
    sent; then write the tables back. *)
Definition send_applications (force : bool) : M unit :=
  profs ← _read "profiles";
  offers ← _read "joboffers";
  sheet ← _read "applications";
  apps ← lift (as_applications sheet);
  (* apps.email_sent.str, then apps.generate_lm.str *)
  lift (str_accessor (email_sent <$> apps));;
  lift (str_accessor (generate_lm <$> apps));;
  if bool_decide (todo apps = []) then print NoEmail
  else
    '(apps', senders_df) ← send_loop force profs offers (todo apps) (apps, None);
    to_excel "applications" (SApplications apps');;
    match senders_df with
    | Some df => to_excel "senders" (SSenders df)
    | None => mret ()
    end.

End WithExternals.
End email_sender.

(** ** letter_generator.py *)

Module letter_generator.
Import config.

Section WithExternals.
Context `{Externals}.

(** Read a sheet of the workbook and replace NaN with the empty text. *)
Definition _read (sheet : string) : M Sheet :=
  df ← read_excel sheet; mret (fillna_sheet df).

(** [apps.email_sent.isna() | (apps.email_sent.str.strip() == "")]. *)
Definition mask_no_email (a : Application) : bool :=
  isna (email_sent a) || eq_text (str_strip (email_sent a)) "".

(** [apps[(apps.generate_lm.str.upper() == "Y") & mask_no_email]]. *)
Definition todo (apps : list Application) : list (nat * Application) :=
  filter (λ r, eq_text (str_upper (generate_lm r.2)) "Y" && mask_no_email r.2)
         (iterrows apps).

Definition tmp_html : string := joinpath DATA_DIR "_tmp_lm.html".

Definition lm_name (NOM prenom job : string) : string :=
  "LM_" +:+ NOM +:+ "_" +:+ prenom +:+ "_" +:+ job +:+ ".pdf".

(** The body of the loop over [todo.iterrows()] for one [(idx, row)]. *)
Definition letter_row (force : bool) (profiles offers : Sheet)
    (idx : nat) (row : Application) : M unit :=
  profs ← lift (as_profiles profiles);
  let profil :=
    squeeze (filter (λ p, bool_decide (profile_id p = app_profile_id row)) profs) in
  joboffers ← lift (as_joboffers offers);
  let offer :=
    squeeze (filter (λ o, bool_decide (job_id o = app_job_id row)) joboffers) in
  p ← lift (as_row profil);
  let name := lm_name (PyStr.upper (nom p)) (prenom p) (app_job_id row) in
  let file_pdf := joinpath LM_DIR name in
  files ← gets disk;
  if bool_decide (is_Some (files !! file_pdf)) && negb force
  then print (LetterPresent name)
  else
    (* ask the OpenAI API to draft the body of the letter *)
    emit (LetterRequest idx p (getfield infos offer));;
    let body := generate_letter_text idx p (getfield infos offer) in
    let html := render_lm p body offer today in
    (* write the temporary HTML, then convert it *)
    modify (set_disk (insert tmp_html html));;
    modify (set_disk (insert file_pdf (wkhtmltopdf html)));;
    emit (Pdfkit file_pdf);;
    print (LetterDone file_pdf).

Fixpoint letter_loop (force : bool) (profiles offers : Sheet)
    (rows : list (nat * Application)) : M unit :=
  match rows with
  | [] => mret ()
  | (idx, row) :: rest =>
      letter_row force profiles offers idx row;;
      letter_loop force profiles offers rest
  end.

(** Create every missing PDF cover letter. *)
Definition generate_letters (force : bool) : M unit :=
  profiles ← _read "profiles";
  offers ← _read "joboffers";
  sheet ← _read "applications";
  apps ← lift (as_applications sheet);
  (* apps.email_sent.str, then apps.generate_lm.str *)
  lift (str_accessor (email_sent <$> apps));;
  lift (str_accessor (generate_lm <$> apps));;
  if bool_decide (todo apps = []) then print NoLetter
  else
    letter_loop force profiles offers (todo apps);;
    (* tmp_html.unlink(missing_ok=True) *)
    modify (set_disk (delete tmp_html)).

End WithExternals.
End letter_generator.

(** ** cv_generator.py *)

Module cv_generator.
Import config.

Section WithExternals.
Context `{Externals}.

(** The regular expression of [_clean], matched in full and without
    regard to case: the word nan, the word none, or whitespace only. *)
Definition blank_like (s : string) : bool :=
  String.eqb (PyStr.lower s) "nan" || String.eqb (PyStr.lower s) "none"
  || PyStr.all_space s.

Definition clean_text (s : string) : string :=
  if blank_like s then "" else s.

(** A copy of the record where NaN, None and blank values are the empty
    text. *)
Definition _clean (d : Profile) : Profile :=
  {| profile_id := clean_text (profile_id d);
     nom := clean_text (nom d);
     prenom := clean_text (prenom d);
     profil_pro := clean_text (profil_pro d);
     contact := prod_map id clean_text <$> contact d |}.

Definition with_summary (summary : string) (d : Profile) : Profile :=
  {| profile_id := profile_id d; nom := nom d; prenom := prenom d;
     profil_pro := summary; contact := contact d |}.

Definition tmp_html : string := joinpath DATA_DIR "_tmp_cv.html".

Definition cv_name (NOM prenom : string) : string :=
  "CV_" +:+ NOM +:+ "_" +:+ prenom +:+ ".pdf".

(** The body of the loop over the records of [profiles]; [i] is the
    position of the record. *)
Definition cv_row (force : bool) (i : nat) (raw : Profile) : M unit :=
  let profile := _clean raw in
  (* an empty profil_pro is written on the fly *)
  profile ← (if PyStr.truthy (profil_pro profile) then mret profile
             else emit (SummaryRequest profile);;
                  mret (with_summary (generate_profile_summary i profile) profile));
  let name := cv_name (PyStr.upper (nom profile)) (prenom profile) in
  let file_pdf := joinpath CV_DIR name in
  files ← gets disk;
  if bool_decide (is_Some (files !! file_pdf)) && negb force
  then print (CvPresent name)
  else
    let html := render_cv profile in
    modify (set_disk (insert tmp_html html));;
    modify (set_disk (insert file_pdf (wkhtmltopdf html)));;
    emit (Pdfkit file_pdf);;
    print (CvDone file_pdf).

Fixpoint cv_loop (force : bool) (records : list (nat * Profile)) : M unit :=
  match records with
  | [] => mret ()
  | (i, raw) :: rest => cv_row force i raw;; cv_loop force rest
  end.

(** Generate all missing CVs as PDFs, from the [profiles] sheet of
    DATA_FILE (the default [excel_path]). *)
Definition generate_cvs (force : bool) : M unit :=
  sheet ← read_excel "profiles";
  df ← lift (as_profiles (fillna_sheet sheet));
  cv_loop force (iterrows df);;
  modify (set_disk (delete tmp_html)).

End WithExternals.
End cv_generator.

(** ** offer_loader.py and main.py *)

Module offer_loader.

(** Read a sheet of the workbook and replace NaN with the empty text. *)
Definition _read (sheet : string) : M Sheet :=
  df ← read_excel sheet; mret (fillna_sheet df).

Definition load_offers : M Sheet := _read "joboffers".

Definition load_applications : M Sheet := _read "applications".

End offer_loader.

(** [len(df)]: the number of rows of a table. *)
Definition len (s : Sheet) : nat :=
  match s with
  | SProfiles rows => length rows
  | SJobOffers rows => length rows
  | SApplications rows => length rows
  | SSenders rows => length rows
  | SOther rows => length rows
  end.

Module main.

(** What a run of the pipeline shows: the events of its three stages,
    then the two lines of the recap. *)
Inductive Output :=
| Stage (ev : Event)
| OffersRecorded (n : nat)
| ApplicationsTotal (n : nat).

Section WithExternals.
Context `{Externals}.

(** The three stages with their default arguments ([force] is False),
    then the first read of the recap. *)
Definition stages : M Sheet :=
  cv_generator.generate_cvs false;;
  letter_generator.generate_letters false;;
  email_sender.send_applications false;;
  offer_loader.load_offers.

(** Execute the three-step pipeline, then print quick statistics. *)
Definition main (w : World) : result unit * World * list Output :=
  match stages w with
  | (Ok offers, w1, e1) =>
      let shown := (Stage <$> e1) ++ [OffersRecorded (len offers)] in
      match offer_loader.load_applications w1 with
      | (Ok apps, w2, e2) =>
          (Ok (), w2, shown ++ (Stage <$> e2) ++ [ApplicationsTotal (len apps)])
      | (Raise e, w2, e2) => (Raise e, w2, shown ++ (Stage <$> e2))
      end
  | (Raise e, w1, e1) => (Raise e, w1, Stage <$> e1)
  end.

End WithExternals.
End main.

(** ** Vocabulary of the statements *)

Section Vocabulary.
Context `{Externals}.
Import email_sender.

(** The senders table as [pick_sender] sees it after [_read] and the
    coercion of the two counters to integers. *)
Definition senders_df (rows : list Sender) : list Sender :=
  coerce_counters <$> (fillna_sender <$> rows).

(** The rows under quota, with their labels. *)
Definition avail (rows : list Sender) : list (nat * Sender) :=
  filter (λ r, under_quota r.2) (iterrows (senders_df rows)).

(** The table [pick_sender] hands back in world [w] ([None] in
    single-account mode or when the selection fails). *)
Definition picked_table (w : World) : option (list Sender) :=
  match pick_sender w with
  | (Ok (_, sdf), _, _) => sdf
  | _ => None
  end.

(** The two writes at the end of [send_applications]. *)
Definition persist (apps' : list Application) (sdf : option (list Sender))
    (m : gmap string Sheet) : gmap string Sheet :=
  match sdf with
  | Some df => <["senders" := SSenders df]> (<["applications" := SApplications apps']> m)
  | None => <["applications" := SApplications apps']> m
  end.

Definition persist_events (sdf : option (list Sender)) : list Event :=
  ExcelWrite "applications" ::
  match sdf with Some _ => [ExcelWrite "senders"] | None => [] end.

(** Three selections in a row, as three turns of the dispatch loop make
    them. *)
Definition pick_three : M (list (SenderDict * option (list Sender))) :=
  r1 ← pick_sender; r2 ← pick_sender; r3 ← pick_sender; mret [r1; r2; r3].

(** An account qualifies when its counter, as [pick_sender] reads it, is
    strictly below its limit. *)
Definition qualifies (s : Sender) : bool :=
  under_quota (coerce_counters (fillna_sender s)).


(** The key [sort_values("sent_today")] orders by. *)
Definition sort_key (r : nat * Sender) : Z := int_value (sent_today r.2).

(** What pandas promises of [sort_values]: the rows are the same and they
    come in ascending order of the key.  Which of several rows with equal
    keys comes first is left open (the default sort is not stable). *)
Definition sort_values_sorts : Prop :=
  ∀ l, sort_values l ≡ₚ l ∧
       StronglySorted (λ a b, (sort_key a ≤ sort_key b)%Z) (sort_values l).

End Vocabulary.

(** The two look-ups at the head of a loop turn, and the path of the
    letter of a row. *)
Definition find_profile (profiles : Sheet) (row : Application) : result Profile :=
  match as_profiles profiles with
  | Ok profs =>
      as_row (squeeze (filter (λ p, bool_decide (profile_id p = app_profile_id row)) profs))
  | Raise e => Raise e
  end.

Definition find_offer (offers : Sheet) (row : Application) : result (squeezed JobOffer) :=
  match as_joboffers offers with
  | Ok joboffers =>
      Ok (squeeze (filter (λ o, bool_decide (job_id o = app_job_id row)) joboffers))
  | Raise e => Raise e
  end.

Definition letter_path (p : Profile) (row : Application) : string :=
  config.joinpath config.LM_DIR
    (letter_generator.lm_name (PyStr.upper (nom p)) (prenom p) (app_job_id row)).

(** The record [generate_cvs] renders, up to its summary, and the path of
    its PDF. *)
Definition cv_path (raw : Profile) : string :=
  config.joinpath config.CV_DIR
    (cv_generator.cv_name (PyStr.upper (nom (cv_generator._clean raw)))
       (prenom (cv_generator._clean raw))).

(** Every file of [d1], the temporary file [tmp] apart, is a file of
    [d2]. *)
Definition covers (tmp : string) (d1 d2 : gmap string string) : Prop :=
  ∀ p, p ≠ tmp → is_Some (d1 !! p) → is_Some (d2 !! p).

(** A cell that reads as blank: missing, or a text of whitespace only. *)
Definition blank (c : cell) : Prop :=
  c = NaN ∨ ∃ s, c = Str s ∧ PyStr.all_space s = true.

(** The generate-letter flag is set: the cell is the text Y, in either
    case. *)
Definition flag_set (a : Application) : Prop :=
  generate_lm a = Str "Y" ∨ generate_lm a = Str "y".

(** The truth value Python gives the value of a cell: a text is true
    unless it is empty, a number unless it is zero, and a missing cell (a
    NaN) is true. *)
Definition truthy_cell (c : cell) : bool :=
  match c with
  | Str s => PyStr.truthy s
  | Num z => negb (z =? 0)%Z
  | NaN => true
  end.

(** A column that has rows and holds numbers only. *)
Definition numbers_only (column : list cell) : Prop :=
  column ≠ [] ∧ ∀ c, c ∈ column → ∃ z, c = Num z.

(** An application awaits its letter and its e-mail. *)
Definition pending (a : Application) : Prop :=
  flag_set a ∧ blank (email_sent a).

(** With [force] the loop goes on where it would have stopped. *)
Definition unbreak (c : email_sender.control) : email_sender.control :=
  match c with
  | email_sender.Break t => email_sender.Continue t
  | email_sender.Continue t => email_sender.Continue t
  end.

Definition tables_of (c : email_sender.control) : email_sender.Tables :=
  match c with
  | email_sender.Break t => t
  | email_sender.Continue t => t
  end.

(** Events of interest. *)
Definition is_smtp (ev : Event) : bool :=
  match ev with SmtpSession _ _ _ _ _ => true | _ => false end.

Definition is_write (ev : Event) : bool :=
  match ev with ExcelWrite _ => true | _ => false end.

Definition is_pdfkit (ev : Event) : bool :=
  match ev with Pdfkit _ => true | _ => false end.

Definition is_letter_request (ev : Event) : bool :=
  match ev with LetterRequest _ _ _ => true | _ => false end.

(** An SMTP session was opened for row [i]. *)
Definition attempted (i : nat) (ev : Event) : bool :=
  match ev with SmtpSession j _ _ _ _ => bool_decide (i = j) | _ => false end.

(** The SMTP server accepted the message of row [i]. *)
Definition transmitted (i : nat) (ev : Event) : bool :=
  match ev with SmtpSession j _ _ _ true => bool_decide (i = j) | _ => false end.

(** A letter was requested from the OpenAI API for row [i]. *)
Definition drafted (i : nat) (ev : Event) : bool :=
  match ev with LetterRequest j _ _ => bool_decide (i = j) | _ => false end.


(** ** Vocabulary of the further properties *)

(** The paths wkhtmltopdf wrote, oldest first. *)
Definition conversions (evs : list Event) : list string :=
  omap (λ ev, match ev with Pdfkit path => Some path | _ => None end) evs.

(** Every file of [d1], the temporary file [tmp] apart, is in [d2] with
    the same contents. *)
Definition keeps (tmp : string) (d1 d2 : gmap string string) : Prop :=
  ∀ p c, p ≠ tmp → d1 !! p = Some c → d2 !! p = Some c.

(** The message [send_applications] composes for a row. *)
Definition application_msg (login : SenderDict) (p : Profile) (offer : squeezed JobOffer)
    (attachments : list (string * string)) : EmailMessage :=
  {| msg_from := dict_email login;
     msg_to := getfield recruiter_email offer;
     msg_subject := "Candidature – " +:+ prenom p +:+ " " +:+ nom p;
     msg_html := email_sender.body_html (getfield intitule offer) (prenom p) (nom p);
     msg_attachments := attachments |}.

(** The rows for which an SMTP session was opened, and whether the server
    accepted each message, oldest first. *)
Definition session_rows (evs : list Event) : list nat :=
  omap (λ ev, match ev with SmtpSession i _ _ _ _ => Some i | _ => None end) evs.

Definition outcomes (evs : list Event) : list bool :=
  omap (λ ev, match ev with SmtpSession _ _ _ _ acc => Some acc | _ => None end) evs.

(** The dispatcher reported a missing PDF. *)
Definition is_missing (ev : Event) : bool :=
  match ev with Print (PdfMissing _ _) => true | _ => false end.

Definition reported_missing (o : main.Output) : bool :=
  match o with main.Stage ev => is_missing ev | _ => false end.

(** The directory matcher finds a file that bears the very name of the
    pattern. *)
Definition glob_exact `{Externals} (dir name : string) : Prop :=
  ∀ files, is_Some (files !! config.joinpath dir name) → is_Some (glob files dir name).

(** ** A concrete setting

    One candidate, two offers, and externals that can be run: the sort is
    a merge sort on the counter, the directory matcher looks the name up as
    it is written, and the SMTP server refuses the message of row 0 and
    accepts every other. *)

Module Demo.
Import config.

Definition le_key (a b : nat * Sender) : Prop := (sort_key a ≤ sort_key b)%Z.

#[local] Instance le_key_dec a b : Decision (le_key a b) := Z_le_dec _ _.

Definition externals : Externals := {|
  to_numeric_text := λ _, None;
  sort_values := merge_sort le_key;
  glob := λ files dir pattern,
    if bool_decide (is_Some (files !! joinpath dir pattern))
    then Some (joinpath dir pattern) else None;
  generate_profile_summary := λ _ _, "resume";
  generate_letter_text := λ _ _ _, "lettre";
  render_cv := λ p, "cv " +:+ nom p;
  render_lm := λ p body _ _, "lm " +:+ body;
  wkhtmltopdf := λ html, "pdf " +:+ html;
  smtp_accepts := λ idx _ _ _, bool_decide (idx ≠ 0);
  now := λ _, {| year := 2026; month := 11; day := 3;
                 hour := 9; minute := 5; second := 0 |};
  today := "03/11/2026"
|}.

Definition alice : Profile :=
  {| profile_id := "p1"; nom := "Durand"; prenom := "Alice";
     profil_pro := ""; contact := [("ville", "Lyon")] |}.

Definition offer1 : JobOffer :=
  {| job_id := "j1"; intitule := "Analyste"; infos := "poste 1";
     recruiter_email := "rh@un.example" |}.

Definition offer2 : JobOffer :=
  {| job_id := "j2"; intitule := "Data engineer"; infos := "poste 2";
     recruiter_email := "rh@deux.example" |}.

Definition application (profile job : string) (flag sent : cell) : Application :=
  {| app_profile_id := profile; app_job_id := job;
     generate_lm := flag; email_sent := sent; sent_at := NaN |}.

Definition account (address : string) (limit sent : Z) : Sender :=
  {| email := address; password := "secret";
     daily_limit := Num limit; sent_today := Num sent; sender_host := None |}.

Definition no_env : Environ :=
  {| SMTP_EMAIL := None; SMTP_PASSWORD := None; SMTP_HOST := None |}.

Definition pdfs : gmap string string :=
  <["data/cv/CV_DURAND_Alice.pdf" := "cv"]>
  (<["data/lm/LM_DURAND_Alice_j1.pdf" := "lm1"]>
  (<["data/lm/LM_DURAND_Alice_j2.pdf" := "lm2"]> ∅)).

Definition book (apps : list Application) (senders : list Sender) : gmap string Sheet :=
  <["profiles" := SProfiles [alice]]>
  (<["joboffers" := SJobOffers [offer1; offer2]]>
  (<["applications" := SApplications apps]>
  (<["senders" := SSenders senders]>
  (<["notes" := SOther [[Str "memo"; Num 1]]]> ∅)))).

Definition two_pending : list Application :=
  [application "p1" "j1" (Str "Y") NaN; application "p1" "j2" (Str "y") (Str "  ")].

(** A flag that Python holds true and that is not the letter Y. *)
Definition yes_flag : list Application :=
  [application "p1" "j1" (Str "yes") NaN].

Definition yes_world : World :=
  {| workbook := book yes_flag [account "a@gmail.com" 5 0];
     disk := pdfs; environ := no_env |}.

(** An email_sent cell that holds a no-break space and an em space. *)
Definition wide_blank : list Application :=
  [application "p1" "j1" (Str "Y") (Str (PyStr.utf8 160 +:+ PyStr.utf8 8195))].

(** Two pending applications, their PDFs on disk, accounts with counters
    0 and 3 and limits 5 and 5. *)
Definition world : World :=
  {| workbook := book two_pending [account "a@gmail.com" 5 0; account "b@outlook.com" 5 3];
     disk := pdfs; environ := no_env |}.

(** The same, with a single account whose counter equals its limit. *)
Definition exhausted : World :=
  {| workbook := book two_pending [account "a@gmail.com" 5 5];
     disk := pdfs; environ := no_env |}.

(** The first application names a profile that is not in the table. *)
Definition orphan : World :=
  {| workbook := book [application "p9" "j1" (Str "Y") NaN;
                       application "p1" "j2" (Str "Y") NaN]
                      [account "a@gmail.com" 5 0];
     disk := pdfs; environ := no_env |}.

(** Two sound applications, then one that names a profile that is not
    in the table. *)
Definition orphan_last : World :=
  {| workbook := book (two_pending ++ [application "p9" "j1" (Str "Y") NaN])
                      [account "a@gmail.com" 5 0];
     disk := pdfs; environ := no_env |}.

(** The first application names a job offer that is not in the table;
    no letter is on disk yet. *)
Definition no_offer : World :=
  {| workbook := book [application "p1" "j7" (Str "Y") NaN] [account "a@gmail.com" 5 0];
     disk := <["data/cv/CV_DURAND_Alice.pdf" := "cv"]> ∅; environ := no_env |}.

(** No senders sheet: single-account mode. *)
Definition single : World :=
  {| workbook := delete "senders" (book two_pending []);
     disk := pdfs;
     environ := {| SMTP_EMAIL := Some "moi@outlook.com"; SMTP_PASSWORD := Some "secret";
                   SMTP_HOST := None |} |}.

(** Nothing generated yet. *)
Definition fresh : World :=
  {| workbook := book two_pending [account "a@gmail.com" 5 0];
     disk := ∅; environ := no_env |}.

End Demo.
(** * Properties *)

(** ** Strings *)

Lemma str_append_cons c s t : String c s +:+ t = String c (s +:+ t).
Proof. reflexivity. Qed.

Lemma str_append_empty_r s : s +:+ "" = s.
Proof. induction s as [|c s IH]; [done|]. by rewrite str_append_cons, IH. Qed.

Lemma str_append_assoc s t u : (s +:+ t) +:+ u = s +:+ t +:+ u.
Proof. induction s as [|c s IH]; [done|]. by rewrite !str_append_cons, IH. Qed.

Lemma str_append_empty s t : s +:+ t = "" → s = "" ∧ t = "".
Proof. by destruct s. Qed.

Lemma join_app l k : PyStr.join (l ++ k) = PyStr.join l +:+ PyStr.join k.
Proof.
  induction l as [|x l IH]; [done|]. cbn [app PyStr.join]. by rewrite IH, str_append_assoc.
Qed.

(** A text is its characters, one after the other, and none of them is
    empty. *)
Lemma join_chars s : PyStr.join (PyStr.chars s) = s.
Proof.
  induction s as [|c s IH]; [done|]. cbn [PyStr.chars].
  destruct (PyStr.chars s) as [|ch rest]; cbn [PyStr.join] in *.
  - by rewrite <- IH.
  - destruct (PyStr.starts_cont s); cbn [PyStr.join]; by rewrite !str_append_cons, IH.
Qed.

Lemma chars_nonempty s : Forall (λ ch, ch ≠ "") (PyStr.chars s).
Proof.
  induction s as [|c s IH]; [constructor|]. cbn [PyStr.chars].
  destruct (PyStr.chars s) as [|ch rest]; [by constructor|].
  apply Forall_cons in IH as [Hch IH].
  destruct (PyStr.starts_cont s); constructor; try done. by constructor.
Qed.

Lemma chars_nil s : PyStr.chars s = [] → s = "".
Proof. intros Hs. by rewrite <- (join_chars s), Hs. Qed.

(** The first character of a text opens with its first byte. *)
Lemma chars_head c s : ∃ x rest, PyStr.chars (String c s) = String c x :: rest.
Proof.
  cbn [PyStr.chars]. destruct (PyStr.chars s) as [|ch rest]; [by eexists _, _|].
  destruct (PyStr.starts_cont s); by eexists _, _.
Qed.

Lemma join_nil l : Forall (λ ch, ch ≠ "") l → PyStr.join l = "" → l = [].
Proof.
  intros Hl Hj. destruct l as [|x l]; [done|].
  apply Forall_cons in Hl as [Hx _]. cbn [PyStr.join] in Hj.
  by apply str_append_empty in Hj as [? _].
Qed.

(** The characters of a text, read one byte further to the left. *)
Lemma chars_cons c s :
  PyStr.chars (String c s) =
  match PyStr.chars s with
  | ch :: rest =>
      if PyStr.starts_cont s then String c ch :: rest
      else String c EmptyString :: ch :: rest
  | [] => [String c EmptyString]
  end.
Proof. reflexivity. Qed.

(** Cutting at a byte that opens a character cuts between characters. *)
Lemma chars_app u c t :
  PyStr.is_cont c = false →
  PyStr.chars (u +:+ String c t) = PyStr.chars u ++ PyStr.chars (String c t).
Proof.
  intros Hc. induction u as [|a u IH]; [done|].
  rewrite str_append_cons, (chars_cons a (u +:+ String c t)), IH, (chars_cons a u).
  destruct (chars_head c t) as (x & rest & ->).
  destruct u as [|d u].
  - simpl. by rewrite Hc.
  - rewrite str_append_cons. cbn [PyStr.starts_cont].
    destruct (chars_head d u) as (y & rest' & ->).
    cbn [app]. by destruct (PyStr.is_cont d).
Qed.

(** ** Whitespace *)

Lemma lstrip_chars_nil l :
  PyStr.lstrip_chars l = [] ↔ forallb PyStr.isspace l = true.
Proof.
  induction l as [|ch l IH]; [done|]. cbn [PyStr.lstrip_chars forallb].
  destruct (PyStr.isspace ch); [done|]. by split.
Qed.

Lemma lstrip_chars_head l ch rest :
  PyStr.lstrip_chars l = ch :: rest → PyStr.isspace ch = false.
Proof.
  induction l as [|x l IH]; [done|]. cbn [PyStr.lstrip_chars].
  destruct (PyStr.isspace x) eqn:Hx; [done|]. by intros [= <- _].
Qed.

Lemma lstrip_chars_sub l x : x ∈ PyStr.lstrip_chars l → x ∈ l.
Proof.
  induction l as [|y l IH]; [done|]. cbn [PyStr.lstrip_chars].
  destruct (PyStr.isspace y); [|done]. intros Hx. right. by apply IH.
Qed.

Lemma forallb_reverse {A} (f : A → bool) l : forallb f (reverse l) = forallb f l.
Proof.
  induction l as [|x l IH]; [done|].
  rewrite reverse_cons, forallb_app, IH. simpl. rewrite andb_true_r. apply andb_comm.
Qed.

(** A text strips to the empty text exactly when it is made of whitespace
    only. *)
Lemma strip_empty_iff s : PyStr.strip s = "" ↔ PyStr.all_space s = true.
Proof.
  unfold PyStr.strip, PyStr.all_space.
  set (A := PyStr.lstrip_chars (PyStr.chars s)).
  assert (forallb PyStr.isspace A = true ↔ forallb PyStr.isspace (PyStr.chars s) = true)
    as HA.
  { split.
    - intros Hall. apply lstrip_chars_nil. fold A.
      destruct A as [|ch rest] eqn:HeqA; [done|].
      apply lstrip_chars_head in HeqA. simpl in Hall. by rewrite HeqA in Hall.
    - intros Hall%lstrip_chars_nil. fold A in Hall. by rewrite Hall. }
  rewrite <- HA, <- (forallb_reverse _ A), <- lstrip_chars_nil. split.
  - intros Hj. apply join_nil in Hj.
    { apply (f_equal reverse) in Hj. by rewrite reverse_involutive in Hj. }
    apply Forall_forall. intros x Hx. rewrite elem_of_reverse in Hx.
    apply lstrip_chars_sub in Hx. rewrite elem_of_reverse in Hx.
    apply lstrip_chars_sub in Hx. pose proof (chars_nonempty s) as Hne.
    rewrite Forall_forall in Hne. by apply Hne.
  - by intros ->.
Qed.

(** ** Case *)

Lemma code_Some ch n : PyStr.code ch = Some n → PyStr.utf8 n = ch.
Proof.
  unfold PyStr.code. destruct (String.eqb _ ch) eqn:Heq; [|done].
  intros [= <-]. by apply String.eqb_eq.
Qed.

Lemma utf8_nonempty n : PyStr.utf8 n ≠ "".
Proof. unfold PyStr.utf8. by repeat destruct (_ <? _)%N. Qed.

(** A property of the entries of a table, checked entry by entry, holds
    of whatever [assoc] finds. *)
Lemma assoc_forallb (P : N * list N → bool) table n image :
  forallb P table = true → PyStr.assoc n table = Some image → P (n, image) = true.
Proof.
  intros Hall. unfold PyStr.assoc.
  destruct (find _ table) as [[k v]|] eqn:Hfind; [|done]. intros [= <-].
  apply find_some in Hfind as [Hin Hk]. apply N.eqb_eq in Hk. simpl in Hk. subst k.
  rewrite forallb_forall in Hall. by apply Hall.
Qed.

Lemma map_char_nonempty table ch :
  forallb image_nonempty table = true → ch ≠ "" → PyStr.map_char table ch ≠ "".
Proof.
  intros Htable Hch. unfold PyStr.map_char.
  destruct (PyStr.code ch) as [n|]; [|done].
  destruct (PyStr.assoc n table) as [image|] eqn:Himage; [|done].
  apply (assoc_forallb _ _ _ _ Htable) in Himage. unfold image_nonempty in Himage.
  simpl in Himage. apply negb_true_iff, String.eqb_neq in Himage. done.
Qed.

Lemma upper_table_nonempty : forallb image_nonempty PyStr.upper_table = true.
Proof. vm_compute. reflexivity. Qed.

Lemma lower_table_nonempty : forallb image_nonempty PyStr.lower_table = true.
Proof. vm_compute. reflexivity. Qed.

Lemma join_map_nil (f : string → string) l :
  (∀ ch, ch ≠ "" → f ch ≠ "") → Forall (λ ch, ch ≠ "") l →
  PyStr.join (f <$> l) = "" → l = [].
Proof.
  intros Hf Hl Hj. destruct l as [|x l]; [done|].
  apply Forall_cons in Hl as [Hx _]. cbn [fmap list_fmap PyStr.join] in Hj.
  apply str_append_empty in Hj as [Hj _]. by apply Hf in Hj.
Qed.

(** A text that upper-cases to the empty text is empty. *)
Lemma upper_empty s : PyStr.upper s = "" → s = "".
Proof.
  unfold PyStr.upper. intros Hs. apply chars_nil.
  eapply join_map_nil; [|apply chars_nonempty|done].
  intros ch. apply map_char_nonempty, upper_table_nonempty.
Qed.

Lemma upper_table_Y : forallb only_y PyStr.upper_table = true.
Proof. vm_compute. reflexivity. Qed.

Lemma map_char_Y ch : PyStr.map_char PyStr.upper_table ch = "Y" → ch = "y" ∨ ch = "Y".
Proof.
  unfold PyStr.map_char.
  destruct (PyStr.code ch) as [n|] eqn:Hcode; [|by right].
  destruct (PyStr.assoc n PyStr.upper_table) as [image|] eqn:Himage; [|by right].
  intros Hy. apply (assoc_forallb _ _ _ _ upper_table_Y) in Himage.
  unfold only_y in Himage. simpl in Himage. rewrite Hy in Himage. simpl in Himage.
  apply N.eqb_eq in Himage. subst n. apply code_Some in Hcode. by left.
Qed.

(** Only the two texts "y" and "Y" upper-case to "Y". *)
Lemma upper_Y s : PyStr.upper s = "Y" ↔ s = "y" ∨ s = "Y".
Proof.
  split; [|by intros [-> | ->]; vm_compute].
  unfold PyStr.upper. intros Hs.
  pose proof (chars_nonempty s) as Hne. pose proof (join_chars s) as Hjoin.
  destruct (PyStr.chars s) as [|ch [|ch' rest]]; [done| |].
  - cbn [fmap list_fmap PyStr.join] in Hs, Hjoin. rewrite str_append_empty_r in Hs, Hjoin.
    subst s. by apply map_char_Y.
  - exfalso. cbn [fmap list_fmap PyStr.join] in Hs.
    apply Forall_cons in Hne as [Hch Hne]. apply Forall_cons in Hne as [Hch' _].
    apply (map_char_nonempty _ _ upper_table_nonempty) in Hch, Hch'.
    destruct (PyStr.map_char _ ch) as [|a [|b x]]; [done| |done].
    by destruct (PyStr.map_char _ ch').
Qed.

(** ** Whitespace opens with one of a few bytes *)

Lemma isspace_inv ch : PyStr.isspace ch = true → ch ∈ PyStr.utf8 <$> PyStr.whitespace.
Proof.
  unfold PyStr.isspace. destruct (PyStr.code ch) as [n|] eqn:Hcode; [|done].
  intros (k & Hin & Hk)%existsb_exists. apply N.eqb_eq in Hk. subst k.
  apply code_Some in Hcode. subst ch. apply list_elem_of_fmap. exists n.
  split; [done|]. by apply list_elem_of_In.
Qed.

(** No whitespace character opens with the byte of a decimal digit. *)
Lemma digit_nonspace c x :
  PyStr.in_range 48 57 c = true → PyStr.isspace (String c x) = false.
Proof.
  intros Hc. destruct (PyStr.isspace (String c x)) eqn:Hs; [exfalso|done].
  apply isspace_inv in Hs. revert Hs. vm_compute PyStr.utf8. unfold PyStr.whitespace.
  cbn [fmap list_fmap]. rewrite !elem_of_cons, elem_of_nil.
  intros Hs. repeat (destruct Hs as [Hs|Hs]; [revert Hs; vm_compute; intros [= -> _]; by vm_compute in Hc|]).
  done.
Qed.

Lemma strip_head_nonspace c s :
  (∀ x, PyStr.isspace (String c x) = false) → PyStr.strip (String c s) ≠ "".
Proof.
  intros Hc Hs. apply strip_empty_iff in Hs. unfold PyStr.all_space in Hs.
  destruct (chars_head c s) as (x & rest & Hhead). rewrite Hhead in Hs.
  simpl in Hs. by rewrite Hc in Hs.
Qed.

(** ** Lower-casing across a byte that opens a character *)

Lemma lower_app u c t :
  PyStr.is_cont c = false →
  PyStr.lower (u +:+ String c t) = PyStr.lower u +:+ PyStr.lower (String c t).
Proof.
  intros Hc. unfold PyStr.lower. by rewrite chars_app, fmap_app, join_app.
Qed.

Lemma digit_in_range n : PyStr.in_range 48 57 (digit n) = true.
Proof.
  unfold digit. pose proof (Nat.mod_upper_bound n 10 ltac:(lia)) as Hlt.
  destruct (n mod 10) as [|[|[|[|[|[|[|[|[|[|k]]]]]]]]]]; try reflexivity; lia.
Qed.

(** The time stamp written by [send_applications] is never blank. *)
Lemma strftime_not_blank dt : PyStr.strip (strftime dt) ≠ "".
Proof.
  unfold strftime, pad2. rewrite str_append_cons.
  apply strip_head_nonspace. intros x. apply digit_nonspace, digit_in_range.
Qed.

(** ** Cells *)

Lemma fillna_idemp c : fillna (fillna c) = fillna c.
Proof. by destruct c. Qed.

Lemma fillna_application_idemp a :
  fillna_application (fillna_application a) = fillna_application a.
Proof. unfold fillna_application. simpl. by rewrite !fillna_idemp. Qed.

(** ** The monad *)

Lemma bind_inv {A B} (m : M A) (k : A → M B) w r w' evs :
  (m ≫= k) w = (r, w', evs) →
  (∃ e, m w = (Raise e, w', evs) ∧ r = Raise e) ∨
  (∃ a w1 o1 o2, m w = (Ok a, w1, o1) ∧ k a w1 = (r, w', o2) ∧ evs = o1 ++ o2).
Proof.
  unfold mbind, M_bind. destruct (m w) as [[[a|e] w1] o1].
  - destruct (k a w1) as [[r2 w2] o2] eqn:Hk. intros [= <- <- <-].
    right. by exists a, w1, o1, o2.
  - intros [= <- <- <-]. left. by exists e.
Qed.

(** ** Sender selection *)

Section SenderFacts.
Context `{Externals}.
Import email_sender.

(** [pick_sender] in closed form: it neither changes the world nor
    produces an event, and its answer is a function of the [senders] sheet
    stored in the workbook (or of the environment when there is none). *)
Lemma pick_sender_eq w :
  pick_sender w =
  match workbook w !! "senders" with
  | None => (Ok (env_sender (environ w), None), w, [])
  | Some (SSenders rows) =>
      if bool_decide (avail rows = []) then (Raise (RuntimeError no_sender), w, [])
      else match sort_values (avail rows) with
           | (name, snd) :: _ =>
               (Ok (to_dict snd, Some (alter increment name (senders_df rows))), w, [])
           | [] => (Raise IndexError, w, [])
           end
  | Some _ => (Raise KeyError, w, [])
  end.
Proof.
  unfold pick_sender, try_except, _read, read_excel, avail, senders_df.
  unfold mbind, M_bind, mret, M_ret, lift, raise, gets.
  destruct (workbook w !! "senders") as [[rows|rows|rows|rows|rows]|] eqn:Hs;
    simpl; try reflexivity.
  case_bool_decide; [reflexivity|].
  destruct (sort_values _) as [|[name snd] rest]; reflexivity.
Qed.

Lemma pick_sender_pure w r w' evs :
  pick_sender w = (r, w', evs) → w' = w ∧ evs = [].
Proof.
  rewrite pick_sender_eq.
  destruct (workbook w !! "senders") as [[rows|rows|rows|rows|rows]|];
    try (intros [= <- <- <-]; done).
  case_bool_decide; [by intros [= <- <- <-]|].
  destruct (sort_values _) as [|[name snd] rest]; by intros [= <- <- <-].
Qed.

Lemma read_files_pure files w r w' evs :
  read_files files w = (r, w', evs) → w' = w ∧ evs = [].
Proof.
  revert r w' evs. induction files as [|f rest IH]; intros r w' evs; simpl.
  - by intros [= <- <- <-].
  - unfold mbind, M_bind, gets, raise, mret, M_ret.
    destruct (disk w !! f); [|by intros [= <- <- <-]].
    destruct (read_files rest w) as [[[a|e] w1] o1] eqn:Hr;
      destruct (IH _ _ _ eq_refl) as [-> ->]; by intros [= <- <- <-].
Qed.

(** One turn of the dispatch loop leaves the world as it is, and ends in
    one of three ways: an exception before anything was printed or sent;
    the missing-PDF line; or one SMTP session, accepted or not, after a
    successful [pick_sender]. *)
Lemma dispatch_row_inv force profs offers idx row t w r w' evs :
  dispatch_row force profs offers idx row t w = (r, w', evs) →
  w' = w ∧
  ((∃ e, r = Raise e ∧ evs = []) ∨
   (r = Ok (Continue t) ∧
    evs = [Print (PdfMissing (app_profile_id row) (app_job_id row))]) ∨
   (∃ host sender sdf msg line,
      pick_sender w = (Ok (sender, sdf), w, []) ∧
      evs = [SmtpSession idx host sender msg (smtp_accepts idx host sender msg);
             Print line] ∧
      (smtp_accepts idx host sender msg = false → line = SendFailed) ∧
      r = Ok (if smtp_accepts idx host sender msg
              then Continue (alter (mark_sent (strftime (now idx))) idx t.1, sdf)
              else if force then Continue (t.1, sdf) else Break (t.1, sdf)))).
Proof.
  unfold dispatch_row, build_msg. intros Hrun.
  apply bind_inv in Hrun as [(e & Hm & ->)|(profiles & wa & oa & oa' & Hm & Hrun & ->)];
    unfold lift in Hm; simplify_eq; [split; [done|]; left; eauto|].
  apply bind_inv in Hrun as [(e & Hm & ->)|(joboffers & wb & ob & ob' & Hm & Hrun & ->)];
    unfold lift in Hm; simplify_eq; [split; [done|]; left; eauto|].
  apply bind_inv in Hrun as [(e & Hm & ->)|(p & wc & oc & oc' & Hm & Hrun & ->)];
    unfold lift in Hm; simplify_eq; [split; [done|]; left; eauto|].
  apply bind_inv in Hrun as [(e & Hm & ->)|(files & wd & od & od' & Hm & Hrun & ->)];
    unfold gets in Hm; simplify_eq.
  simpl.
  destruct (glob _ _ _) as [cv|] eqn:Hcv; last first.
  { unfold print, emit, mbind, M_bind, mret, M_ret in Hrun. simplify_eq.
    split; [done|]. by right; left. }
  destruct (disk wd !! _) as [lm|] eqn:Hlm; last first.
  { unfold print, emit, mbind, M_bind, mret, M_ret in Hrun. simplify_eq.
    split; [done|]. by right; left. }
  apply bind_inv in Hrun as [(e & Hm & ->)|([sender sdf] & we & oe & oe' & Hm & Hrun & ->)];
    destruct (pick_sender_pure _ _ _ _ Hm) as [-> ->]; [split; [done|]; left; eauto|].
  apply bind_inv in Hrun as [(e & Hh & ->)|(host & wf & ox & ox' & Hh & Hrun & ->)];
    unfold lift in Hh; simplify_eq; [split; [done|]; left; eauto|].
  apply bind_inv in Hrun as [(e & Hb & ->)|(msg & wg & og & og' & Hb & Hrun & ->)].
  { apply bind_inv in Hb as [(e' & Hb & ?)|(atts & wh & oh & oh' & Hb & Hb' & ->)].
    - destruct (read_files_pure _ _ _ _ _ Hb) as [-> ->]. simplify_eq.
      split; [done|]. left. eauto.
    - unfold mret, M_ret in Hb'. simplify_eq. }
  apply bind_inv in Hb as [(e' & Hb & ?)|(atts & wh & oh & oh' & Hb & Hb' & ->)]; [done|].
  destruct (read_files_pure _ _ _ _ _ Hb) as [-> ->].
  unfold mret, M_ret in Hb'. simplify_eq. simpl.
  unfold try_except, send_email, print, emit, raise, mbind, M_bind, mret, M_ret in Hrun.
  simpl in Hrun.
  match type of Hrun with
  | context [smtp_accepts idx host sender ?m] => set (msg := m) in *
  end.
  destruct (smtp_accepts idx host sender msg) eqn:Hacc; simpl in Hrun; simplify_eq.
  - split; [done|]. right; right. eexists host, sender, sdf, msg, _.
    rewrite Hacc. by repeat split.
  - split; [done|]. right; right. eexists host, sender, sdf, msg, _.
    rewrite Hacc. by repeat split.
Qed.

Lemma picked_table_eq w sender sdf :
  pick_sender w = (Ok (sender, sdf), w, []) → picked_table w = sdf.
Proof. unfold picked_table. by intros ->. Qed.

(** The loop as a whole. *)
Lemma send_loop_inv force profs offers rows t w r w' evs :
  send_loop force profs offers rows t w = (r, w', evs) →
  w' = w ∧
  existsb is_write evs = false ∧
  (∀ i, existsb (attempted i) evs = true → i ∈ rows.*1) ∧
  (existsb is_smtp evs = true → ∃ sender sdf, pick_sender w = (Ok (sender, sdf), w, [])) ∧
  match r with
  | Ok t' =>
      (∀ i, t'.1 !! i =
            if existsb (transmitted i) evs
            then mark_sent (strftime (now i)) <$> t.1 !! i
            else t.1 !! i) ∧
      t'.2 = (if existsb is_smtp evs then picked_table w else t.2)
  | Raise _ => True
  end.
Proof.
  revert t r w' evs. induction rows as [|[idx row] rest IH]; intros t r w' evs; simpl.
  { intros [= <- <- <-]. simpl. repeat split; try done.  }
  intros Hrun.
  apply bind_inv in Hrun as [(e & Hrow & ->)|(c & w1 & o1 & o2 & Hrow & Hrest & ->)];
    apply dispatch_row_inv in Hrow as [-> Hrow].
  { destruct Hrow as [(e' & ? & ->)|[[? ?]|(host & sender & sdf & msg & line & ? & ? & ? & ?)]];
      simplify_eq. repeat split; done. }
  destruct Hrow as [(e' & ? & ->)|[[? ->]|(host & sender & sdf & msg & line & Hpick & -> & Hline & ?)]];
    simplify_eq.
  - (* missing PDF *)
    apply IH in Hrest as (-> & Hw & Hatt & Hsmtp & Hr). simpl.
    repeat split; try done.
    + intros i Hi. apply Hatt in Hi. by apply elem_of_cons; right.
  - (* one SMTP session *)
    destruct (smtp_accepts idx host sender msg) eqn:Hacc.
    + apply IH in Hrest as (-> & Hw & Hatt & Hsmtp & Hr). simpl.
      split; [done|]. split; [done|]. split; [|split; [eauto|]].
      { intros i. case_bool_decide; [subst; by left|].
        simpl. intros Hi%Hatt. by apply elem_of_cons; right. }
      destruct r as [t'|e]; [|done]. destruct Hr as [Happs Hsdf]. simpl in *.
      split.
      * intros i. rewrite Happs. case_bool_decide as Hi; simpl.
        -- subst i. rewrite list_lookup_alter. rewrite decide_True by done.
           destruct (existsb (transmitted idx) o2); [|reflexivity].
           by destruct (t.1 !! idx).
        -- by rewrite list_lookup_alter_ne.
      * rewrite Hsdf. destruct (existsb is_smtp o2); [done|].
        by rewrite (picked_table_eq _ _ _ Hpick).
    + destruct force.
      * apply IH in Hrest as (-> & Hw & Hatt & Hsmtp & Hr). simpl.
        split; [done|]. split; [done|]. split; [|split; [eauto|]].
        { intros i. case_bool_decide; [subst; by left|].
        simpl. intros Hi%Hatt. by apply elem_of_cons; right. }
        destruct r as [t'|e]; [|done]. destruct Hr as [Happs Hsdf]. simpl in *.
        split; [done|].
        rewrite Hsdf. destruct (existsb is_smtp o2); [done|].
        by rewrite (picked_table_eq _ _ _ Hpick).
      * unfold mret, M_ret in Hrest. simplify_eq. simpl.
        split; [done|]. split; [done|]. split; [|split; [eauto|]].
        { intros i. case_bool_decide; [subst; by left|done]. }
        split; [done|]. by rewrite (picked_table_eq _ _ _ Hpick).
Qed.

Lemma _read_inv sheet w r w' evs :
  _read sheet w = (r, w', evs) →
  w' = w ∧ evs = [] ∧
  match r with
  | Ok df => ∃ raw, workbook w !! sheet = Some raw ∧ df = fillna_sheet raw
  | Raise e => e = ValueError ∧ workbook w !! sheet = None
  end.
Proof.
  unfold _read, read_excel, mbind, M_bind, mret, M_ret.
  destruct (workbook w !! sheet) as [raw|]; intros [= <- <- <-]; eauto.
Qed.

Lemma send_applications_inv force w r w' evs :
  send_applications force w = (r, w', evs) →
  (∃ e, r = Raise e ∧ w' = w ∧ evs = []) ∨
  (∃ profs offers apps,
     workbook w !! "profiles" = Some profs ∧
     workbook w !! "joboffers" = Some offers ∧
     workbook w !! "applications" = Some (SApplications apps) ∧
     let mem := fillna_application <$> apps in
     (todo mem = [] ∧ r = Ok () ∧ w' = w ∧ evs = [Print NoEmail]) ∨
     (todo mem ≠ [] ∧
      ∃ rl loop_evs,
        send_loop force (fillna_sheet profs) (fillna_sheet offers) (todo mem)
          (mem, None) w = (rl, w, loop_evs) ∧
        match rl with
        | Raise e => r = Raise e ∧ w' = w ∧ evs = loop_evs
        | Ok (apps', sdf) =>
            r = Ok () ∧
            w' = set_workbook (persist apps' sdf) w ∧
            evs = loop_evs ++ persist_events sdf
        end)).
Proof.
  unfold send_applications. intros Hrun.
  apply bind_inv in Hrun as [(e & Hm & ->)|(profs & wa & oa & oa' & Hm & Hrun & ->)];
    apply _read_inv in Hm as (-> & -> & Hm); [left; eauto|].
  destruct Hm as (rawp & Hp & ->).
  apply bind_inv in Hrun as [(e & Hm & ->)|(offers & wb & ob & ob' & Hm & Hrun & ->)];
    apply _read_inv in Hm as (-> & -> & Hm); [left; eauto|].
  destruct Hm as (rawo & Ho & ->).
  apply bind_inv in Hrun as [(e & Hm & ->)|(sheet & wc & oc & oc' & Hm & Hrun & ->)];
    apply _read_inv in Hm as (-> & -> & Hm); [left; eauto|].
  destruct Hm as (rawa & Ha & ->).
  apply bind_inv in Hrun as [(e & Hm & ->)|(apps & wd & od & od' & Hm & Hrun & ->)];
    unfold lift in Hm; simplify_eq; [left; eauto|].
  destruct rawa as [?|?|apps0|?|?]; simplify_eq/=.
  apply bind_inv in Hrun as [(e & Hm & ->)|([] & wx & ox & ox' & Hm & Hrun & ->)];
    unfold lift in Hm; simplify_eq; [left; eauto|].
  apply bind_inv in Hrun as [(e & Hm & ->)|([] & wy & oy & oy' & Hm & Hrun & ->)];
    unfold lift in Hm; simplify_eq; [left; eauto|].
  right. exists rawp, rawo, apps0. split; [done|]. split; [done|]. split; [done|].
  case_bool_decide as Htodo.
  { unfold print, emit in Hrun. simplify_eq. by left. }
  right. split; [done|].
  apply bind_inv in Hrun as [(e & Hl & ->)|([apps' sdf] & we & oe & oe' & Hl & Hrun & ->)];
    pose proof (send_loop_inv _ _ _ _ _ _ _ _ _ Hl) as [-> _].
  { eexists _, _. split; [done|]. done. }
  eexists _, _. split; [done|]. simpl.
  unfold to_excel, modify, emit, mbind, M_bind, mret, M_ret in Hrun.
  destruct sdf as [df|]; simplify_eq/=; done.
Qed.

Lemma elem_of_iterrows {A} (l : list A) i a :
  (i, a) ∈ iterrows l ↔ l !! i = Some a.
Proof.
  unfold iterrows. rewrite elem_of_lookup_imap. split.
  - by intros (j & y & [= -> ->] & Hl).
  - intros Hl. by exists i, a.
Qed.

Lemma senders_df_lookup rows i :
  senders_df rows !! i = (λ s, coerce_counters (fillna_sender s)) <$> rows !! i.
Proof. unfold senders_df. rewrite !list_lookup_fmap. by destruct (rows !! i). Qed.

Lemma elem_of_avail rows i s' :
  (i, s') ∈ avail rows ↔
  ∃ s, rows !! i = Some s ∧ s' = coerce_counters (fillna_sender s) ∧ qualifies s = true.
Proof.
  unfold avail. rewrite list_elem_of_filter, elem_of_iterrows, senders_df_lookup. simpl.
  split.
  - intros [Hq Hl]. destruct (rows !! i) as [s|] eqn:Hs; simplify_eq/=.
    exists s. unfold qualifies. by destruct (under_quota _).
  - intros (s & -> & -> & Hq). split; [|done]. unfold qualifies in Hq. by rewrite Hq.
Qed.

Lemma avail_nil rows :
  (∀ s, s ∈ rows → qualifies s = false) → avail rows = [].
Proof.
  intros Hall. destruct (avail rows) as [|[i s'] l] eqn:Ha; [done|].
  assert ((i, s') ∈ avail rows) as Hin by (rewrite Ha; left).
  apply elem_of_avail in Hin as (s & Hs & _ & Hq).
  rewrite Hall in Hq; [done|]. by eapply list_elem_of_lookup_2.
Qed.

(** C7: when no account of the senders table has sent_today below
    daily_limit, [pick_sender] raises the exhaustion error instead of
    returning an account, and no run of [send_applications] in that world
    opens an SMTP session: no message is sent. *)
Theorem pick_sender_exhausted w rows :
  workbook w !! "senders" = Some (SSenders rows) →
  (∀ s, s ∈ rows → qualifies s = false) →
  pick_sender w = (Raise (RuntimeError no_sender), w, []) ∧
  ∀ force r w' evs,
    send_applications force w = (r, w', evs) → existsb is_smtp evs = false.
Proof.
  intros Hs Hall.
  assert (pick_sender w = (Raise (RuntimeError no_sender), w, [])) as Hpick.
  { rewrite pick_sender_eq, Hs, avail_nil by done. by rewrite bool_decide_true. }
  split; [done|].
  intros force r w' evs Hrun.
  destruct (existsb is_smtp evs) eqn:Hev; [exfalso|done].
  apply send_applications_inv in Hrun
    as [(e & -> & -> & ->)|(profs & offers & apps & _ & _ & _ & Hrun)]; [done|].
  simpl in Hrun. destruct Hrun as [(_ & _ & _ & ->)|(_ & rl & loop_evs & Hloop & Hrl)]; [done|].
  apply send_loop_inv in Hloop as (_ & _ & _ & Hsmtp & _).
  assert (existsb is_smtp loop_evs = true) as Hl.
  { destruct rl as [[apps' sdf]|e].
    - destruct Hrl as (_ & _ & ->). rewrite existsb_app in Hev.
      apply orb_prop in Hev as [?|Hev]; [done|]. by destruct sdf.
    - by destruct Hrl as (_ & _ & ->). }
  apply Hsmtp in Hl as (sender & sdf & Hok). congruence.
Qed.

Lemma sorted_head_in (l : list (nat * Sender)) :
  sort_values_sorts → l ≠ [] →
  ∃ r rest, sort_values l = r :: rest ∧ r ∈ l ∧ ∀ r', r' ∈ l → (sort_key r ≤ sort_key r')%Z.
Proof.
  intros Hsort Hne. destruct (Hsort l) as [Hperm Hsorted].
  destruct (sort_values l) as [|r rest] eqn:Hs.
  { apply Permutation_nil_l in Hperm. congruence. }
  exists r, rest. split; [done|]. split.
  - rewrite <- Hperm. left.
  - intros r' Hr'. rewrite <- Hperm in Hr'.
    apply StronglySorted_inv in Hsorted as [_ Hall].
    apply elem_of_cons in Hr' as [->|Hr']; [lia|].
    rewrite Forall_forall in Hall. by apply Hall.
Qed.


(** C1 (the code at the failing input): with counters 0 and 3 and limits
    5 and 5, three selections in a row, made as the dispatch loop makes
    them, each read the stored sheet again: each chooses the first account
    at count 0 and hands back the table whose first counter is 1; the
    counts 0, 1 and 2 of the claim are not reached within a run. *)
Theorem pick_sender_rereads_sheet w a b :
  sort_values_sorts →
  workbook w !! "senders" = Some (SSenders [a; b]) →
  sent_today a = Num 0 → daily_limit a = Num 5 →
  sent_today b = Num 3 → daily_limit b = Num 5 →
  let a' := coerce_counters (fillna_sender a) in
  let b' := coerce_counters (fillna_sender b) in
  let answer := (to_dict a', Some [increment a'; b']) in
  pick_three w = (Ok [answer; answer; answer], w, []) ∧
  dict_sent_today (to_dict a') = Some 0%Z ∧
  sent_today (increment a') = Num 1.
Proof.
  intros Hsort Hs Ha1 Ha2 Hb1 Hb2 a' b' answer.
  destruct a as [ea pa la sa ha], b as [eb pb lb sb hb]. simpl in *. subst.
  assert (avail [Build_Sender ea pa (Num 5) (Num 0) ha;
                 Build_Sender eb pb (Num 5) (Num 3) hb] = [(0, a'); (1, b')]) as Hav
    by reflexivity.
  assert (pick_sender w = (Ok answer, w, [])) as Hpick.
  { rewrite pick_sender_eq, Hs, Hav. rewrite bool_decide_false by done.
    destruct (sorted_head_in [(0, a'); (1, b')] Hsort ltac:(done))
      as (r & rest & -> & Hin & Hmin).
    assert (r = (0, a')) as ->; [|done].
    apply elem_of_cons in Hin as [->|Hin]; [done|].
    apply list_elem_of_singleton in Hin as ->.
    specialize (Hmin (0, a') ltac:(left)).
    exfalso. revert Hmin. unfold sort_key, a', b'. vm_compute. intros Hc. by apply Hc. }
  split; [|done].
  unfold pick_three, mbind, M_bind, mret, M_ret. rewrite Hpick. simpl. rewrite Hpick. simpl. by rewrite Hpick.
Qed.

Lemma persist_events_no_smtp sdf : existsb is_smtp (persist_events sdf) = false.
Proof. by destruct sdf. Qed.

Lemma persist_events_no_session i sdf :
  existsb (attempted i) (persist_events sdf) = false ∧
  existsb (transmitted i) (persist_events sdf) = false.
Proof. by destruct sdf. Qed.

Lemma persist_other apps' sdf m name :
  name ≠ "applications" → name ≠ "senders" → persist apps' sdf m !! name = m !! name.
Proof.
  intros Ha Hs. unfold persist.
  destruct sdf; rewrite ?lookup_insert_ne by done; done.
Qed.

Lemma persist_applications apps' sdf m :
  persist apps' sdf m !! "applications" = Some (SApplications apps').
Proof.
  unfold persist. destruct sdf.
  - rewrite lookup_insert_ne by done. apply lookup_insert_eq.
  - apply lookup_insert_eq.
Qed.

Lemma persist_senders apps' sdf m :
  persist apps' sdf m !! "senders" =
  match sdf with Some df => Some (SSenders df) | None => m !! "senders" end.
Proof.
  unfold persist. destruct sdf.
  - apply lookup_insert_eq.
  - by rewrite lookup_insert_ne.
Qed.

(** C2, as amended: a run of [send_applications] with a non-empty todo
    set that returns (the loop completed, or was left by the fail-fast
    break after a transport error) has written the applications table of
    the run, which is the table it read, missing cells as empty texts,
    with the rows whose message was accepted marked and stamped, and the
    senders table too exactly when an SMTP session was opened in
    multi-account mode; the writes leave every other sheet, the disk and
    the environment as they were.  A run that ends with an exception (the
    exhaustion error among them) has written nothing: the world is the one
    it started from. *)
Theorem send_applications_persists force w r w' evs apps :
  workbook w !! "applications" = Some (SApplications apps) →
  todo (fillna_application <$> apps) ≠ [] →
  send_applications force w = (r, w', evs) →
  disk w' = disk w ∧ environ w' = environ w ∧
  (∀ name, name ≠ "applications" → name ≠ "senders" →
           workbook w' !! name = workbook w !! name) ∧
  match r with
  | Ok _ =>
      (∃ apps',
         workbook w' !! "applications" = Some (SApplications apps') ∧
         ∀ i, apps' !! i =
              if existsb (transmitted i) evs
              then mark_sent (strftime (now i)) <$> (fillna_application <$> apps) !! i
              else (fillna_application <$> apps) !! i) ∧
      ExcelWrite "applications" ∈ evs ∧
      match (if existsb is_smtp evs then picked_table w else None) with
      | Some df =>
          workbook w' !! "senders" = Some (SSenders df) ∧ ExcelWrite "senders" ∈ evs
      | None =>
          workbook w' !! "senders" = workbook w !! "senders" ∧
          ExcelWrite "senders" ∉ evs
      end
  | Raise _ => w' = w ∧ existsb is_write evs = false
  end.
Proof.
  intros Ha Htodo Hrun.
  apply send_applications_inv in Hrun
    as [(e & -> & -> & ->)|(profs & offers & apps0 & _ & _ & Ha' & Hrun)]; [done|].
  rewrite Ha in Ha'. simplify_eq. simpl in Hrun.
  destruct Hrun as [(? & _)|(_ & rl & loop_evs & Hloop & Hrl)]; [done|].
  apply send_loop_inv in Hloop as (_ & Hw & _ & _ & Hr).
  destruct rl as [[apps' sdf]|e].
  - destruct Hrl as (-> & -> & ->), Hr as [Happs Hsdf]. simpl in *.
    split; [done|]. split; [done|]. split; [by intros; apply persist_other|].
    split.
    { exists apps'. split; [apply persist_applications|]. intros i.
      rewrite existsb_app, (proj2 (persist_events_no_session i sdf)), orb_false_r.
      apply Happs. }
    split; [apply elem_of_app; right; left|].
    rewrite existsb_app, persist_events_no_smtp, orb_false_r, <- Hsdf.
    rewrite persist_senders.
    assert (ExcelWrite "senders" ∉ loop_evs) as Hnot.
    { intros Hin. apply list_elem_of_In in Hin.
      assert (existsb is_write loop_evs = true) as Hex; [|congruence].
      apply existsb_exists. by exists (ExcelWrite "senders"). }
    destruct sdf as [df|]; (split; [done|]).
    + apply elem_of_app. right. right. left.
    + intros [?|Hin]%elem_of_app; [done|].
      apply elem_of_cons in Hin as [?|Hin]; [done|]. by apply elem_of_nil in Hin.
  - destruct Hrl as (-> & -> & ->). simpl. done.
Qed.

Lemma elem_of_todo apps i a :
  (i, a) ∈ todo apps ↔ apps !! i = Some a ∧ pending a.
Proof.
  unfold todo. rewrite list_elem_of_filter, elem_of_iterrows. simpl.
  unfold pending, flag_set, blank, mask_no_email, str_upper, str_strip, eq_text, isna.
  split.
  - intros [Hsel Hl]. split; [done|].
    apply Is_true_true, andb_prop in Hsel as [Hf Hb]. split.
    + destruct (generate_lm a) as [|s|]; try done.
      apply String.eqb_eq, upper_Y in Hf as [->| ->]; auto.
    + destruct (email_sent a) as [|s|]; try done; [by left|].
      right. exists s. split; [done|]. simpl in Hb.
      by apply strip_empty_iff, String.eqb_eq.
  - intros [Hl [Hf Hb]]. split; [|done].
    apply Is_true_true, andb_true_intro. split.
    + destruct Hf as [-> | ->]; done.
    + destruct Hb as [->|(s & -> & Hs)]; [done|]. simpl.
      apply String.eqb_eq. by apply strip_empty_iff.
Qed.

Lemma blank_fillna c : blank c → blank (fillna c).
Proof.
  intros [->|(s & -> & Hs)]; right; [by exists ""|by exists s].
Qed.

(** C5, as amended: after a run of [send_applications] that returns, an
    application whose message the SMTP server accepted has email_sent =
    "YES" (truthy, and no longer blank for the selection) and a sent_at
    stamp that is not blank; every other application (skipped for a missing
    PDF, refused in transit, or never selected) reads exactly as before, so
    fields that were blank are still blank.  A run that ends with an
    exception leaves the workbook as it was, so no application is marked
    by it, those whose message it had sent no more than the others. *)
Theorem send_applications_marks force w r w' evs apps :
  workbook w !! "applications" = Some (SApplications apps) →
  send_applications force w = (r, w', evs) →
  match r with
  | Ok _ =>
      ∃ apps',
        workbook w' !! "applications" = Some (SApplications apps') ∧
        ∀ i a, apps !! i = Some a →
          ∃ a', apps' !! i = Some a' ∧
            if existsb (transmitted i) evs
            then email_sent a' = Str "YES" ∧ PyStr.truthy "YES" = true ∧
                 mask_no_email a' = false ∧
                 ∃ stamp, sent_at a' = Str stamp ∧ PyStr.strip stamp ≠ ""
            else fillna_application a' = fillna_application a ∧
                 (blank (email_sent a) → blank (email_sent a')) ∧
                 (blank (sent_at a) → blank (sent_at a'))
  | Raise _ => w' = w
  end.
Proof.
  intros Ha Hrun.
  apply send_applications_inv in Hrun
    as [(e & -> & -> & _)|(profs & offers & apps0 & _ & _ & Ha' & Hrun)]; [done|].
  rewrite Ha in Ha'. simplify_eq. simpl in Hrun.
  destruct Hrun as [(_ & -> & -> & ->)|(_ & rl & loop_evs & Hloop & Hrl)].
  { exists apps0. split; [done|]. intros i a Hi. exists a. simpl. by repeat split. }
  apply send_loop_inv in Hloop as (_ & _ & _ & _ & Hr).
  destruct rl as [[apps' sdf]|e]; [|by destruct Hrl as (-> & -> & _)].
  destruct Hrl as (-> & -> & ->), Hr as [Happs _]. simpl in *.
  exists apps'. split; [apply persist_applications|].
  intros i a Hi. specialize (Happs i).
  rewrite list_lookup_fmap, Hi in Happs. simpl in Happs.
  rewrite existsb_app, (proj2 (persist_events_no_session i sdf)), orb_false_r.
  destruct (existsb (transmitted i) loop_evs); rewrite Happs; eexists; (split; [done|]).
  - simpl. repeat split. exists (strftime (now i)). split; [done|]. apply strftime_not_blank.
  - split; [apply fillna_application_idemp|]. simpl.
    split; apply blank_fillna.
Qed.

Lemma dispatch_row_force profs offers idx row t w :
  dispatch_row true profs offers idx row t w =
  let '(r, w', evs) := dispatch_row false profs offers idx row t w in
  (match r with Ok c => Ok (unbreak c) | Raise e => Raise e end, w', evs).
Proof.
  unfold dispatch_row, build_msg, try_except, send_email, print, emit, raise, lift, gets.
  unfold mbind, M_bind, mret, M_ret.
  destruct (as_profiles profs); [|done].
  destruct (as_joboffers offers); [|done].
  destruct (as_row _); [|done]. cbv zeta.
  destruct (glob _ _ _); [|done].
  destruct (disk w !! _); [|done].
  destruct (pick_sender w) as [[[[sender sdf]|e] w1] o1]; [|done].
  destruct (resolve_host sender); [|done].
  destruct (read_files _ w1) as [[[atts|e] w2] o2]; [|done]. cbv beta iota zeta.
  destruct (smtp_accepts _ _ _ _); done.
Qed.

Lemma iterrows_labels {A} (l : list A) : (iterrows l).*1 = seq 0 (length l).
Proof.
  unfold iterrows. rewrite fmap_imap.
  rewrite (imap_ext _ (λ j _, j)) by done.
  rewrite (imap_seq_0 l (λ j, j)). apply list_fmap_id.
Qed.

Lemma todo_NoDup apps : NoDup (todo apps).*1.
Proof.
  apply NoDup_fmap_fst.
  - intros i a1 a2 [H1 _]%elem_of_todo [H2 _]%elem_of_todo. congruence.
  - unfold todo. apply NoDup_filter.
    apply (NoDup_fmap_1 fst). rewrite iterrows_labels. apply NoDup_seq.
Qed.

Lemma str_accessor_text column c :
  c ∈ column → is_text c = true → str_accessor column = Ok ().
Proof.
  intros Hin Hc. unfold str_accessor.
  assert (existsb is_text column = true) as ->; [|by rewrite orb_true_r].
  apply existsb_exists. exists c. split; [by apply list_elem_of_In|done].
Qed.

(** Pending rows make their two columns columns of texts. *)
Lemma todo_str_accessor apps :
  todo (fillna_application <$> apps) ≠ [] →
  str_accessor (email_sent <$> (fillna_application <$> apps)) = Ok () ∧
  str_accessor (generate_lm <$> (fillna_application <$> apps)) = Ok ().
Proof.
  intros Htodo.
  destruct (todo (fillna_application <$> apps)) as [|[i a] rest] eqn:Hrows; [done|].
  assert ((i, a) ∈ todo (fillna_application <$> apps)) as Hin by (rewrite Hrows; by left).
  apply elem_of_todo in Hin as [Hi [Hflag Hblank]].
  pose proof (list_elem_of_lookup_2 _ _ _ Hi) as Hmem.
  rewrite list_lookup_fmap in Hi. destruct (apps !! i) as [a0|]; [|done].
  injection Hi as <-. split.
  - apply (str_accessor_text _ (email_sent (fillna_application a0))).
    + apply list_elem_of_fmap. exists (fillna_application a0). by split.
    + destruct Hblank as [Hn|(s & Hs & _)]; [|by rewrite Hs].
      simpl in Hn. by destruct (email_sent a0).
  - apply (str_accessor_text _ (generate_lm (fillna_application a0))).
    + apply list_elem_of_fmap. exists (fillna_application a0). by split.
    + by destruct Hflag as [-> | ->].
Qed.

Lemma send_applications_eq force w profs offers apps :
  workbook w !! "profiles" = Some profs →
  workbook w !! "joboffers" = Some offers →
  workbook w !! "applications" = Some (SApplications apps) →
  todo (fillna_application <$> apps) ≠ [] →
  send_applications force w =
  match send_loop force (fillna_sheet profs) (fillna_sheet offers)
          (todo (fillna_application <$> apps)) (fillna_application <$> apps, None) w with
  | (Ok (apps', sdf), w1, evs) =>
      (Ok (), set_workbook (persist apps' sdf) w1, evs ++ persist_events sdf)
  | (Raise e, w1, evs) => (Raise e, w1, evs)
  end.
Proof.
  intros Hp Ho Ha Htodo.
  unfold send_applications, _read, read_excel, lift, to_excel, modify, emit.
  unfold mbind, M_bind, mret, M_ret.
  destruct (todo_str_accessor _ Htodo) as [Hsent Hflag].
  rewrite Hp, Ho, Ha. cbn [fillna_sheet as_applications]. rewrite Hsent, Hflag.
  simpl. rewrite bool_decide_false by done.
  destruct (send_loop _ _ _ _ _ w) as [[[[apps' sdf]|e] w1] evs]; [|done].
  destruct sdf; simpl; by rewrite ?app_nil_r.
Qed.

(** C6: two pending applications, and the SMTP session opened for the
    first one fails.  Without [force] the loop stops there: the run
    returns after the failed session and the failure line, writes the
    tables, and no session is opened for the second row.  With [force]
    the failure line is printed all the same, the loop goes on to dispatch
    the second row (its events follow, then the writes), and the first row
    is left as it was read: unmarked. *)
Theorem fail_fast_or_force w profs offers apps i1 r1 i2 r2 host sender msg :
  workbook w !! "profiles" = Some profs →
  workbook w !! "joboffers" = Some offers →
  workbook w !! "applications" = Some (SApplications apps) →
  let mem := fillna_application <$> apps in
  let P := fillna_sheet profs in
  let O := fillna_sheet offers in
  todo mem = [(i1, r1); (i2, r2)] →
  SmtpSession i1 host sender msg false ∈ (dispatch_row false P O i1 r1 (mem, None) w).2 →
  let failure := [SmtpSession i1 host sender msg false; Print SendFailed] in
  let sdf := picked_table w in
  send_applications false w =
    (Ok (), set_workbook (persist mem sdf) w, failure ++ persist_events sdf) ∧
  existsb (attempted i2) (failure ++ persist_events sdf) = false ∧
  ∃ r2' evs2,
    dispatch_row true P O i2 r2 (mem, sdf) w = (r2', w, evs2) ∧
    send_applications true w =
      match r2' with
      | Ok c =>
          (Ok (), set_workbook (persist (tables_of c).1 (tables_of c).2) w,
           failure ++ evs2 ++ persist_events (tables_of c).2)
      | Raise e => (Raise e, w, failure ++ evs2)
      end ∧
    ∀ c, r2' = Ok c → (tables_of c).1 !! i1 = mem !! i1.
Proof.
  intros Hp Ho Ha mem P O Htodo Hfail failure sdf.
  assert (i1 ≠ i2) as Hne.
  { pose proof (todo_NoDup mem) as Hnd. rewrite Htodo in Hnd. simpl in Hnd.
    apply NoDup_cons in Hnd as [Hnot _]. intros ->. apply Hnot. left. }
  destruct (dispatch_row false P O i1 r1 (mem, None) w) as [[ra wa] ea] eqn:Hrow1.
  pose proof (dispatch_row_inv _ _ _ _ _ _ _ _ _ _ Hrow1) as [-> Hcases].
  simpl in Hfail.
  destruct Hcases as [(e & -> & ->)|[[-> ->]|(h & s & sdf' & m & line & Hpick & -> & Hline & ->)]].
  { by apply elem_of_nil in Hfail. }
  { apply list_elem_of_singleton in Hfail. done. }
  apply elem_of_cons in Hfail as [Heq|Hfail]; last first.
  { apply list_elem_of_singleton in Hfail. done. }
  injection Heq as <- <- <- Hacc. rewrite <- Hacc in *. specialize (Hline eq_refl) as ->.
  assert (sdf = sdf') as <- by (by apply picked_table_eq in Hpick).
  simpl in Hrow1.
  assert (todo mem ≠ []) as Hnil by (by rewrite Htodo).
  split; [|split].
  - rewrite (send_applications_eq _ _ _ _ _ Hp Ho Ha Hnil). fold mem P O. rewrite Htodo.
    simpl. unfold mbind, M_bind. rewrite Hrow1. reflexivity.
  - rewrite existsb_app, (proj1 (persist_events_no_session i2 sdf)). simpl.
    by rewrite bool_decide_false.
  - destruct (dispatch_row true P O i2 r2 (mem, sdf) w) as [[r2' w2] evs2] eqn:Hrow2.
    pose proof (dispatch_row_inv _ _ _ _ _ _ _ _ _ _ Hrow2) as [-> Hcases].
    exists r2', evs2. split; [done|]. split.
    + rewrite (send_applications_eq _ _ _ _ _ Hp Ho Ha Hnil). fold mem P O. rewrite Htodo.
      simpl. unfold mbind, M_bind. rewrite dispatch_row_force, Hrow1. simpl.
      rewrite Hrow2.
      destruct r2' as [[[apps2 sdf2]|[apps2 sdf2]]|e]; simpl; try done.
      all: unfold mret, M_ret; simpl; by rewrite ?app_nil_r.
    + intros c ->.
      destruct Hcases as [(e & ? & _)|[[[= ->] _]|(h & s & sdf2 & m & line & _ & _ & _ & [= ->])]];
        [done|done|].
      destruct (smtp_accepts i2 h s m); simpl; [|done].
      by rewrite list_lookup_alter_ne.
Qed.

End SenderFacts.

(** ** Letters and résumés *)

Section Letters.
Context `{Externals}.
Import letter_generator.

Lemma letter_row_eq force profiles offers idx row w :
  letter_row force profiles offers idx row w =
  match as_profiles profiles with
  | Raise e => (Raise e, w, [])
  | Ok _ =>
      match find_offer offers row with
      | Raise e => (Raise e, w, [])
      | Ok offer =>
          match find_profile profiles row with
          | Raise e => (Raise e, w, [])
          | Ok p =>
              let name := lm_name (PyStr.upper (nom p)) (prenom p) (app_job_id row) in
              if bool_decide (is_Some (disk w !! letter_path p row)) && negb force
              then (Ok (), w, [Print (LetterPresent name)])
              else
                let html :=
                  render_lm p (generate_letter_text idx p (getfield infos offer)) offer today in
                (Ok (),
                 set_disk (insert (letter_path p row) (wkhtmltopdf html))
                   (set_disk (insert tmp_html html) w),
                 [LetterRequest idx p (getfield infos offer);
                  Pdfkit (letter_path p row);
                  Print (LetterDone (letter_path p row))])
          end
      end
  end.
Proof.
  unfold letter_row, find_profile, find_offer, letter_path.
  unfold print, emit, modify, lift, gets, mbind, M_bind, mret, M_ret.
  destruct (as_profiles profiles) as [profs|e]; [|done].
  destruct (as_joboffers offers) as [joboffers|e]; [|done].
  destruct (as_row _) as [p|e]; [|done]. cbv zeta.
  destruct (bool_decide _ && negb force); reflexivity.
Qed.

Lemma covers_refl tmp d : covers tmp d d.
Proof. by intros p. Qed.

Lemma covers_trans tmp d1 d2 d3 : covers tmp d1 d2 → covers tmp d2 d3 → covers tmp d1 d3.
Proof. intros H12 H23 p Hp Hin. by apply H23, H12. Qed.

Lemma covers_insert tmp d p x : covers tmp d (<[p := x]> d).
Proof.
  intros q _ Hq. destruct (decide (p = q)) as [->|Hne].
  - rewrite lookup_insert_eq. eauto.
  - by rewrite lookup_insert_ne.
Qed.

Lemma covers_delete tmp d : covers tmp d (delete tmp d).
Proof. intros q Hq Hin. by rewrite lookup_delete_ne. Qed.

Lemma letter_path_not_tmp p row : letter_path p row ≠ tmp_html.
Proof. done. Qed.
End Letters.

Section LettersTwice.
Context (E1 E2 : Externals).
Import letter_generator.

Lemma letter_loop_rerun profiles offers rows w r1 w1 e1 :
  @letter_loop E1 false profiles offers rows w = (r1, w1, e1) →
  workbook w1 = workbook w ∧ environ w1 = environ w ∧
  covers tmp_html (disk w) (disk w1) ∧
  ∀ w2, covers tmp_html (disk w1) (disk w2) →
    ∃ e2, @letter_loop E2 false profiles offers rows w2 = (r1, w2, e2) ∧
          existsb is_pdfkit e2 = false ∧ existsb is_letter_request e2 = false.
Proof.
  revert w r1 w1 e1. induction rows as [|[idx row] rest IH]; intros w r1 w1 e1; simpl.
  { intros [= <- <- <-]. split; [done|]. split; [done|]. split; [apply covers_refl|].
    intros w2 _. by exists []. }
  unfold mbind, M_bind. rewrite !letter_row_eq.
  destruct (as_profiles profiles) as [profs|e] eqn:Hp.
  2:{ intros [= <- <- <-]. split; [done|]. split; [done|]. split; [apply covers_refl|].
      intros w2 _. exists []. by rewrite letter_row_eq, Hp. }
  destruct (find_offer offers row) as [offer|e] eqn:Ho.
  2:{ intros [= <- <- <-]. split; [done|]. split; [done|]. split; [apply covers_refl|].
      intros w2 _. exists []. by rewrite letter_row_eq, Hp, Ho. }
  destruct (find_profile profiles row) as [p|e] eqn:Hf.
  2:{ intros [= <- <- <-]. split; [done|]. split; [done|]. split; [apply covers_refl|].
      intros w2 _. exists []. by rewrite letter_row_eq, Hp, Ho, Hf. }
  cbv zeta. rewrite andb_true_r.
  case_bool_decide as Hin.
  - destruct (@letter_loop E1 false profiles offers rest w) as [[rl wl] evl] eqn:Hloop.
    intros [= <- <- <-].
    apply IH in Hloop as (Hwb & Henv & Hcov & Hrerun).
    split; [done|]. split; [done|]. split; [done|].
    intros w2 Hw2. destruct (Hrerun w2 Hw2) as (e2 & He2 & Hk & Hl).
    eexists. rewrite letter_row_eq, Hp, Ho, Hf. cbv zeta.
    rewrite bool_decide_true; last first.
    { apply Hw2; [apply letter_path_not_tmp|]. by apply Hcov; [apply letter_path_not_tmp|]. }
    simpl. rewrite He2. done.
  - set (wm := set_disk _ (set_disk _ w)).
    destruct (@letter_loop E1 false profiles offers rest wm) as [[rl wl] evl] eqn:Hloop.
    intros [= <- <- <-].
    apply IH in Hloop as (Hwb & Henv & Hcov & Hrerun).
    split; [done|]. split; [done|].
    assert (covers tmp_html (disk w) (disk wm)) as Hcm.
    { eapply covers_trans; apply covers_insert. }
    split; [by eapply covers_trans|].
    intros w2 Hw2. destruct (Hrerun w2 Hw2) as (e2 & He2 & Hk & Hl).
    eexists. rewrite letter_row_eq, Hp, Ho, Hf. cbv zeta.
    rewrite bool_decide_true; last first.
    { apply Hw2; [apply letter_path_not_tmp|]. apply Hcov; [apply letter_path_not_tmp|].
      unfold wm. simpl. rewrite lookup_insert_eq. eauto. }
    simpl. rewrite He2. done.
Qed.
End LettersTwice.

Section LettersTwice2.
Context (E1 E2 : Externals).
Import letter_generator.

Lemma set_disk_delete_twice tmp w :
  set_disk (delete tmp) (set_disk (delete tmp) w) = set_disk (delete tmp) w.
Proof. unfold set_disk. simpl. f_equal. apply delete_delete_eq. Qed.

Lemma generate_letters_twice w :
  let '(r1, w1, e1) := @generate_letters E1 false w in
  let '(r2, w2, e2) := @generate_letters E2 false w1 in
  r2 = r1 ∧ w2 = w1 ∧
  existsb is_pdfkit e2 = false ∧ existsb is_letter_request e2 = false.
Proof.
  unfold generate_letters, _read, read_excel, lift, print, emit, modify.
  unfold mbind, M_bind, mret, M_ret.
  destruct (workbook w !! "profiles") as [profs|] eqn:Hp; [|by rewrite Hp].
  destruct (workbook w !! "joboffers") as [offers|] eqn:Ho; [|by rewrite Hp, Ho].
  destruct (workbook w !! "applications") as [sheet|] eqn:Ha; [|by rewrite Hp, Ho, Ha].
  destruct (as_applications (fillna_sheet sheet)) as [apps|e] eqn:Hs;
    [|by rewrite Hp, Ho, Ha, Hs].
  destruct (str_accessor (email_sent <$> apps)) as [[]|e] eqn:Hc1;
    [|by rewrite Hp, Ho, Ha, Hs, Hc1].
  destruct (str_accessor (generate_lm <$> apps)) as [[]|e] eqn:Hc2;
    [|by rewrite Hp, Ho, Ha, Hs, Hc1, Hc2].
  case_bool_decide as Htodo.
  { rewrite Hp, Ho, Ha, Hs, Hc1, Hc2. by rewrite bool_decide_true. }
  destruct (@letter_loop E1 false _ _ (todo apps) w) as [[[u|e] wl] el] eqn:Hloop;
    apply (letter_loop_rerun E1 E2) in Hloop as (Hwb & Henv & Hcov & Hrerun).
  - destruct u. destruct (Hrerun (set_disk (delete tmp_html) wl)) as (e2 & He2 & Hk & Hl);
      [apply covers_delete|].
    simpl. rewrite Hwb, Hp. simpl. rewrite Hwb, Ho. simpl. rewrite Hwb, Ha. simpl.
    rewrite Hs. simpl. rewrite Hc1, Hc2. simpl. rewrite bool_decide_false by done.
    rewrite He2. rewrite set_disk_delete_twice.
    split; [done|]. split; [done|]. by rewrite !existsb_app, Hk, Hl.
  - destruct (Hrerun wl) as (e2 & He2 & Hk & Hl); [apply covers_refl|].
    rewrite Hwb, Hp. simpl. rewrite Hwb, Ho. simpl. rewrite Hwb, Ha. simpl.
    rewrite Hs. simpl. rewrite Hc1, Hc2. simpl. rewrite bool_decide_false by done.
    by rewrite He2.
Qed.
End LettersTwice2.

Section Cvs.
Context `{Externals}.
Import cv_generator.

Lemma cv_row_eq force i raw w :
  cv_row force i raw w =
  let profile := _clean raw in
  let summary := [SummaryRequest profile] in
  let asked := if PyStr.truthy (profil_pro profile) then [] else summary in
  let rendered :=
    if PyStr.truthy (profil_pro profile) then profile
    else with_summary (generate_profile_summary i profile) profile in
  let name := cv_name (PyStr.upper (nom profile)) (prenom profile) in
  if bool_decide (is_Some (disk w !! cv_path raw)) && negb force
  then (Ok (), w, asked ++ [Print (CvPresent name)])
  else (Ok (),
        set_disk (insert (cv_path raw) (wkhtmltopdf (render_cv rendered)))
          (set_disk (insert tmp_html (render_cv rendered)) w),
        asked ++ [Pdfkit (cv_path raw); Print (CvDone (cv_path raw))]).
Proof.
  unfold cv_row, cv_path.
  unfold print, emit, modify, lift, gets, mbind, M_bind, mret, M_ret.
  cbv zeta.
  destruct (PyStr.truthy (profil_pro (_clean raw))); simpl;
    destruct (bool_decide _ && negb force); reflexivity.
Qed.

Lemma cv_path_not_tmp raw : cv_path raw ≠ tmp_html.
Proof. done. Qed.
End Cvs.

Section CvsTwice.
Context (E1 E2 : Externals).
Import cv_generator.

Lemma cv_loop_rerun records w r1 w1 e1 :
  @cv_loop E1 false records w = (r1, w1, e1) →
  r1 = Ok () ∧ workbook w1 = workbook w ∧ environ w1 = environ w ∧
  covers tmp_html (disk w) (disk w1) ∧
  ∀ w2, covers tmp_html (disk w1) (disk w2) →
    ∃ e2, @cv_loop E2 false records w2 = (Ok (), w2, e2) ∧
          existsb is_pdfkit e2 = false.
Proof.
  revert w r1 w1 e1. induction records as [|[i raw] rest IH]; intros w r1 w1 e1; simpl.
  { intros [= <- <- <-]. split; [done|]. split; [done|]. split; [done|].
    split; [apply covers_refl|]. intros w2 _. by exists []. }
  unfold mbind, M_bind. rewrite !cv_row_eq. cbv zeta. rewrite andb_true_r.
  case_bool_decide as Hin.
  - destruct (@cv_loop E1 false rest w) as [[rl wl] evl] eqn:Hloop.
    intros [= <- <- <-].
    apply IH in Hloop as (-> & Hwb & Henv & Hcov & Hrerun).
    split; [done|]. split; [done|]. split; [done|]. split; [done|].
    intros w2 Hw2. destruct (Hrerun w2 Hw2) as (e2 & He2 & Hk).
    eexists. rewrite cv_row_eq. cbv zeta.
    rewrite bool_decide_true; last first.
    { apply Hw2; [apply cv_path_not_tmp|]. by apply Hcov; [apply cv_path_not_tmp|]. }
    simpl. rewrite He2. split; [done|].
    rewrite !existsb_app, Hk. by destruct (PyStr.truthy _).
  - set (wm := set_disk _ (set_disk _ w)).
    destruct (@cv_loop E1 false rest wm) as [[rl wl] evl] eqn:Hloop.
    intros [= <- <- <-].
    apply IH in Hloop as (-> & Hwb & Henv & Hcov & Hrerun).
    split; [done|]. split; [done|]. split; [done|].
    assert (covers tmp_html (disk w) (disk wm)) as Hcm.
    { eapply covers_trans; apply covers_insert. }
    split; [by eapply covers_trans|].
    intros w2 Hw2. destruct (Hrerun w2 Hw2) as (e2 & He2 & Hk).
    eexists. rewrite cv_row_eq. cbv zeta.
    rewrite bool_decide_true; last first.
    { apply Hw2; [apply cv_path_not_tmp|]. apply Hcov; [apply cv_path_not_tmp|].
      unfold wm. simpl. rewrite lookup_insert_eq. eauto. }
    simpl. rewrite He2. split; [done|].
    rewrite !existsb_app, Hk. by destruct (PyStr.truthy _).
Qed.

Lemma generate_cvs_twice w :
  let '(r1, w1, e1) := @generate_cvs E1 false w in
  let '(r2, w2, e2) := @generate_cvs E2 false w1 in
  r2 = r1 ∧ w2 = w1 ∧ existsb is_pdfkit e2 = false.
Proof.
  unfold generate_cvs, read_excel, lift, modify.
  unfold mbind, M_bind, mret, M_ret.
  destruct (workbook w !! "profiles") as [sheet|] eqn:Hp; [|by rewrite Hp].
  destruct (as_profiles (fillna_sheet sheet)) as [df|e] eqn:Hs; [|by rewrite Hp, Hs].
  destruct (@cv_loop E1 false (iterrows df) w) as [[r wl] el] eqn:Hloop.
  apply (cv_loop_rerun) in Hloop as (-> & Hwb & Henv & Hcov & Hrerun).
  destruct (Hrerun (set_disk (delete tmp_html) wl)) as (e2 & He2 & Hk);
    [apply covers_delete|].
  simpl. rewrite Hwb, Hp. simpl. rewrite Hs. simpl. rewrite He2.
  rewrite set_disk_delete_twice.
  split; [done|]. split; [done|]. by rewrite !existsb_app, Hk.
Qed.
End CvsTwice.

Section Idempotence.
Context (E1 E2 : Externals).

(** C9: run twice without [force], neither builder changes anything the
    second time: the second run ends as the first did, leaves the world
    (the disk with it) exactly as the first run left it, and converts no
    PDF (nor asks for a letter), whatever the collaborators would have
    answered.  Item by item: a résumé or a letter whose PDF is on disk at
    its path is skipped, with the world unchanged. *)
Theorem generation_idempotent w :
  (let '(r1, w1, e1) := @cv_generator.generate_cvs E1 false w in
   let '(r2, w2, e2) := @cv_generator.generate_cvs E2 false w1 in
   r2 = r1 ∧ w2 = w1 ∧ existsb is_pdfkit e2 = false) ∧
  (let '(r1, w1, e1) := @letter_generator.generate_letters E1 false w in
   let '(r2, w2, e2) := @letter_generator.generate_letters E2 false w1 in
   r2 = r1 ∧ w2 = w1 ∧
   existsb is_pdfkit e2 = false ∧ existsb is_letter_request e2 = false) ∧
  (∀ i raw, is_Some (disk w !! cv_path raw) →
     ∃ evs, @cv_generator.cv_row E1 false i raw w = (Ok (), w, evs) ∧
            existsb is_pdfkit evs = false) ∧
  (∀ profs offers idx row p,
     find_profile (SProfiles profs) row = Ok p →
     is_Some (disk w !! letter_path p row) →
     @letter_generator.letter_row E1 false (SProfiles profs) (SJobOffers offers) idx row w =
       (Ok (), w,
        [Print (LetterPresent
                  (letter_generator.lm_name (PyStr.upper (nom p)) (prenom p)
                     (app_job_id row)))])).
Proof.
  split; [apply generate_cvs_twice|]. split; [apply generate_letters_twice|]. split.
  - intros i raw Hin. rewrite cv_row_eq. cbv zeta.
    rewrite bool_decide_true by done. simpl. eexists. split; [done|].
    rewrite existsb_app. by destruct (PyStr.truthy _).
  - intros profs offers idx row p Hp Hin. rewrite letter_row_eq. simpl.
    rewrite Hp. cbv zeta. by rewrite bool_decide_true.
Qed.
End Idempotence.

Section Selection.
Context `{Externals}.

Lemma elem_of_letter_todo apps i a :
  (i, a) ∈ letter_generator.todo apps ↔ apps !! i = Some a ∧ pending a.
Proof. apply elem_of_todo. Qed.

Lemma pending_fillna a : pending (fillna_application a) ↔ pending a.
Proof.
  unfold pending, flag_set, blank. simpl. split.
  - intros [Hf Hb]. split.
    + destruct (generate_lm a); simpl in Hf; [by destruct Hf|done|by destruct Hf].
    + destruct (email_sent a) as [|s|]; [by left|right|].
      * destruct Hb as [|(s' & [= <-] & Hs)]; [done|]. by exists s.
      * by destruct Hb as [|(s' & ? & _)].
  - intros [Hf Hb]. split.
    + by destruct Hf as [-> | ->]; [left|right].
    + by apply blank_fillna.
Qed.

Lemma letter_loop_events force profiles offers rows w r w' evs :
  letter_generator.letter_loop force profiles offers rows w = (r, w', evs) →
  ∀ i, existsb (drafted i) evs = true → i ∈ rows.*1.
Proof.
  revert w r w' evs. induction rows as [|[idx row] rest IH]; intros w r w' evs; simpl.
  { by intros [= <- <- <-]. }
  unfold mbind, M_bind. rewrite letter_row_eq.
  destruct (as_profiles profiles); [|by intros [= <- <- <-]].
  destruct (find_offer offers row); [|by intros [= <- <- <-]].
  destruct (find_profile profiles row); [|by intros [= <- <- <-]].
  cbv zeta. destruct (bool_decide _ && negb force).
  - destruct (letter_generator.letter_loop force profiles offers rest w)
      as [[rl wl] el] eqn:Hloop.
    intros [= <- <- <-] i Hi. simpl in Hi. right. by eapply IH.
  - destruct (letter_generator.letter_loop force profiles offers rest _)
      as [[rl wl] el] eqn:Hloop.
    intros [= <- <- <-] i Hi. simpl in Hi.
    case_bool_decide; [subst; by left|]. right. by eapply IH.
Qed.

(** A run of [generate_letters], by the way it ends. *)
Lemma generate_letters_cases force w r w' evs :
  letter_generator.generate_letters force w = (r, w', evs) →
  (∃ e, r = Raise e ∧ w' = w ∧ evs = []) ∨
  (∃ profs offers apps,
     workbook w !! "profiles" = Some profs ∧
     workbook w !! "joboffers" = Some offers ∧
     workbook w !! "applications" = Some (SApplications apps) ∧
     let mem := fillna_application <$> apps in
     (letter_generator.todo mem = [] ∧ r = Ok () ∧ w' = w ∧ evs = [Print NoLetter]) ∨
     (letter_generator.todo mem ≠ [] ∧
      ∃ rl wl,
        letter_generator.letter_loop force (fillna_sheet profs) (fillna_sheet offers)
          (letter_generator.todo mem) w = (rl, wl, evs) ∧
        match rl with
        | Raise e => r = Raise e ∧ w' = wl
        | Ok _ => r = Ok () ∧ w' = set_disk (delete letter_generator.tmp_html) wl
        end)).
Proof.
  unfold letter_generator.generate_letters, letter_generator._read,
    read_excel, lift, print, emit, modify.
  unfold mbind, M_bind, mret, M_ret.
  destruct (workbook w !! "profiles") as [profs|] eqn:Hp;
    [|intros [= <- <- <-]; left; eauto].
  destruct (workbook w !! "joboffers") as [offers|] eqn:Ho;
    [|intros [= <- <- <-]; left; eauto].
  destruct (workbook w !! "applications") as [sheet|] eqn:Ha;
    [|intros [= <- <- <-]; left; eauto].
  destruct sheet as [?|?|apps|?|?]; try (intros [= <- <- <-]; left; by eauto).
  cbn [fillna_sheet as_applications].
  destruct (str_accessor (email_sent <$> _)) as [[]|e];
    [|intros [= <- <- <-]; left; eauto].
  destruct (str_accessor (generate_lm <$> _)) as [[]|e];
    [|intros [= <- <- <-]; left; eauto].
  intros Hrun. right. exists profs, offers, apps. do 3 (split; [done|]). cbv zeta.
  revert Hrun. case_bool_decide as Htodo; [intros [= <- <- <-]; by left|].
  destruct (letter_generator.letter_loop force _ _ _ w) as [[[[]|e] wl] el] eqn:Hloop;
    intros [= <- <- <-]; right; (split; [done|]); eexists _, wl;
    rewrite ?app_nil_r; (split; [reflexivity|done]).
Qed.

Lemma str_accessor_numbers column :
  numbers_only column → str_accessor column = Raise AttributeError.
Proof.
  intros [Hne Hnum]. unfold str_accessor. rewrite bool_decide_false by done.
  assert (existsb is_text column = false) as ->; [|done].
  apply not_true_is_false. intros (c & Hin & Hc)%existsb_exists.
  apply list_elem_of_In in Hin. by destruct (Hnum c Hin) as [z ->].
Qed.

Lemma numbers_only_fillna (f : Application → cell) apps :
  (∀ a, f (fillna_application a) = fillna (f a)) →
  numbers_only (f <$> apps) → numbers_only (f <$> (fillna_application <$> apps)).
Proof.
  intros Hf [Hne Hnum]. split; [by destruct apps|].
  intros c (a' & -> & (a & -> & Hin)%list_elem_of_fmap)%list_elem_of_fmap.
  destruct (Hnum (f a)) as [z Hz]; [apply list_elem_of_fmap; by exists a|].
  exists z. by rewrite Hf, Hz.
Qed.

(** C4, as amended: both [generate_letters] and [send_applications]
    select the row at label i exactly when its generate_lm cell is the
    text Y (in either case) and its email_sent cell is blank (missing, or
    a text of whitespace only); a row whose flag is not that text is
    selected by neither, whatever its other cells, so a flag that is true
    in another way selects nothing; every SMTP session of a dispatch run,
    like every letter request of a letter run, is for a row of the
    applications sheet that is pending; and on a sheet whose generate_lm
    or email_sent column holds numbers only both components raise
    AttributeError before they select anything. *)
Theorem selection_predicate :
  (∀ apps i a,
     ((i, a) ∈ email_sender.todo apps ↔ apps !! i = Some a ∧ pending a) ∧
     ((i, a) ∈ letter_generator.todo apps ↔ apps !! i = Some a ∧ pending a)) ∧
  (∀ apps i a,
     ¬ flag_set a →
     ((i, a) ∉ email_sender.todo apps) ∧ ((i, a) ∉ letter_generator.todo apps)) ∧
  (∀ force w r w' evs i,
     email_sender.send_applications force w = (r, w', evs) →
     existsb (attempted i) evs = true →
     ∃ apps a, workbook w !! "applications" = Some (SApplications apps) ∧
               apps !! i = Some a ∧ pending a) ∧
  (∀ force w r w' evs i,
     letter_generator.generate_letters force w = (r, w', evs) →
     existsb (drafted i) evs = true →
     ∃ apps a, workbook w !! "applications" = Some (SApplications apps) ∧
               apps !! i = Some a ∧ pending a) ∧
  (∀ force w profs offers apps,
     workbook w !! "profiles" = Some profs →
     workbook w !! "joboffers" = Some offers →
     workbook w !! "applications" = Some (SApplications apps) →
     numbers_only (generate_lm <$> apps) ∨ numbers_only (email_sent <$> apps) →
     email_sender.send_applications force w = (Raise AttributeError, w, []) ∧
     letter_generator.generate_letters force w = (Raise AttributeError, w, [])).
Proof.
  split; [|split; [|split; [|split]]].
  - intros apps i a. split; [apply elem_of_todo|apply elem_of_letter_todo].
  - intros apps i a Hf. split.
    + intros [_ [? _]]%elem_of_todo. done.
    + intros [_ [? _]]%elem_of_letter_todo. done.
  - intros force w r w' evs i Hrun Hi.
    apply send_applications_inv in Hrun
      as [(e & -> & -> & ->)|(profs & offers & apps & _ & _ & Ha & Hrun)]; [done|].
    simpl in Hrun. destruct Hrun as [(_ & _ & _ & ->)|(_ & rl & loop_evs & Hloop & Hrl)]; [done|].
    apply send_loop_inv in Hloop as (_ & _ & Hatt & _).
    assert (existsb (attempted i) loop_evs = true) as Hl.
    { destruct rl as [[apps' sdf]|e].
      - destruct Hrl as (_ & _ & ->). rewrite existsb_app in Hi.
        apply orb_prop in Hi as [?|Hi]; [done|].
        by rewrite (proj1 (persist_events_no_session i sdf)) in Hi.
      - by destruct Hrl as (_ & _ & ->). }
    apply Hatt, list_elem_of_fmap in Hl as ([j a'] & -> & Hin).
    apply elem_of_todo in Hin as [Hl Hp]. simpl in *.
    rewrite list_lookup_fmap in Hl. destruct (apps !! j) as [a|] eqn:Hj; [|done].
    simplify_eq/=. exists apps, a. split; [done|]. split; [done|].
    by apply pending_fillna.
  - intros force w r w' evs i Hrun Hi.
    apply generate_letters_cases in Hrun
      as [(e & -> & -> & ->)|(profs & offers & apps & _ & _ & Ha & Hrun)]; [done|].
    cbv zeta in Hrun.
    destruct Hrun as [(_ & _ & _ & ->)|(_ & rl & wl & Hloop & _)]; [done|].
    eapply letter_loop_events, list_elem_of_fmap in Hi as ([j a'] & Hj & Hin); [|done].
    simpl in Hj. subst j.
    apply elem_of_letter_todo in Hin as [Hl Hpe].
    rewrite list_lookup_fmap in Hl. destruct (apps !! i) as [a|] eqn:Hai; [|done].
    injection Hl as <-. exists apps, a. split; [done|]. split; [done|].
    by apply pending_fillna.
  - intros force w profs offers apps Hp Ho Ha Hnum.
    assert (str_accessor (email_sent <$> (fillna_application <$> apps))
              = Raise AttributeError ∨
            (str_accessor (email_sent <$> (fillna_application <$> apps)) = Ok () ∧
             str_accessor (generate_lm <$> (fillna_application <$> apps))
               = Raise AttributeError)) as Hraise.
    { destruct Hnum as [Hflag|Hsent].
      - destruct (str_accessor (email_sent <$> _)) as [[]|e] eqn:Hs.
        + right. split; [done|].
          by apply str_accessor_numbers, (numbers_only_fillna generate_lm).
        + left. revert Hs. unfold str_accessor. by destruct (_ || _).
      - left. by apply str_accessor_numbers, (numbers_only_fillna email_sent). }
    split.
    + unfold email_sender.send_applications, email_sender._read, read_excel, lift.
      unfold mbind, M_bind, mret, M_ret. rewrite Hp, Ho, Ha.
      cbn [fillna_sheet as_applications].
      by destruct Hraise as [-> | [-> ->]].
    + unfold letter_generator.generate_letters, letter_generator._read, read_excel, lift.
      unfold mbind, M_bind, mret, M_ret. rewrite Hp, Ho, Ha.
      cbn [fillna_sheet as_applications].
      by destruct Hraise as [-> | [-> ->]].
Qed.

(** C10: an application whose flag is set and whose email_sent cell is
    missing or holds whitespace only (the whitespace [str.strip] removes,
    that of Unicode included) is, once the sheet is read (missing cells
    become the empty text), in the todo set of [generate_letters] and in
    the todo set of [send_applications]. *)
Theorem whitespace_sent_is_pending apps i a :
  apps !! i = Some a →
  flag_set a →
  blank (email_sent a) →
  (i, fillna_application a) ∈ letter_generator.todo (fillna_application <$> apps) ∧
  (i, fillna_application a) ∈ email_sender.todo (fillna_application <$> apps).
Proof.
  intros Hi Hf Hb.
  assert ((fillna_application <$> apps) !! i = Some (fillna_application a)) as Hl
    by (by rewrite list_lookup_fmap, Hi).
  assert (pending (fillna_application a)) as Hp by (by apply pending_fillna).
  split; [by apply elem_of_letter_todo|by apply elem_of_todo].
Qed.
End Selection.

Section Integrity.
Context `{Externals}.
Import config.

Lemma filter_none {A} (P : A → Prop) `{∀ x, Decision (P x)} (l : list A) :
  (∀ x, x ∈ l → ¬ P x) → filter P l = [].
Proof.
  intros Hnone. destruct (filter P l) as [|x l'] eqn:Hf; [done|].
  assert (x ∈ filter P l) as [Hx Hin]%list_elem_of_filter by (rewrite Hf; left).
  by destruct (Hnone x Hin).
Qed.

Lemma find_profile_absent profs row :
  (∀ p, p ∈ profs → profile_id p ≠ app_profile_id row) →
  find_profile (SProfiles profs) row = Raise AttributeError.
Proof.
  intros Habs. unfold find_profile. simpl.
  rewrite filter_none; [done|].
  intros p Hp Hid. apply bool_decide_unpack in Hid. by eapply Habs.
Qed.

Lemma find_offer_absent offs row :
  (∀ o, o ∈ offs → job_id o ≠ app_job_id row) →
  find_offer (SJobOffers offs) row = Ok (Frame []).
Proof.
  intros Habs. unfold find_offer. simpl.
  rewrite filter_none; [done|].
  intros o Ho Hid. apply bool_decide_unpack in Hid. by eapply Habs.
Qed.

Lemma dispatch_row_ready force profs offers idx row t w p offer cv cvb lmb sender sdf host :
  find_profile profs row = Ok p →
  find_offer offers row = Ok offer →
  glob (disk w) CV_DIR (email_sender.cv_pattern (PyStr.upper (nom p)) (prenom p)) = Some cv →
  disk w !! cv = Some cvb →
  disk w !! letter_path p row = Some lmb →
  email_sender.pick_sender w = (Ok (sender, sdf), w, []) →
  email_sender.resolve_host sender = Ok host →
  let msg :=
    {| msg_from := dict_email sender;
       msg_to := getfield recruiter_email offer;
       msg_subject := "Candidature – " +:+ prenom p +:+ " " +:+ nom p;
       msg_html := email_sender.body_html (getfield intitule offer) (prenom p) (nom p);
       msg_attachments := [(cv, cvb); (letter_path p row, lmb)] |} in
  let accepted := smtp_accepts idx host sender msg in
  email_sender.dispatch_row force profs offers idx row t w =
    (Ok (if accepted
         then email_sender.Continue
                (alter (email_sender.mark_sent (strftime (now idx))) idx t.1, sdf)
         else if force then email_sender.Continue (t.1, sdf)
              else email_sender.Break (t.1, sdf)),
     w,
     [SmtpSession idx host sender msg accepted;
      Print (if accepted
             then Sent (prenom p) (nom p) (getfield recruiter_email offer) host
             else SendFailed)]).
Proof.
  intros Hp Ho Hcv Hcvb Hlm Hpick Hhost. unfold find_profile, find_offer in *.
  unfold email_sender.dispatch_row, email_sender.build_msg, try_except,
    email_sender.send_email, print, emit, raise, lift, gets.
  unfold mbind, M_bind, mret, M_ret.
  destruct (as_profiles profs) as [profiles|]; [|done].
  destruct (as_joboffers offers) as [joboffers|]; [|done].
  rewrite Hp. cbv zeta. simplify_eq. rewrite Hcv.
  unfold letter_path in Hlm.
  change (letter_generator.lm_name ?a ?b ?c) with (email_sender.lm_name a b c) in Hlm.
  rewrite Hlm, Hpick, Hhost. simpl.
  unfold gets, mbind, M_bind, mret, M_ret. rewrite Hcvb, Hlm. simpl.
  by destruct (smtp_accepts _ _ _ _).
Qed.

(** C3, as amended: neither component checks that the identities of a
    selected application exist.  When no profile has the identity the row
    names, the loop turn raises AttributeError before anything is printed,
    written or sent, and the exception ends [generate_letters] and
    [send_applications] there: the remaining rows are not processed.  When
    no job offer has the identity, the row is processed like any other:
    the letter is drafted from an empty description and written, and the
    dispatcher, given the PDFs and a sender, opens its SMTP session with an
    empty recipient column. *)
Theorem missing_identity_not_checked :
  (∀ force profs offers idx row rest w,
     (∀ p, p ∈ profs → profile_id p ≠ app_profile_id row) →
     letter_generator.letter_loop force (SProfiles profs) offers ((idx, row) :: rest) w =
       (Raise AttributeError, w, [])) ∧
  (∀ force profs offers idx row rest t w,
     (∀ p, p ∈ profs → profile_id p ≠ app_profile_id row) →
     email_sender.send_loop force (SProfiles profs) offers ((idx, row) :: rest) t w =
       (Raise AttributeError, w, [])) ∧
  (∀ force profs offs idx row w p,
     find_profile (SProfiles profs) row = Ok p →
     (∀ o, o ∈ offs → job_id o ≠ app_job_id row) →
     force = true ∨ disk w !! letter_path p row = None →
     let html :=
       render_lm p (generate_letter_text idx p (Column [])) (Frame []) today in
     letter_generator.letter_row force (SProfiles profs) (SJobOffers offs) idx row w =
       (Ok (),
        set_disk (insert (letter_path p row) (wkhtmltopdf html))
          (set_disk (insert letter_generator.tmp_html html) w),
        [LetterRequest idx p (Column []);
         Pdfkit (letter_path p row);
         Print (LetterDone (letter_path p row))])) ∧
  (∀ force profs offs idx row t w p cv cvb lmb sender sdf host,
     find_profile (SProfiles profs) row = Ok p →
     (∀ o, o ∈ offs → job_id o ≠ app_job_id row) →
     glob (disk w) CV_DIR (email_sender.cv_pattern (PyStr.upper (nom p)) (prenom p)) = Some cv →
     disk w !! cv = Some cvb →
     disk w !! letter_path p row = Some lmb →
     email_sender.pick_sender w = (Ok (sender, sdf), w, []) →
     email_sender.resolve_host sender = Ok host →
     ∃ c msg accepted line,
       email_sender.dispatch_row force (SProfiles profs) (SJobOffers offs) idx row t w =
         (Ok c, w, [SmtpSession idx host sender msg accepted; Print line]) ∧
       msg_to msg = Column []).
Proof.
  split; [|split; [|split]].
  - intros force profs offers idx row rest w Habs. simpl.
    unfold mbind, M_bind. rewrite letter_row_eq. simpl.
    rewrite find_profile_absent by done.
    unfold find_offer. by destruct offers.
  - intros force profs offers idx row rest t w Habs. simpl.
    unfold mbind, M_bind. unfold email_sender.dispatch_row.
    unfold lift, mbind, M_bind. simpl.
    pose proof (find_profile_absent _ _ Habs) as Hf. unfold find_profile in Hf. simpl in Hf.
    destruct offers; simpl; try done; by rewrite Hf.
  - intros force profs offs idx row w p Hp Habs Hgen html.
    rewrite letter_row_eq, find_offer_absent, Hp by done. cbn [as_profiles]. cbv zeta.
    fold html. simpl getfield.
    destruct Hgen as [->|Hnone].
    + by rewrite andb_false_r.
    + rewrite bool_decide_false; [done|]. rewrite Hnone. by intros [? ?].
  - intros force profs offs idx row t w p cv cvb lmb sender sdf host Hp Habs Hcv Hcvb Hlm Hpick Hhost.
    pose proof (dispatch_row_ready force (SProfiles profs) (SJobOffers offs) idx row t w
      p (Frame []) cv cvb lmb sender sdf host Hp (find_offer_absent _ _ Habs)
      Hcv Hcvb Hlm Hpick Hhost) as Hrun.
    cbv zeta in Hrun. eexists _, _, _, _. split; [exact Hrun|]. done.
Qed.
End Integrity.

(** ** Further properties of the sender selection and the dispatcher *)

Section Extras.
Context `{Externals}.
Import config email_sender.

(** X1: a successful multi-account [pick_sender] returns an account that
    qualifies (counter strictly below limit) and whose counter is the
    smallest among the qualifying accounts. *)
Theorem pick_sender_smallest w sender df w' evs :
  sort_values_sorts →
  pick_sender w = (Ok (sender, Some df), w', evs) →
  ∃ rows name chosen,
    workbook w !! "senders" = Some (SSenders rows) ∧
    (name, chosen) ∈ avail rows ∧
    sender = to_dict chosen ∧
    under_quota chosen = true ∧
    ∀ j s, (j, s) ∈ avail rows →
           (int_value (sent_today chosen) ≤ int_value (sent_today s))%Z.
Proof.
  intros Hsort. rewrite pick_sender_eq.
  destruct (workbook w !! "senders") as [[?|?|?|rows|?]|] eqn:Hs; try done.
  case_bool_decide as Hav; [done|].
  destruct (sorted_head_in _ Hsort Hav) as ([name chosen] & rest & -> & Hin & Hmin).
  intros [= <- <- <- <-]. exists rows, name, chosen.
  split; [done|]. split; [done|]. split; [done|]. split.
  - unfold avail in Hin. apply list_elem_of_filter in Hin as [Hq _]. simpl in Hq.
    by destruct (under_quota chosen).
  - intros j s Hjs. apply (Hmin (j, s) Hjs).
Qed.

Lemma StronglySorted_filter {A} (R : relation A) (P : A → Prop)
    `{∀ x, Decision (P x)} (l : list A) :
  StronglySorted R l → StronglySorted R (filter P l).
Proof.
  induction 1 as [|x l Hl IH Hall]; [constructor|].
  rewrite filter_cons. case_decide; [|done].
  constructor; [done|].
  rewrite Forall_forall in Hall. apply Forall_forall.
  intros y [_ Hy]%list_elem_of_filter. by apply Hall.
Qed.

Lemma imap_pair_ascending {A} (l : list A) k :
  StronglySorted (λ a b : nat * A, a.1 < b.1) (imap (λ i x, (k + i, x)) l).
Proof.
  revert k. induction l as [|x l IH]; intros k; [constructor|].
  rewrite imap_cons.
  rewrite (imap_ext _ (λ i y, (S k + i, y))) by (intros; simpl; f_equal; lia).
  constructor; [apply IH|].
  apply Forall_forall. intros [j y] (i & z & [= -> ->] & _)%elem_of_lookup_imap.
  simpl. lia.
Qed.

Lemma iterrows_ascending {A} (l : list A) :
  StronglySorted (λ a b : nat * A, a.1 < b.1) (iterrows l).
Proof. apply (imap_pair_ascending l 0). Qed.

(** X3: when the résumé PDF is not found, or the letter PDF does not
    exist, the dispatcher prints the missing-PDF line and goes on to the
    next row: no sender is picked, nothing is sent and the tables are left
    as they were (so the row stays unmarked). *)
Theorem missing_pdf_skips force profs offers idx row t w p offer :
  find_profile profs row = Ok p →
  find_offer offers row = Ok offer →
  glob (disk w) CV_DIR (cv_pattern (PyStr.upper (nom p)) (prenom p)) = None ∨
  disk w !! letter_path p row = None →
  dispatch_row force profs offers idx row t w =
    (Ok (Continue t), w, [Print (PdfMissing (app_profile_id row) (app_job_id row))]).
Proof.
  intros Hp Ho Hmiss. unfold find_profile, find_offer in *.
  unfold dispatch_row, print, emit, lift, gets, mbind, M_bind, mret, M_ret.
  destruct (as_profiles profs) as [profiles|]; [|done].
  destruct (as_joboffers offers) as [joboffers|]; [|done].
  rewrite Hp. cbv zeta.
  unfold letter_path in Hmiss.
  change (letter_generator.lm_name ?a ?b ?c) with (lm_name a b c) in Hmiss.
  destruct Hmiss as [-> | Hlm]; [done|].
  rewrite Hlm. by destruct (glob _ _ _).
Qed.

Lemma smtp_host_known address :
  smtp_host address = "smtp.gmail.com" ∨ smtp_host address = "smtp-mail.outlook.com".
Proof.
  unfold smtp_host. destruct (PyStr.endswith _ "@gmail.com"); [by left|].
  destruct (_ || _); [by right|by left].
Qed.

(** X4: without a senders sheet [pick_sender] falls back on the account
    of the environment and hands back no table; the host of that account
    always resolves, to SMTP_HOST when it is set and not empty, otherwise to
    the host inferred from SMTP_EMAIL (the Gmail host when the address is
    unset or its domain unknown). *)
Theorem single_account_fallback w :
  workbook w !! "senders" = None →
  pick_sender w = (Ok (env_sender (environ w), None), w, []) ∧
  ∃ host,
    resolve_host (env_sender (environ w)) = Ok host ∧
    PyStr.truthy host = true ∧
    (SMTP_HOST (environ w) = None →
     host = smtp_host (default "" (SMTP_EMAIL (environ w)))).
Proof.
  intros Hs. split; [by rewrite pick_sender_eq, Hs|].
  unfold resolve_host, env_sender, or_else. simpl.
  assert (∀ a, PyStr.truthy (smtp_host a) = true) as Hknown.
  { intros a. by destruct (smtp_host_known a) as [-> | ->]. }
  destruct (SMTP_HOST (environ w)) as [h|]; simpl.
  - destruct (PyStr.truthy h) eqn:Hh.
    + rewrite Hh. exists h. by repeat split.
    + rewrite Hknown. eexists. by repeat split.
  - rewrite Hknown. eexists. by repeat split.
Qed.
Lemma letter_loop_frame force profiles offers rows w r w' evs :
  letter_generator.letter_loop force profiles offers rows w = (r, w', evs) →
  workbook w' = workbook w ∧ environ w' = environ w.
Proof.
  revert w r w' evs. induction rows as [|[idx row] rest IH]; intros w r w' evs; simpl.
  { by intros [= <- <- <-]. }
  unfold mbind, M_bind. rewrite letter_row_eq.
  destruct (as_profiles profiles); [|by intros [= <- <- <-]].
  destruct (find_offer offers row); [|by intros [= <- <- <-]].
  destruct (find_profile profiles row); [|by intros [= <- <- <-]].
  cbv zeta. destruct (bool_decide _ && negb force).
  - destruct (letter_generator.letter_loop force profiles offers rest w)
      as [[rl wl] el] eqn:Hloop.
    intros [= <- <- <-]. by eapply IH.
  - destruct (letter_generator.letter_loop force profiles offers rest _)
      as [[rl wl] el] eqn:Hloop.
    intros [= <- <- <-]. by apply IH in Hloop.
Qed.

Lemma cv_loop_frame force records w r w' evs :
  cv_generator.cv_loop force records w = (r, w', evs) →
  workbook w' = workbook w ∧ environ w' = environ w.
Proof.
  revert w r w' evs. induction records as [|[i raw] rest IH]; intros w r w' evs; simpl.
  { by intros [= <- <- <-]. }
  unfold mbind, M_bind. rewrite cv_row_eq. cbv zeta.
  destruct (bool_decide _ && negb force).
  - destruct (cv_generator.cv_loop force rest w) as [[rl wl] el] eqn:Hloop.
    intros [= <- <- <-]. by eapply IH.
  - destruct (cv_generator.cv_loop force rest _) as [[rl wl] el] eqn:Hloop.
    intros [= <- <- <-]. by apply IH in Hloop.
Qed.

(** X5: neither builder touches the workbook, with or without [force]:
    whatever either of them does, the tables read afterwards are the
    tables read before. *)
Theorem builders_leave_workbook force w :
  workbook (cv_generator.generate_cvs force w).1.2 = workbook w ∧
  workbook (letter_generator.generate_letters force w).1.2 = workbook w.
Proof.
  split.
  - unfold cv_generator.generate_cvs, read_excel, lift, modify.
    unfold mbind, M_bind, mret, M_ret.
    destruct (workbook w !! "profiles") as [sheet|]; [|done].
    destruct (as_profiles (fillna_sheet sheet)) as [df|e]; [|done].
    destruct (cv_generator.cv_loop force (iterrows df) w) as [[[u|e] wl] el] eqn:Hloop;
      apply cv_loop_frame in Hloop as [Hwb _]; done.
  - destruct (letter_generator.generate_letters force w) as [[r w'] evs] eqn:Hrun.
    apply generate_letters_cases in Hrun
      as [(e & _ & -> & _)|(profs & offers & apps & _ & _ & _ & Hrun)]; [done|].
    cbv zeta in Hrun.
    destruct Hrun as [(_ & _ & -> & _)|(_ & rl & wl & Hloop & Hend)]; [done|].
    apply letter_loop_frame in Hloop as [Hwb _].
    destruct rl; destruct Hend as [_ ->]; done.
Qed.
End Extras.

(** ** Strings: suffixes, lengths and case *)

Import config.

Lemma string_app_length s t : String.length (s +:+ t) = String.length s + String.length t.
Proof. induction s as [|c s IH]; simpl; [done|by rewrite IH]. Qed.

Lemma string_eqb_length s t : String.length s ≠ String.length t → String.eqb s t = false.
Proof.
  intros Hlen. destruct (String.eqb s t) eqn:Heq; [|done].
  apply String.eqb_eq in Heq. by subst.
Qed.

Lemma endswith_refl s : PyStr.endswith s s = true.
Proof. destruct s; simpl; [done|]. by rewrite Ascii.eqb_refl, String.eqb_refl. Qed.

(** The suffix test only looks at the tail of the text. *)
Lemma endswith_app u t x :
  String.length x ≤ String.length t →
  PyStr.endswith (u +:+ t) x = PyStr.endswith t x.
Proof.
  intros Hlen. induction u as [|c u IH]; [done|].
  change (String c u +:+ t) with (String c (u +:+ t)).
  cbn [PyStr.endswith]. rewrite IH.
  rewrite string_eqb_length; [done|]. simpl. rewrite string_app_length. lia.
Qed.

Lemma endswith_inv s x : PyStr.endswith s x = true → ∃ p, s = p +:+ x.
Proof.
  induction s as [|c s IH]; cbn [PyStr.endswith]; intros Hs.
  - rewrite orb_false_r in Hs. apply String.eqb_eq in Hs as <-. by exists "".
  - apply orb_true_iff in Hs as [Hs|Hs].
    + apply String.eqb_eq in Hs as <-. by exists "".
    + destruct (IH Hs) as [p ->]. by exists (String c p).
Qed.

Lemma string_app_inj_tail s1 s2 t1 t2 :
  s1 +:+ t1 = s2 +:+ t2 → String.length t1 = String.length t2 → t1 = t2.
Proof.
  revert s2. induction s1 as [|c s1 IH]; intros [|c2 s2] Heq Hlen; simpl in Heq.
  - done.
  - apply (f_equal String.length) in Heq. rewrite !string_app_length in Heq. simpl in Heq. lia.
  - apply (f_equal String.length) in Heq. rewrite !string_app_length in Heq. simpl in Heq. lia.
  - injection Heq as _ Heq. by apply (IH s2).
Qed.

(** A text whose tail differs from the tail of the suffix does not end
    with it. *)
Lemma endswith_app_ne u t x1 x2 :
  String.length x2 = String.length t → x2 ≠ t →
  PyStr.endswith (u +:+ t) (x1 +:+ x2) = false.
Proof.
  intros Hlen Hne. destruct (PyStr.endswith _ _) eqn:He; [|done].
  apply endswith_inv in He as [p Hp].
  assert (p +:+ x1 +:+ x2 = (p +:+ x1) +:+ x2) as Hassoc.
  { clear. induction p as [|c p IH]; [done|].
    change (String c (p +:+ x1 +:+ x2) = String c ((p +:+ x1) +:+ x2)). by rewrite IH. }
  rewrite Hassoc in Hp. by apply string_app_inj_tail in Hp.
Qed.

(** ** The SMTP host of an address *)

(** X6: the SMTP host is chosen by the end of the address, lower-cased
    as [str.lower] does: an address whose part from the at sign on
    lower-cases to @gmail.com gets the Gmail host, one whose part from the
    at sign on lower-cases to @outlook.com, @hotmail.com or @live.com gets
    the Outlook host, and no address gets a third host. *)
Theorem smtp_host_by_domain :
  (∀ user d, PyStr.lower ("@" +:+ d) = "@gmail.com" →
     email_sender.smtp_host (user +:+ "@" +:+ d) = "smtp.gmail.com") ∧
  (∀ user d,
     PyStr.lower ("@" +:+ d) ∈ ["@outlook.com"; "@hotmail.com"; "@live.com"] →
     email_sender.smtp_host (user +:+ "@" +:+ d) = "smtp-mail.outlook.com") ∧
  (∀ a, email_sender.smtp_host a = "smtp.gmail.com" ∨
        email_sender.smtp_host a = "smtp-mail.outlook.com").
Proof.
  assert (∀ user d, PyStr.lower (user +:+ "@" +:+ d) =
                    PyStr.lower user +:+ PyStr.lower ("@" +:+ d)) as Hlow.
  { intros user d. by apply lower_app. }
  split; [|split].
  - intros user d Hd. unfold email_sender.smtp_host.
    rewrite Hlow, Hd. cbv zeta.
    rewrite (endswith_app _ "@gmail.com" "@gmail.com") by (simpl; lia).
    by rewrite endswith_refl.
  - intros user d Hd. unfold email_sender.smtp_host. rewrite Hlow. cbv zeta.
    rewrite !elem_of_cons, elem_of_nil in Hd.
    destruct Hd as [-> | [-> | [-> | []]]].
    + rewrite !(endswith_app _ "@outlook.com") by (simpl; lia).
      vm_compute. reflexivity.
    + rewrite !(endswith_app _ "@hotmail.com") by (simpl; lia).
      vm_compute. reflexivity.
    + rewrite (endswith_app_ne _ "@live.com" "@" "gmail.com") by done.
      rewrite (endswith_app _ "@live.com" "@live.com") by (simpl; lia).
      rewrite endswith_refl. by rewrite !orb_true_r.
  - intros a. unfold email_sender.smtp_host. cbv zeta.
    destruct (PyStr.endswith _ "@gmail.com"); [by left|].
    destruct (_ || _); [by right|by left].
Qed.

(** ** Cleaning a profile, and the name of its CV *)

Lemma clean_text_idemp s :
  cv_generator.clean_text (cv_generator.clean_text s) = cv_generator.clean_text s.
Proof.
  unfold cv_generator.clean_text. destruct (cv_generator.blank_like s) eqn:Hs; [done|].
  by rewrite Hs.
Qed.

Lemma clean_text_length s :
  String.length (cv_generator.clean_text s) ≤ String.length s ∧
  (String.length (cv_generator.clean_text s) = String.length s →
   cv_generator.clean_text s = s).
Proof.
  unfold cv_generator.clean_text. destruct (cv_generator.blank_like s); simpl.
  - split; [lia|]. by destruct s.
  - split; [lia|done].
Qed.

Lemma string_app_inj_head s t1 t2 : s +:+ t1 = s +:+ t2 → t1 = t2.
Proof.
  induction s as [|c s IH]; [done|].
  change (String c (s +:+ t1) = String c (s +:+ t2) → t1 = t2).
  intros [= Heq]. by apply IH.
Qed.

(** X7: the file [generate_cvs] writes for a profile bears the name
    [send_applications] looks for exactly when [_clean] leaves the family
    name and the first name of the profile as they are, that is when
    neither is a non-empty blank-like text (nan, none, or whitespace
    only). *)
Theorem cv_name_agreement raw :
  cv_path raw =
    joinpath CV_DIR (email_sender.cv_pattern (PyStr.upper (nom raw)) (prenom raw))
  ↔ cv_generator.clean_text (nom raw) = nom raw ∧
    cv_generator.clean_text (prenom raw) = prenom raw.
Proof.
  unfold cv_path, joinpath, cv_generator.cv_name, email_sender.cv_pattern.
  cbn [nom prenom cv_generator._clean].
  split.
  - intros Heq. do 3 apply string_app_inj_head in Heq.
    apply (f_equal String.length) in Heq. rewrite !string_app_length in Heq.
    assert (∀ s, String.length s = 0 → s = "") as Hzero by (by intros []).
    unfold cv_generator.clean_text in *.
    destruct (cv_generator.blank_like (nom raw)), (cv_generator.blank_like (prenom raw));
      try change (PyStr.upper "") with "" in Heq; simpl in Heq.
    + split; symmetry; [apply upper_empty|]; apply Hzero; lia.
    + split; [|done]. symmetry. apply upper_empty, Hzero. lia.
    + split; [done|]. symmetry. apply Hzero. lia.
    + done.
  - by intros [-> ->].
Qed.

(** X8: cleaning a cleaned record changes nothing; a value is kept or
    becomes the empty text, and no value of a cleaned record is blank-like
    unless it is empty. *)
Theorem clean_idempotent d :
  cv_generator._clean (cv_generator._clean d) = cv_generator._clean d ∧
  (∀ s, cv_generator.clean_text s = s ∨ cv_generator.clean_text s = "") ∧
  (∀ s, cv_generator.blank_like (cv_generator.clean_text s) = true →
        cv_generator.clean_text s = "").
Proof.
  split; [|split].
  - unfold cv_generator._clean. cbn [profile_id nom prenom profil_pro contact].
    rewrite !clean_text_idemp. f_equal.
    rewrite <- list_fmap_compose. apply list_fmap_ext. intros i [k v] _. simpl.
    by rewrite clean_text_idemp.
  - intros s. unfold cv_generator.clean_text.
    destruct (cv_generator.blank_like s); [by right|by left].
  - intros s. unfold cv_generator.clean_text.
    destruct (cv_generator.blank_like s) eqn:Hs; [done|]. by rewrite Hs.
Qed.

(** ** What the builders leave on disk *)

Lemma conversions_app e1 e2 : conversions (e1 ++ e2) = conversions e1 ++ conversions e2.
Proof. apply omap_app. Qed.

Section Builders.
Context `{Externals}.

Lemma cv_loop_post force records w :
  ∃ w' evs, cv_generator.cv_loop force records w = (Ok (), w', evs) ∧
    workbook w' = workbook w ∧ environ w' = environ w ∧
    (∀ p, is_Some (disk w !! p) → is_Some (disk w' !! p)) ∧
    (∀ i raw, (i, raw) ∈ records → is_Some (disk w' !! cv_path raw)) ∧
    (force = false → keeps cv_generator.tmp_html (disk w) (disk w')) ∧
    (force = true → conversions evs = (cv_path ∘ snd) <$> records).
Proof.
  revert w. induction records as [|[i raw] rest IH]; intros w.
  { exists w, []. split; [done|]. split; [done|]. split; [done|]. split; [done|].
    split; [|split; [by intros _ p c|done]].
    intros i raw Hin. by apply elem_of_nil in Hin. }
  cbn [cv_generator.cv_loop]. unfold mbind, M_bind. rewrite cv_row_eq. cbv zeta.
  destruct (bool_decide _ && negb force) eqn:Hskip.
  - destruct (IH w) as (w' & evs & -> & Hwb & Henv & Hmono & Hall & Hkeep & Hconv).
    apply andb_true_iff in Hskip as [Hthere Hforce].
    apply bool_decide_eq_true in Hthere. apply negb_true_iff in Hforce. subst force.
    eexists _, _. split; [done|]. split; [done|]. split; [done|]. split; [done|].
    split; [|split; [done|done]].
    intros j raw' [[= -> ->]|Hin]%elem_of_cons; [by apply Hmono|by eapply Hall].
  - match goal with |- context [cv_generator.cv_loop force rest ?w1] =>
      destruct (IH w1) as (w' & evs & -> & Hwb & Henv & Hmono & Hall & Hkeep & Hconv) end.
    simpl in Hwb, Henv, Hmono.
    eexists _, _. split; [done|]. split; [done|]. split; [done|].
    assert (∀ p, is_Some (disk w !! p) → is_Some (disk w' !! p)) as Hmono'.
    { intros p Hp. apply Hmono.
      destruct (decide (p = cv_path raw)) as [->|]; [by rewrite lookup_insert_eq|].
      rewrite lookup_insert_ne by done.
      destruct (decide (p = cv_generator.tmp_html)) as [->|]; [by rewrite lookup_insert_eq|].
      by rewrite lookup_insert_ne. }
    split; [done|]. split; [|split].
    + intros j raw' [[= -> ->]|Hin]%elem_of_cons; [|by eapply Hall].
      apply Hmono. by rewrite lookup_insert_eq.
    + intros ->. simpl in Hskip. rewrite andb_true_r in Hskip.
      apply bool_decide_eq_false in Hskip.
      intros p c Hp Hc. apply Hkeep; [done..|]. simpl.
      rewrite !lookup_insert_ne; [done|congruence|].
      intros <-. apply Hskip. by rewrite Hc.
    + intros ->. rewrite !conversions_app, Hconv by done.
      cbn [fmap list_fmap]. by destruct (PyStr.truthy _).
Qed.


Lemma iterrows_values {A} (l : list A) : (iterrows l).*2 = l.
Proof.
  unfold iterrows. generalize 0 as k.
  enough (∀ (f : nat → nat), (imap (λ i x, (f i, x)) l).*2 = l) as Hgen.
  { intros k. apply (Hgen (λ i, i)). }
  induction l as [|x l IH]; intros f; [done|].
  cbn [imap fmap list_fmap]. simpl. f_equal. apply (IH (f ∘ S)).
Qed.

(** X10: when [generate_cvs] returns normally, with or without [force],
    the workbook has a profiles table, the PDF of every profile of that
    table is on disk at its path and the temporary HTML file is gone.
    With [force], one conversion was made per profile, in the order of the
    sheet. *)
Theorem generate_cvs_writes_every_cv force w w' evs :
  cv_generator.generate_cvs force w = (Ok (), w', evs) →
  ∃ rows,
    workbook w !! "profiles" = Some (SProfiles rows) ∧
    (∀ raw, raw ∈ rows → is_Some (disk w' !! cv_path raw)) ∧
    disk w' !! cv_generator.tmp_html = None ∧
    (force = true → conversions evs = cv_path <$> rows).
Proof.
  unfold cv_generator.generate_cvs, read_excel, lift, modify, mbind, M_bind.
  destruct (workbook w !! "profiles") as [sheet|] eqn:Hsheet; [|done].
  destruct sheet as [rows| | | |]; try done.
  cbn [fillna_sheet as_profiles].
  destruct (cv_loop_post force (iterrows rows) w)
    as (w1 & evs1 & -> & _ & _ & _ & Hall & _ & Hconv).
  intros [= <- <-]. exists rows. split; [done|]. split; [|split].
  - intros raw [i Hi]%list_elem_of_lookup. simpl.
    rewrite lookup_delete_ne by (symmetry; apply cv_path_not_tmp).
    apply (Hall i), elem_of_iterrows, Hi.
  - simpl. apply lookup_delete_eq.
  - intros Hf. rewrite !conversions_app, Hconv by done. simpl. rewrite app_nil_r.
    by rewrite list_fmap_compose, iterrows_values.
Qed.

Lemma letter_loop_post force profiles offers rows w r w' evs :
  letter_generator.letter_loop force profiles offers rows w = (r, w', evs) →
  workbook w' = workbook w ∧ environ w' = environ w ∧
  (∀ p, is_Some (disk w !! p) → is_Some (disk w' !! p)) ∧
  (force = false → keeps letter_generator.tmp_html (disk w) (disk w')) ∧
  (r = Ok () →
   ∀ i row, (i, row) ∈ rows →
     ∃ p, find_profile profiles row = Ok p ∧ is_Some (disk w' !! letter_path p row)) ∧
  ((∃ offs, offers = SJobOffers offs) →
   (∀ i row, (i, row) ∈ rows → ∃ p, find_profile profiles row = Ok p) →
   r = Ok ()).
Proof.
  revert w r w' evs. induction rows as [|[idx row] rest IH]; intros w r w' evs.
  { intros [= <- <- <-]. split; [done|]. split; [done|]. split; [done|].
    split; [by intros _ p c|]. split; [|done].
    intros _ i row' Hin. by apply elem_of_nil in Hin. }
  cbn [letter_generator.letter_loop]. unfold mbind, M_bind. rewrite letter_row_eq.
  assert (∀ e, (r, w', evs) = (Raise e, w, []) →
          workbook w' = workbook w ∧ environ w' = environ w ∧
          (∀ p, is_Some (disk w !! p) → is_Some (disk w' !! p)) ∧
          (force = false → keeps letter_generator.tmp_html (disk w) (disk w')) ∧
          (r = Ok () → ∀ i row0, (i, row0) ∈ (idx, row) :: rest →
             ∃ p, find_profile profiles row0 = Ok p ∧
                  is_Some (disk w' !! letter_path p row0))) as Hraise.
  { intros e [= -> -> ->]. split; [done|]. split; [done|]. split; [done|].
    split; [by intros _ p c|done]. }
  destruct (as_profiles profiles) as [profs|e] eqn:Hprofs.
  2:{ intros Heq. symmetry in Heq. destruct (Hraise _ Heq) as (?&?&?&?&?).
      do 5 (split; [done|]). intros _ Hfound.
      destruct (Hfound idx row) as [p Hp]; [by left|].
      unfold find_profile in Hp. by rewrite Hprofs in Hp. }
  destruct (find_offer offers row) as [offer|e] eqn:Hoffer.
  2:{ intros Heq. symmetry in Heq. destruct (Hraise _ Heq) as (?&?&?&?&?).
      do 5 (split; [done|]). intros [offs ->] _. done. }
  destruct (find_profile profiles row) as [p|e] eqn:Hp.
  2:{ intros Heq. symmetry in Heq. destruct (Hraise _ Heq) as (?&?&?&?&?).
      do 5 (split; [done|]). intros _ Hfound.
      destruct (Hfound idx row) as [p Hp']; [by left|]. congruence. }
  clear Hraise. cbv zeta.
  destruct (bool_decide _ && negb force) eqn:Hskip.
  - destruct (letter_generator.letter_loop force profiles offers rest w)
      as [[rl wl] el] eqn:Hloop.
    apply IH in Hloop as (Hwb & Henv & Hmono & Hkeep & Hall & Htotal).
    intros [= <- <- <-].
    apply andb_true_iff in Hskip as [Hthere _]. apply bool_decide_eq_true in Hthere.
    do 4 (split; [done|]). split.
    + intros Hok i row' [[= -> ->]|Hin]%elem_of_cons; [|by eapply Hall].
      exists p. split; [done|]. by apply Hmono.
    + intros Hoffs Hfound. apply Htotal; [done|]. intros i row' Hin.
      apply (Hfound i). by right.
  - destruct (letter_generator.letter_loop force profiles offers rest _)
      as [[rl wl] el] eqn:Hloop.
    apply IH in Hloop as (Hwb & Henv & Hmono & Hkeep & Hall & Htotal).
    simpl in Hwb, Henv, Hmono.
    intros [= <- <- <-].
    assert (∀ q, is_Some (disk w !! q) → is_Some (disk wl !! q)) as Hmono'.
    { intros q Hq. apply Hmono.
      destruct (decide (q = letter_path p row)) as [->|]; [by rewrite lookup_insert_eq|].
      rewrite lookup_insert_ne by done.
      destruct (decide (q = letter_generator.tmp_html)) as [->|];
        [by rewrite lookup_insert_eq|].
      by rewrite lookup_insert_ne. }
    do 3 (split; [done|]). split; [|split].
    + intros ->. simpl in Hskip. rewrite andb_true_r in Hskip.
      apply bool_decide_eq_false in Hskip.
      intros q c Hq Hc. apply Hkeep; [done..|]. simpl.
      rewrite !lookup_insert_ne; [done|congruence|].
      intros <-. apply Hskip. by rewrite Hc.
    + intros Hok i row' [[= -> ->]|Hin]%elem_of_cons; [|by eapply Hall].
      exists p. split; [done|]. apply Hmono. by rewrite lookup_insert_eq.
    + intros Hoffs Hfound. apply Htotal; [done|]. intros i row' Hin.
      apply (Hfound i). by right.
Qed.


(** X11: when [generate_letters] returns normally, with or without
    [force], the workbook has its profiles and applications tables, and
    every pending application of the table names exactly one profile and
    has its letter on disk at its path. *)
Theorem generate_letters_writes_every_letter force w w' evs :
  letter_generator.generate_letters force w = (Ok (), w', evs) →
  ∃ profs apps,
    workbook w !! "profiles" = Some profs ∧
    workbook w !! "applications" = Some (SApplications apps) ∧
    ∀ a, a ∈ apps → pending a →
      ∃ p, find_profile profs a = Ok p ∧
           is_Some (disk w' !! letter_path p a).
Proof.
  intros Hrun.
  apply generate_letters_cases in Hrun
    as [(e & [=] & _)|(profs & offers & apps & Hprofs & _ & Happs & Hrun)].
  exists profs, apps. split; [done|]. split; [done|]. cbv zeta in Hrun.
  assert (∀ a i, apps !! i = Some a → pending a →
            (i, fillna_application a) ∈
              letter_generator.todo (fillna_application <$> apps)) as Hin.
  { intros a i Hi Hpend. apply elem_of_letter_todo.
    rewrite list_lookup_fmap, Hi. split; [done|]. by apply pending_fillna. }
  destruct Hrun as [(Hnil & _ & -> & _)|(_ & rl & wl & Hloop & Hend)].
  - intros a [i Hi]%list_elem_of_lookup Hpend.
    specialize (Hin a i Hi Hpend). rewrite Hnil in Hin. by apply elem_of_nil in Hin.
  - destruct rl as [[]|e]; destruct Hend as [Hr ->]; [|done].
    apply letter_loop_post in Hloop as (_ & _ & _ & _ & Hall & _).
    intros a [i Hi]%list_elem_of_lookup Hpend.
    destruct (Hall eq_refl i (fillna_application a)) as (p & Hp & Hfile);
      [by eapply Hin|].
    exists p. split; [by destruct profs|]. simpl.
    rewrite lookup_delete_ne by (symmetry; apply letter_path_not_tmp). done.
Qed.

(** X9: without [force] neither builder overwrites or removes a file that
    is already on disk, its own temporary HTML file apart: the file is
    there afterwards with the same contents, however the run ends. *)
Theorem builders_keep_existing_files w path content :
  disk w !! path = Some content →
  (path ≠ cv_generator.tmp_html →
   disk (cv_generator.generate_cvs false w).1.2 !! path = Some content) ∧
  (path ≠ letter_generator.tmp_html →
   disk (letter_generator.generate_letters false w).1.2 !! path = Some content).
Proof.
  intros Hfile. split; intros Hpath.
  - unfold cv_generator.generate_cvs, read_excel, lift, modify.
    unfold mbind, M_bind, mret, M_ret.
    destruct (workbook w !! "profiles") as [sheet|]; [|done].
    destruct (as_profiles (fillna_sheet sheet)) as [df|e]; [|done].
    destruct (cv_loop_post false (iterrows df) w)
      as (w1 & evs & -> & _ & _ & _ & _ & Hkeep & _).
    simpl. rewrite lookup_delete_ne by done. by apply Hkeep.
  - destruct (letter_generator.generate_letters false w) as [[r w'] evs] eqn:Hrun.
    apply generate_letters_cases in Hrun
      as [(e & _ & -> & _)|(profs & offers & apps & _ & _ & _ & Hrun)]; [done|].
    cbv zeta in Hrun.
    destruct Hrun as [(_ & _ & -> & _)|(_ & rl & wl & Hloop & Hend)]; [done|].
    apply letter_loop_post in Hloop as (_ & _ & _ & Hkeep & _).
    destruct rl; destruct Hend as [_ ->]; simpl.
    + rewrite lookup_delete_ne by done. by apply Hkeep.
    + by apply Hkeep.
Qed.

End Builders.

(** ** The sessions of a dispatch run *)

Section Dispatch.
Context `{Externals}.
Import email_sender.

Lemma dispatch_row_session force profs offers idx row t w r w' evs i host login msg acc :
  dispatch_row force profs offers idx row t w = (r, w', evs) →
  SmtpSession i host login msg acc ∈ evs →
  i = idx ∧
  ∃ p offer cv cvb lmb sdf,
    find_profile profs row = Ok p ∧
    find_offer offers row = Ok offer ∧
    glob (disk w) CV_DIR (cv_pattern (PyStr.upper (nom p)) (prenom p)) = Some cv ∧
    disk w !! cv = Some cvb ∧
    disk w !! letter_path p row = Some lmb ∧
    pick_sender w = (Ok (login, sdf), w, []) ∧
    resolve_host login = Ok host ∧
    msg = application_msg login p offer [(cv, cvb); (letter_path p row, lmb)] ∧
    acc = smtp_accepts idx host login msg.
Proof.
  intros Hrun Hin. unfold find_profile, find_offer.
  unfold dispatch_row, build_msg, try_except, send_email, print, emit, raise, lift, gets
    in Hrun.
  unfold mbind, M_bind, mret, M_ret in Hrun.
  destruct (as_profiles profs) as [profiles|]; [|simplify_eq; by apply elem_of_nil in Hin].
  destruct (as_joboffers offers) as [joboffers|]; [|simplify_eq; by apply elem_of_nil in Hin].
  destruct (as_row _) as [p|] eqn:Hp; [|simplify_eq; by apply elem_of_nil in Hin].
  cbv zeta in Hrun.
  destruct (glob _ _ _) as [cv|] eqn:Hcv;
    [|simplify_eq; by apply list_elem_of_singleton in Hin].
  unfold letter_path.
  change (letter_generator.lm_name ?a ?b ?c) with (lm_name a b c).
  destruct (disk w !! joinpath LM_DIR _) as [lmb|] eqn:Hlm;
    [|simplify_eq; by apply list_elem_of_singleton in Hin].
  destruct (pick_sender w) as [[[[sender sdf]|e] w1] e1] eqn:Hpick;
    destruct (pick_sender_pure _ _ _ _ Hpick) as [-> ->];
    [|simplify_eq; by apply elem_of_nil in Hin].
  destruct (resolve_host sender) as [h|] eqn:Hhost;
    [|simplify_eq; by apply elem_of_nil in Hin].
  unfold read_files, gets, raise in Hrun. unfold mbind, M_bind, mret, M_ret in Hrun.
  destruct (disk w !! cv) as [cvb|] eqn:Hcvb;
    [|simplify_eq; by apply elem_of_nil in Hin].
  rewrite Hlm in Hrun. simpl in Hrun.
  match type of Hrun with
  | context [smtp_accepts idx h sender ?m] => set (m0 := m) in *
  end.
  destruct (smtp_accepts idx h sender m0) eqn:Hacc; simpl in Hrun; simplify_eq;
    apply elem_of_cons in Hin as [Hin|Hin]; simplify_eq;
    try (by apply list_elem_of_singleton in Hin);
    (split; [done|]; eexists p, _, cv, cvb, lmb, sdf; by repeat split).
Qed.


Lemma send_loop_cons force profs offers idx row rest t w r w' evs :
  send_loop force profs offers ((idx, row) :: rest) t w = (r, w', evs) →
  ∃ r1 o1,
    dispatch_row force profs offers idx row t w = (r1, w, o1) ∧
    match r1 with
    | Raise e => r = Raise e ∧ w' = w ∧ evs = o1
    | Ok (Continue t1) =>
        ∃ o2, send_loop force profs offers rest t1 w = (r, w', o2) ∧ evs = o1 ++ o2
    | Ok (Break t1) => r = Ok t1 ∧ w' = w ∧ evs = o1
    end.
Proof.
  cbn [send_loop]. intros Hrun.
  apply bind_inv in Hrun as [(e & Hrow & ->)|(c & w1 & o1 & o2 & Hrow & Hrest & ->)];
    pose proof (dispatch_row_inv _ _ _ _ _ _ _ _ _ _ Hrow) as [-> _].
  - by exists (Raise e), evs.
  - exists (Ok c), o1. split; [done|]. destruct c as [t1|t1].
    + by exists o2.
    + unfold mret, M_ret in Hrest. simplify_eq. by rewrite app_nil_r.
Qed.

Lemma send_loop_sessions force profs offers rows t w r w' evs i host login msg acc :
  send_loop force profs offers rows t w = (r, w', evs) →
  SmtpSession i host login msg acc ∈ evs →
  ∃ row p offer cv cvb lmb sdf,
    (i, row) ∈ rows ∧
    find_profile profs row = Ok p ∧
    find_offer offers row = Ok offer ∧
    glob (disk w) CV_DIR (cv_pattern (PyStr.upper (nom p)) (prenom p)) = Some cv ∧
    disk w !! cv = Some cvb ∧
    disk w !! letter_path p row = Some lmb ∧
    pick_sender w = (Ok (login, sdf), w, []) ∧
    resolve_host login = Ok host ∧
    msg = application_msg login p offer [(cv, cvb); (letter_path p row, lmb)] ∧
    acc = smtp_accepts i host login msg.
Proof.
  revert t r w' evs. induction rows as [|[idx row] rest IH]; intros t r w' evs.
  { intros [= <- <- <-] Hin. by apply elem_of_nil in Hin. }
  intros (r1 & o1 & Hrow & Hrest)%send_loop_cons Hin.
  assert (SmtpSession i host login msg acc ∈ o1 →
          ∃ row0 p offer cv cvb lmb sdf,
            (i, row0) ∈ (idx, row) :: rest ∧
            find_profile profs row0 = Ok p ∧
            find_offer offers row0 = Ok offer ∧
            glob (disk w) CV_DIR (cv_pattern (PyStr.upper (nom p)) (prenom p)) = Some cv ∧
            disk w !! cv = Some cvb ∧
            disk w !! letter_path p row0 = Some lmb ∧
            pick_sender w = (Ok (login, sdf), w, []) ∧
            resolve_host login = Ok host ∧
            msg = application_msg login p offer [(cv, cvb); (letter_path p row0, lmb)] ∧
            acc = smtp_accepts i host login msg) as Hhead.
  { intros Hin1.
    destruct (dispatch_row_session _ _ _ _ _ _ _ _ _ _ _ _ _ _ _ Hrow Hin1)
      as (-> & p & offer & cv & cvb & lmb & sdf & Hdetails).
    exists row, p, offer, cv, cvb, lmb, sdf. split; [by left|done]. }
  destruct r1 as [[t1|t1]|e].
  - destruct Hrest as (o2 & Hrest & ->).
    apply elem_of_app in Hin as [Hin|Hin]; [by apply Hhead|].
    destruct (IH _ _ _ _ Hrest Hin) as (row0 & p & offer & cv & cvb & lmb & sdf & Hr & Hd).
    exists row0, p, offer, cv, cvb, lmb, sdf. split; [by right|done].
  - destruct Hrest as (-> & -> & ->). by apply Hhead.
  - destruct Hrest as (-> & -> & ->). by apply Hhead.
Qed.


(** The sessions of a run are those of its loop, on the initial world. *)
Lemma send_applications_loop force w r w' evs ev :
  send_applications force w = (r, w', evs) →
  ev ∈ evs → is_smtp ev = true →
  ∃ profs offers apps rl loop_evs,
    workbook w !! "profiles" = Some profs ∧
    workbook w !! "joboffers" = Some offers ∧
    workbook w !! "applications" = Some (SApplications apps) ∧
    send_loop force (fillna_sheet profs) (fillna_sheet offers)
      (todo (fillna_application <$> apps)) (fillna_application <$> apps, None) w
      = (rl, w, loop_evs) ∧
    ev ∈ loop_evs.
Proof.
  intros Hrun Hin Hsmtp.
  apply send_applications_inv in Hrun
    as [(e & -> & -> & ->)|(profs & offers & apps & Hp & Ho & Ha & Hrun)];
    [by apply elem_of_nil in Hin|].
  destruct Hrun as [(_ & -> & -> & ->)|(_ & rl & loop_evs & Hloop & Hrl)].
  { apply list_elem_of_singleton in Hin as ->. done. }
  exists profs, offers, apps, rl, loop_evs. do 4 (split; [done|]).
  destruct rl as [[apps' sdf]|e].
  - destruct Hrl as (-> & -> & ->). apply elem_of_app in Hin as [Hin|Hin]; [done|].
    exfalso. assert (existsb is_smtp (persist_events sdf) = true) as Hex.
    { apply existsb_exists. exists ev. split; [by apply list_elem_of_In|done]. }
    by rewrite persist_events_no_smtp in Hex.
  - by destruct Hrl as (-> & -> & ->).
Qed.

(** X12: every SMTP session of a run is that of a pending application
    whose profile is found and whose two PDFs are on disk; the message is
    from the account that logs in, to the recruiter of the offer, with the
    subject naming the candidate, and carries exactly two attachments, the
    CV the directory matcher found and the letter at its path, with the
    contents they have on disk; the host is the one resolved from the
    account. *)
Theorem session_message force w r w' evs i host login msg acc :
  send_applications force w = (r, w', evs) →
  SmtpSession i host login msg acc ∈ evs →
  ∃ profs offers apps a p offer cv cvb lmb,
    workbook w !! "profiles" = Some (SProfiles profs) ∧
    workbook w !! "joboffers" = Some (SJobOffers offers) ∧
    workbook w !! "applications" = Some (SApplications apps) ∧
    apps !! i = Some a ∧ pending a ∧
    find_profile (SProfiles profs) a = Ok p ∧
    find_offer (SJobOffers offers) a = Ok offer ∧
    glob (disk w) CV_DIR (cv_pattern (PyStr.upper (nom p)) (prenom p)) = Some cv ∧
    disk w !! cv = Some cvb ∧
    disk w !! letter_path p a = Some lmb ∧
    resolve_host login = Ok host ∧
    msg = application_msg login p offer [(cv, cvb); (letter_path p a, lmb)] ∧
    acc = smtp_accepts i host login msg.
Proof.
  intros Hrun Hin.
  destruct (send_applications_loop _ _ _ _ _ _ Hrun Hin eq_refl)
    as (profs & offers & apps & rl & loop_evs & Hp & Ho & Ha & Hloop & Hin').
  destruct (send_loop_sessions _ _ _ _ _ _ _ _ _ _ _ _ _ _ Hloop Hin')
    as (row & p & offer & cv & cvb & lmb & sdf & Hrow & Hfp & Hfo & Hcv & Hcvb & Hlm
        & Hpick & Hhost & Hmsg & Hacc).
  apply elem_of_todo in Hrow as [Hi Hpend]. rewrite list_lookup_fmap in Hi.
  destruct (apps !! i) as [a|] eqn:Hai; [|done]. injection Hi as <-.
  apply (proj1 (pending_fillna _)) in Hpend.
  destruct profs as [profs| | | |]; try done.
  destruct offers as [|offers| | |]; try done.
  change (find_profile (SProfiles profs) a = Ok p) in Hfp.
  change (find_offer (SJobOffers offers) a = Ok offer) in Hfo.
  change (letter_path p (fillna_application a)) with (letter_path p a) in *.
  by exists profs, offers, apps, a, p, offer, cv, cvb, lmb.
Qed.

(** X13: all the sessions of one run log in with the same account on the
    same host: the account [pick_sender] returns on the workbook as the run
    found it. *)
Theorem one_account_per_run force w r w' evs i1 h1 l1 m1 a1 i2 h2 l2 m2 a2 :
  send_applications force w = (r, w', evs) →
  SmtpSession i1 h1 l1 m1 a1 ∈ evs →
  SmtpSession i2 h2 l2 m2 a2 ∈ evs →
  l1 = l2 ∧ h1 = h2 ∧ msg_from m1 = msg_from m2 ∧
  ∃ sdf, pick_sender w = (Ok (l1, sdf), w, []).
Proof.
  intros Hrun Hin1 Hin2.
  destruct (send_applications_loop _ _ _ _ _ _ Hrun Hin1 eq_refl)
    as (profs & offers & apps & rl & loop_evs & Hp & Ho & Ha & Hloop & Hin1').
  destruct (send_applications_loop _ _ _ _ _ _ Hrun Hin2 eq_refl)
    as (profs' & offers' & apps' & rl' & loop_evs' & Hp' & Ho' & Ha' & Hloop' & Hin2').
  destruct (send_loop_sessions _ _ _ _ _ _ _ _ _ _ _ _ _ _ Hloop Hin1')
    as (row1 & p1 & o1 & cv1 & cvb1 & lmb1 & sdf1 & _ & _ & _ & _ & _ & _
        & Hpick1 & Hhost1 & -> & _).
  destruct (send_loop_sessions _ _ _ _ _ _ _ _ _ _ _ _ _ _ Hloop' Hin2')
    as (row2 & p2 & o2 & cv2 & cvb2 & lmb2 & sdf2 & _ & _ & _ & _ & _ & _
        & Hpick2 & Hhost2 & -> & _).
  rewrite Hpick1 in Hpick2. injection Hpick2 as <- <-.
  rewrite Hhost1 in Hhost2. injection Hhost2 as <-.
  split; [done|]. split; [done|]. split; [done|]. by exists sdf1.
Qed.

End Dispatch.

Lemma StronglySorted_sublist {A} (R : relation A) (l k : list A) :
  l `sublist_of` k → StronglySorted R k → StronglySorted R l.
Proof.
  induction 1 as [|x l k Hsub IH|x l k Hsub IH]; intros Hk; [done|..];
    apply StronglySorted_inv in Hk as [Hk Hx].
  - constructor; [by apply IH|].
    apply Forall_forall. intros y Hy. rewrite Forall_forall in Hx.
    apply Hx. by eapply elem_of_sublist.
  - by apply IH.
Qed.

Section Loop.
Context `{Externals}.
Import email_sender.

(** One turn of the loop, by what it leaves in the trace. *)
Lemma dispatch_row_trace force profs offers idx row t w r evs :
  dispatch_row force profs offers idx row t w = (r, w, evs) →
  (session_rows evs = [] ∧ outcomes evs = [] ∧
   ((∃ e, r = Raise e) ∨
    (r = Ok (Continue t) ∧
     Print (PdfMissing (app_profile_id row) (app_job_id row)) ∈ evs))) ∨
  (∃ acc, session_rows evs = [idx] ∧ outcomes evs = [acc] ∧
     existsb (attempted idx) evs = true ∧
     ∃ t1, r = Ok (if acc || force then Continue t1 else Break t1)).
Proof.
  intros Hrow. apply dispatch_row_inv in Hrow as [_ Hrow].
  destruct Hrow as [(e & -> & ->)|[[-> ->]|(host & sender & sdf & msg & line & _ & -> & _ & ->)]].
  - left. split; [done|]. split; [done|]. left. by exists e.
  - left. split; [done|]. split; [done|]. right. split; [done|]. by left.
  - right. exists (smtp_accepts idx host sender msg). split; [done|]. split; [done|].
    split; [simpl; by rewrite bool_decide_true|].
    destruct (smtp_accepts idx host sender msg); simpl; [by eexists|].
    destruct force; by eexists.
Qed.

Lemma session_rows_app e1 e2 : session_rows (e1 ++ e2) = session_rows e1 ++ session_rows e2.
Proof. apply omap_app. Qed.

Lemma outcomes_app e1 e2 : outcomes (e1 ++ e2) = outcomes e1 ++ outcomes e2.
Proof. apply omap_app. Qed.

Lemma send_loop_order force profs offers rows t w r w' evs :
  send_loop force profs offers rows t w = (r, w', evs) →
  session_rows evs `sublist_of` rows.*1.
Proof.
  revert t r w' evs. induction rows as [|[idx row] rest IH]; intros t r w' evs.
  { by intros [= <- <- <-]. }
  intros (r1 & o1 & Hrow & Hrest)%send_loop_cons.
  destruct (dispatch_row_trace _ _ _ _ _ _ _ _ _ Hrow)
    as [(Hs & _ & _)|(acc & Hs & _ & _ & t1 & ->)]; cbn [fmap list_fmap fst].
  - apply sublist_cons. destruct r1 as [[t1|t1]|e].
    + destruct Hrest as (o2 & Hrest & ->). rewrite session_rows_app, Hs. by eapply IH.
    + destruct Hrest as (-> & -> & ->). rewrite Hs. apply sublist_nil_l.
    + destruct Hrest as (-> & -> & ->). rewrite Hs. apply sublist_nil_l.
  - destruct (acc || force).
    + destruct Hrest as (o2 & Hrest & ->). rewrite session_rows_app, Hs.
      apply sublist_skip. by eapply IH.
    + destruct Hrest as (-> & -> & ->). rewrite Hs. apply sublist_skip, sublist_nil_l.
Qed.

Lemma send_loop_outcomes profs offers rows t w r w' evs :
  send_loop false profs offers rows t w = (r, w', evs) →
  ∃ n, outcomes evs = replicate n true ∨
       (outcomes evs = replicate n true ++ [false] ∧ ∃ t', r = Ok t').
Proof.
  revert t r w' evs. induction rows as [|[idx row] rest IH]; intros t r w' evs.
  { intros [= <- <- <-]. exists 0. by left. }
  intros (r1 & o1 & Hrow & Hrest)%send_loop_cons.
  destruct (dispatch_row_trace _ _ _ _ _ _ _ _ _ Hrow)
    as [(_ & Ho & _)|(acc & _ & Ho & _ & t1 & ->)].
  - destruct r1 as [[t1|t1]|e].
    + destruct Hrest as (o2 & Hrest & ->). rewrite outcomes_app, Ho. by eapply IH.
    + destruct Hrest as (-> & -> & ->). rewrite Ho. exists 0. by left.
    + destruct Hrest as (-> & -> & ->). rewrite Ho. exists 0. by left.
  - destruct acc; simpl in Hrest.
    + destruct Hrest as (o2 & Hrest & ->). rewrite outcomes_app, Ho.
      destruct (IH _ _ _ _ Hrest) as [n [Hn|[Hn Hr]]]; exists (S n); rewrite Hn;
        [by left|by right].
    + destruct Hrest as (-> & -> & ->). rewrite Ho. exists 0. right. split; [done|].
      by exists t1.
Qed.

Lemma send_loop_attends force profs offers rows t w t' w' evs :
  send_loop force profs offers rows t w = (Ok t', w', evs) →
  force = true ∨ false ∉ outcomes evs →
  ∀ i row, (i, row) ∈ rows →
    existsb (attempted i) evs = true ∨
    Print (PdfMissing (app_profile_id row) (app_job_id row)) ∈ evs.
Proof.
  revert t t' w' evs. induction rows as [|[idx row] rest IH]; intros t t' w' evs.
  { intros _ _ i row Hin. by apply elem_of_nil in Hin. }
  intros (r1 & o1 & Hrow & Hrest)%send_loop_cons Hall i row0 Hin.
  destruct (dispatch_row_trace _ _ _ _ _ _ _ _ _ Hrow)
    as [(_ & Ho & [[e ->]|[-> Hmiss]])|(acc & _ & Ho & Hatt & t1 & ->)].
  - by destruct Hrest as (? & _).
  - destruct Hrest as (o2 & Hrest & ->).
    apply elem_of_cons in Hin as [[= -> ->]|Hin].
    + right. apply elem_of_app. by left.
    + rewrite outcomes_app, Ho in Hall.
      destruct (IH _ _ _ _ Hrest Hall i row0 Hin) as [Hi|Hi].
      * left. rewrite existsb_app, Hi. apply orb_true_r.
      * right. apply elem_of_app. by right.
  - destruct (acc || force) eqn:Hgo.
    + destruct Hrest as (o2 & Hrest & ->).
      apply elem_of_cons in Hin as [[= -> ->]|Hin].
      * left. by rewrite existsb_app, Hatt.
      * assert (force = true ∨ false ∉ outcomes o2) as Hall'.
        { destruct Hall as [?|Hall]; [by left|]. right. intros Hf. apply Hall.
          rewrite outcomes_app. apply elem_of_app. by right. }
        destruct (IH _ _ _ _ Hrest Hall' i row0 Hin) as [Hi|Hi].
        -- left. rewrite existsb_app, Hi. apply orb_true_r.
        -- right. apply elem_of_app. by right.
    + destruct Hrest as (_ & -> & ->). apply orb_false_iff in Hgo as [-> ->].
      destruct Hall as [?|Hall]; [done|]. exfalso. apply Hall. rewrite Ho. by left.
Qed.


Lemma todo_ascending apps : StronglySorted lt (todo apps).*1.
Proof.
  unfold todo.
  apply (StronglySorted_fmap fst (λ a b : nat * Application, a.1 < b.1)); [done|].
  apply StronglySorted_filter, iterrows_ascending.
Qed.

Lemma persist_events_trace sdf :
  session_rows (persist_events sdf) = [] ∧ outcomes (persist_events sdf) = [].
Proof. by destruct sdf. Qed.

(** X14: the sessions of a run are opened in ascending order of the rows
    of the applications sheet, hence at most one per application. *)
Theorem sessions_in_sheet_order force w r w' evs :
  send_applications force w = (r, w', evs) →
  StronglySorted lt (session_rows evs) ∧ NoDup (session_rows evs).
Proof.
  intros Hrun.
  assert (StronglySorted lt (session_rows evs)) as Hsorted.
  { apply send_applications_inv in Hrun
      as [(e & -> & -> & ->)|(profs & offers & apps & Hp & Ho & Ha & Hrun)];
      [constructor|].
    destruct Hrun as [(_ & -> & -> & ->)|(_ & rl & loop_evs & Hloop & Hrl)];
      [constructor|].
    apply send_loop_order in Hloop.
    assert (session_rows evs = session_rows loop_evs) as ->.
    { destruct rl as [[apps' sdf]|e].
      - destruct Hrl as (_ & _ & ->). rewrite session_rows_app.
        destruct (persist_events_trace sdf) as [-> _]. apply app_nil_r.
      - by destruct Hrl as (_ & _ & ->). }
    eapply StronglySorted_sublist; [done|]. apply todo_ascending. }
  split; [done|].
  induction Hsorted as [|i l Hl IH Hi]; constructor; [|done].
  intros Hin. rewrite Forall_forall in Hi. specialize (Hi i Hin). lia.
Qed.

(** X15: without [force], every session of a run was accepted, the last
    one possibly apart; when the last one was refused the run still returns
    and writes the applications sheet. *)
Theorem refusal_ends_run w r w' evs :
  send_applications false w = (r, w', evs) →
  ∃ n, outcomes evs = replicate n true ∨
       (outcomes evs = replicate n true ++ [false] ∧
        r = Ok () ∧ ExcelWrite "applications" ∈ evs).
Proof.
  intros Hrun.
  apply send_applications_inv in Hrun
    as [(e & -> & -> & ->)|(profs & offers & apps & Hp & Ho & Ha & Hrun)];
    [exists 0; by left|].
  destruct Hrun as [(_ & -> & -> & ->)|(_ & rl & loop_evs & Hloop & Hrl)];
    [exists 0; by left|].
  destruct (send_loop_outcomes _ _ _ _ _ _ _ _ Hloop) as [n Hn]. exists n.
  destruct rl as [[apps' sdf]|e].
  - destruct Hrl as (-> & _ & ->). rewrite outcomes_app.
    destruct (persist_events_trace sdf) as [_ ->]. rewrite app_nil_r.
    destruct Hn as [Hn|[Hn _]]; [by left|right]. split; [done|]. split; [done|].
    apply elem_of_app. right. by left.
  - destruct Hrl as (-> & _ & ->). destruct Hn as [Hn|[_ [t' ?]]]; [by left|done].
Qed.

(** X16: a run that returns, with [force] or with no session refused,
    leaves no pending application unattended: for each one a session was
    opened or a missing PDF was reported. *)
Theorem run_attends_every_pending force w w' evs apps i a :
  send_applications force w = (Ok (), w', evs) →
  force = true ∨ false ∉ outcomes evs →
  workbook w !! "applications" = Some (SApplications apps) →
  apps !! i = Some a → pending a →
  existsb (attempted i) evs = true ∨
  Print (PdfMissing (app_profile_id a) (app_job_id a)) ∈ evs.
Proof.
  intros Hrun Hall Happs Hi Hpend.
  assert ((i, fillna_application a) ∈ todo (fillna_application <$> apps)) as Hin.
  { apply elem_of_todo. rewrite list_lookup_fmap, Hi. split; [done|].
    by apply pending_fillna. }
  apply send_applications_inv in Hrun
    as [(e & ? & _)|(profs & offers & apps0 & Hp & Ho & Ha & Hrun)]; [done|].
  rewrite Happs in Ha. injection Ha as <-.
  destruct Hrun as [(Hnil & _)|(_ & rl & loop_evs & Hloop & Hrl)].
  { rewrite Hnil in Hin. by apply elem_of_nil in Hin. }
  destruct rl as [[apps' sdf]|e]; [|by destruct Hrl].
  destruct Hrl as (_ & _ & ->).
  rewrite outcomes_app in Hall. destruct (persist_events_trace sdf) as [_ Hpe].
  rewrite Hpe, app_nil_r in Hall.
  destruct (send_loop_attends _ _ _ _ _ _ _ _ _ Hloop Hall _ _ Hin) as [Hatt|Hmiss].
  - left. by rewrite existsb_app, Hatt.
  - right. apply elem_of_app. by left.
Qed.

End Loop.

Section Runs.
Context (E1 E2 : Externals).

(** X17: an application whose message was accepted in a run that returned
    gets no session in the next run on the workbook that run left,
    whatever the [force] flags and the answers of the collaborators. *)
Theorem never_mailed_twice force1 force2 w w1 evs1 r2 w2 evs2 i :
  @email_sender.send_applications E1 force1 w = (Ok (), w1, evs1) →
  @email_sender.send_applications E2 force2 w1 = (r2, w2, evs2) →
  existsb (transmitted i) evs1 = true →
  existsb (attempted i) evs2 = false.
Proof.
  intros Hrun1 Hrun2 Hsent.
  apply send_applications_inv in Hrun1
    as [(e & ? & _)|(profs & offers & apps & Hp & Ho & Ha & Hrun1)]; [done|].
  destruct Hrun1 as [(_ & _ & _ & ->)|(_ & rl & loop_evs & Hloop & Hrl)]; [done|].
  destruct rl as [[apps' sdf]|e]; [|by destruct Hrl].
  destruct Hrl as (_ & -> & ->).
  apply send_loop_inv in Hloop as (_ & _ & _ & _ & Hmarks & _).
  specialize (Hmarks i). simpl in Hmarks.
  rewrite existsb_app in Hsent.
  destruct (persist_events_no_session i sdf) as [_ Hpe]. rewrite Hpe, orb_false_r in Hsent.
  rewrite Hsent in Hmarks.
  destruct (existsb (attempted i) evs2) eqn:Hatt; [exfalso|done].
  apply send_applications_inv in Hrun2
    as [(e & _ & _ & ->)|(profs2 & offers2 & apps2 & _ & _ & Ha2 & Hrun2)]; [done|].
  simpl in Ha2. rewrite persist_applications in Ha2. injection Ha2 as <-.
  destruct Hrun2 as [(_ & _ & _ & ->)|(_ & rl2 & loop_evs2 & Hloop2 & Hrl2)]; [done|].
  assert (existsb (attempted i) loop_evs2 = true) as Hatt2.
  { destruct rl2 as [[apps2 sdf2]|e].
    - destruct Hrl2 as (_ & _ & ->). rewrite existsb_app in Hatt.
      destruct (persist_events_no_session i sdf2) as [Hpe2 _].
      by rewrite Hpe2, orb_false_r in Hatt.
    - by destruct Hrl2 as (_ & _ & ->). }
  apply send_loop_inv in Hloop2 as (_ & _ & Hrows & _).
  apply Hrows, list_elem_of_fmap in Hatt2 as ([j row] & Heq & Hin).
  simpl in Heq. subst j.
  apply elem_of_todo in Hin as [Hj Hpend].
  rewrite list_lookup_fmap, Hmarks in Hj.
  destruct ((fillna_application <$> apps) !! i) as [a|]; [|done].
  injection Hj as <-. destruct Hpend as [_ Hblank]. simpl in Hblank.
  by destruct Hblank as [|(s & [= <-] & Hs)].
Qed.

End Runs.

(** ** The attachments of a message *)

Section Message.
Context `{Externals}.
Import email_sender.

Lemma read_files_ok files w atts w' evs :
  read_files files w = (Ok atts, w', evs) →
  atts.*1 = files ∧ Forall (λ fc, disk w !! fc.1 = Some fc.2) atts.
Proof.
  revert atts w' evs. induction files as [|f rest IH]; intros atts w' evs.
  { by intros [= <- <- <-]. }
  cbn [read_files]. unfold gets, raise, mbind, M_bind, mret, M_ret.
  destruct (disk w !! f) as [bytes|] eqn:Hf; [|done].
  destruct (read_files rest w) as [[[others|e] w1] e1] eqn:Hrest; [|done].
  intros [= <- <- <-]. destruct (IH _ _ _ eq_refl) as [Hnames Hall].
  split; [cbn [fmap list_fmap]; by rewrite Hnames|]. by constructor.
Qed.

(** X18: a message [build_msg] returns has the sender, recipient, subject
    and body it was given and one attachment per file, in the order given,
    each with the contents the file has on disk; building it changes
    nothing and prints nothing. *)
Theorem build_msg_attachments frm to sub html files w msg w' evs :
  build_msg frm to sub html files w = (Ok msg, w', evs) →
  w' = w ∧ evs = [] ∧
  (msg_attachments msg).*1 = files ∧
  Forall (λ fc, disk w !! fc.1 = Some fc.2) (msg_attachments msg) ∧
  msg_from msg = frm ∧ msg_to msg = to ∧ msg_subject msg = sub ∧ msg_html msg = html.
Proof.
  unfold build_msg, mbind, M_bind, mret, M_ret.
  destruct (read_files files w) as [[[atts|e] w1] e1] eqn:Hread; [|done].
  destruct (read_files_pure _ _ _ _ _ Hread) as [-> ->].
  apply read_files_ok in Hread as [Hnames Hall].
  intros [= <- <- <-]. by repeat split.
Qed.

End Message.

(** ** The pipeline as a whole *)

Section Pipeline.
Context `{Externals}.

Lemma cv_loop_lines force records w r w' evs :
  cv_generator.cv_loop force records w = (r, w', evs) → existsb is_missing evs = false.
Proof.
  revert w r w' evs. induction records as [|[i raw] rest IH]; intros w r w' evs.
  { by intros [= <- <- <-]. }
  cbn [cv_generator.cv_loop]. unfold mbind, M_bind. rewrite cv_row_eq. cbv zeta.
  destruct (bool_decide _ && negb force).
  - destruct (cv_generator.cv_loop force rest w) as [[rl wl] el] eqn:Hloop.
    intros [= <- <- <-]. rewrite !existsb_app, (IH _ _ _ _ Hloop).
    by destruct (PyStr.truthy _).
  - destruct (cv_generator.cv_loop force rest _) as [[rl wl] el] eqn:Hloop.
    intros [= <- <- <-]. rewrite !existsb_app, (IH _ _ _ _ Hloop).
    by destruct (PyStr.truthy _).
Qed.

Lemma letter_loop_lines force profiles offers rows w r w' evs :
  letter_generator.letter_loop force profiles offers rows w = (r, w', evs) →
  existsb is_missing evs = false.
Proof.
  revert w r w' evs. induction rows as [|[idx row] rest IH]; intros w r w' evs.
  { by intros [= <- <- <-]. }
  cbn [letter_generator.letter_loop]. unfold mbind, M_bind. rewrite letter_row_eq.
  destruct (as_profiles profiles); [|by intros [= <- <- <-]].
  destruct (find_offer offers row); [|by intros [= <- <- <-]].
  destruct (find_profile profiles row); [|by intros [= <- <- <-]].
  cbv zeta. destruct (bool_decide _ && negb force).
  - destruct (letter_generator.letter_loop force profiles offers rest w)
      as [[rl wl] el] eqn:Hloop.
    intros [= <- <- <-]. simpl. exact (IH _ _ _ _ Hloop).
  - destruct (letter_generator.letter_loop force profiles offers rest _)
      as [[rl wl] el] eqn:Hloop.
    intros [= <- <- <-]. simpl. exact (IH _ _ _ _ Hloop).
Qed.

Lemma generate_cvs_inv force w r w' evs :
  cv_generator.generate_cvs force w = (r, w', evs) →
  workbook w' = workbook w ∧ environ w' = environ w ∧
  existsb is_missing evs = false ∧
  (r = Ok () →
   ∃ rows, workbook w !! "profiles" = Some (SProfiles rows) ∧
           ∀ raw, raw ∈ rows → is_Some (disk w' !! cv_path raw)).
Proof.
  unfold cv_generator.generate_cvs, read_excel, lift, modify.
  unfold mbind, M_bind, mret, M_ret.
  destruct (workbook w !! "profiles") as [sheet|]; [|by intros [= <- <- <-]].
  destruct sheet as [rows| | | |]; try by intros [= <- <- <-].
  cbn [fillna_sheet as_profiles].
  destruct (cv_generator.cv_loop force (iterrows rows) w) as [[rl wl] el] eqn:Hloop.
  pose proof (cv_loop_lines _ _ _ _ _ _ Hloop) as Hlines.
  destruct (cv_loop_post force (iterrows rows) w)
    as (w1 & evs1 & Heq & Hwb & Henv & _ & Hall & _).
  rewrite Hloop in Heq. injection Heq as -> -> ->.
  intros [= <- <- <-]. split; [done|]. split; [done|].
  split; [by rewrite app_nil_r|]. intros _. exists rows. split; [done|].
  intros raw [i Hi]%list_elem_of_lookup. simpl.
  rewrite lookup_delete_ne by (symmetry; apply cv_path_not_tmp).
  apply (Hall i), elem_of_iterrows, Hi.
Qed.

Lemma generate_letters_inv force w r w' evs :
  letter_generator.generate_letters force w = (r, w', evs) →
  workbook w' = workbook w ∧ environ w' = environ w ∧
  existsb is_missing evs = false ∧
  (∀ p, p ≠ letter_generator.tmp_html → is_Some (disk w !! p) → is_Some (disk w' !! p)) ∧
  (r = Ok () →
   ∀ profs apps,
     workbook w !! "profiles" = Some profs →
     workbook w !! "applications" = Some (SApplications apps) →
     ∀ i row, (i, row) ∈ letter_generator.todo (fillna_application <$> apps) →
       ∃ p, find_profile (fillna_sheet profs) row = Ok p ∧
            is_Some (disk w' !! letter_path p row)).
Proof.
  unfold letter_generator.generate_letters, letter_generator._read,
    read_excel, lift, print, emit, modify.
  unfold mbind, M_bind, mret, M_ret.
  destruct (workbook w !! "profiles") as [profs|]; [|by intros [= <- <- <-]].
  destruct (workbook w !! "joboffers") as [offers|]; [|by intros [= <- <- <-]].
  destruct (workbook w !! "applications") as [sheet|]; [|by intros [= <- <- <-]].
  destruct sheet as [|?|apps| |]; try by intros [= <- <- <-].
  cbn [fillna_sheet as_applications].
  destruct (str_accessor (email_sent <$> _)) as [[]|?]; [|by intros [= <- <- <-]].
  destruct (str_accessor (generate_lm <$> _)) as [[]|?]; [|by intros [= <- <- <-]].
  case_bool_decide as Hnil.
  { intros [= <- <- <-]. do 4 (split; [done|]).
    intros _ ? ? [= <-] [= <-] i row Hin. rewrite Hnil in Hin.
    by apply elem_of_nil in Hin. }
  destruct (letter_generator.letter_loop force _ _ _ w) as [[rl wl] el] eqn:Hloop.
  pose proof (letter_loop_lines _ _ _ _ _ _ _ _ Hloop) as Hlines.
  apply letter_loop_post in Hloop as (Hwb & Henv & Hmono & _ & Hall & _).
  destruct rl as [[]|e]; intros [= <- <- <-].
  - split; [done|]. split; [done|]. split; [by rewrite app_nil_r|]. split.
    + intros p Hp Hin. simpl. rewrite lookup_delete_ne by done. by apply Hmono.
    + intros _ ? ? [= <-] [= <-] i row Hin.
      destruct (Hall eq_refl i row Hin) as (p & Hp & Hfile).
      exists p. split; [done|]. simpl.
      rewrite lookup_delete_ne by (symmetry; apply letter_path_not_tmp). done.
  - split; [done|]. split; [done|]. split; [done|]. split; [|done].
    intros p _. apply Hmono.
Qed.

End Pipeline.

Lemma lookup_same_length {A} (l k : list A) :
  (∀ i, is_Some (l !! i) ↔ is_Some (k !! i)) → length l = length k.
Proof.
  intros Hlk.
  destruct (decide (length l < length k)) as [Hlt|Hge].
  { apply lookup_lt_is_Some, Hlk, lookup_lt_is_Some in Hlt. lia. }
  destruct (decide (length k < length l)) as [Hlt|Hge'].
  { apply lookup_lt_is_Some, Hlk, lookup_lt_is_Some in Hlt. lia. }
  lia.
Qed.

Lemma find_profile_elem rows row p :
  find_profile (SProfiles rows) row = Ok p →
  p ∈ rows ∧ profile_id p = app_profile_id row.
Proof.
  unfold find_profile. cbn [as_profiles].
  destruct (filter _ rows) as [|q [|q' l]] eqn:Hf; try done.
  intros [= ->].
  assert (p ∈ filter (λ p0, bool_decide (profile_id p0 = app_profile_id row)) rows) as Hin
    by (rewrite Hf; by left).
  apply list_elem_of_filter in Hin as [Hid Hin]. split; [done|].
  by apply bool_decide_unpack in Hid.
Qed.

Lemma cv_path_clean raw :
  cv_generator.clean_text (nom raw) = nom raw →
  cv_generator.clean_text (prenom raw) = prenom raw →
  cv_path raw =
    joinpath CV_DIR (email_sender.cv_pattern (PyStr.upper (nom raw)) (prenom raw)).
Proof.
  intros Hn Hp. unfold cv_path, cv_generator.cv_name, email_sender.cv_pattern.
  cbn [nom prenom cv_generator._clean]. by rewrite Hn, Hp.
Qed.

Section Pipeline.
Context `{Externals}.
Import email_sender.

Lemma dispatch_row_missing force profs offers idx row t w r w' evs :
  dispatch_row force profs offers idx row t w = (r, w', evs) →
  existsb is_missing evs = true →
  ∃ p, find_profile profs row = Ok p ∧
       (glob (disk w) CV_DIR (cv_pattern (PyStr.upper (nom p)) (prenom p)) = None ∨
        disk w !! letter_path p row = None).
Proof.
  intros Hrun Hin. unfold find_profile.
  unfold dispatch_row, build_msg, try_except, send_email, print, emit, raise, lift, gets
    in Hrun.
  unfold mbind, M_bind, mret, M_ret in Hrun.
  destruct (as_profiles profs) as [profiles|]; [|by simplify_eq].
  destruct (as_joboffers offers) as [joboffers|]; [|by simplify_eq].
  destruct (as_row _) as [p|] eqn:Hp; [|by simplify_eq].
  cbv zeta in Hrun. exists p. split; [done|].
  destruct (glob _ _ _) as [cv|] eqn:Hcv; [|by left].
  unfold letter_path.
  change (letter_generator.lm_name ?a ?b ?c) with (lm_name a b c).
  destruct (disk w !! joinpath LM_DIR _) as [lmb|] eqn:Hlm; [|by right].
  exfalso.
  destruct (pick_sender w) as [[[[sender sdf]|e] w1] e1] eqn:Hpick;
    destruct (pick_sender_pure _ _ _ _ Hpick) as [-> ->]; [|by simplify_eq].
  destruct (resolve_host sender) as [h|] eqn:Hhost; [|by simplify_eq].
  unfold read_files, gets, raise in Hrun. unfold mbind, M_bind, mret, M_ret in Hrun.
  destruct (disk w !! cv) as [cvb|] eqn:Hcvb; [|by simplify_eq].
  rewrite Hlm in Hrun. simpl in Hrun.
  match type of Hrun with
  | context [smtp_accepts idx h sender ?m] => set (m0 := m) in *
  end.
  by destruct (smtp_accepts idx h sender m0) eqn:Hacc; simpl in Hrun; simplify_eq.
Qed.

Lemma send_loop_missing force profs offers rows t w r w' evs :
  send_loop force profs offers rows t w = (r, w', evs) →
  existsb is_missing evs = true →
  ∃ i row p, (i, row) ∈ rows ∧ find_profile profs row = Ok p ∧
    (glob (disk w) CV_DIR (cv_pattern (PyStr.upper (nom p)) (prenom p)) = None ∨
     disk w !! letter_path p row = None).
Proof.
  revert t r w' evs. induction rows as [|[idx row] rest IH]; intros t r w' evs.
  { by intros [= <- <- <-]. }
  intros (r1 & o1 & Hrow & Hrest)%send_loop_cons Hin.
  assert (existsb is_missing o1 = true →
          ∃ i row0 p, (i, row0) ∈ (idx, row) :: rest ∧ find_profile profs row0 = Ok p ∧
            (glob (disk w) CV_DIR (cv_pattern (PyStr.upper (nom p)) (prenom p)) = None ∨
             disk w !! letter_path p row0 = None)) as Hhead.
  { intros Hin1. destruct (dispatch_row_missing _ _ _ _ _ _ _ _ _ _ Hrow Hin1) as (p & Hp).
    exists idx, row, p. split; [by left|done]. }
  destruct r1 as [[t1|t1]|e].
  - destruct Hrest as (o2 & Hrest & ->). rewrite existsb_app in Hin.
    apply orb_true_iff in Hin as [Hin|Hin]; [by apply Hhead|].
    destruct (IH _ _ _ _ Hrest Hin) as (i & row0 & p & Hr & Hd).
    exists i, row0, p. split; [by right|done].
  - destruct Hrest as (-> & -> & ->). by apply Hhead.
  - destruct Hrest as (-> & -> & ->). by apply Hhead.
Qed.

(** What [send_applications] leaves of the two sheets the recap reads. *)
Lemma send_applications_sheets force w w' evs :
  send_applications force w = (Ok (), w', evs) →
  workbook w' !! "joboffers" = workbook w !! "joboffers" ∧
  ∃ apps apps',
    workbook w !! "applications" = Some (SApplications apps) ∧
    workbook w' !! "applications" = Some (SApplications apps') ∧
    length apps' = length apps.
Proof.
  intros Hrun.
  apply send_applications_inv in Hrun
    as [(e & ? & _)|(profs & offers & apps & Hp & Ho & Ha & Hrun)]; [done|].
  destruct Hrun as [(_ & _ & -> & _)|(_ & rl & loop_evs & Hloop & Hrl)].
  { split; [done|]. by exists apps, apps. }
  destruct rl as [[apps' sdf]|e]; [|by destruct Hrl].
  destruct Hrl as (_ & -> & ->). simpl. split; [by apply persist_other|].
  exists apps, apps'. split; [done|]. split; [apply persist_applications|].
  apply send_loop_inv in Hloop as (_ & _ & _ & _ & Hmarks & _). simpl in Hmarks.
  rewrite <- (length_fmap fillna_application apps). apply lookup_same_length.
  intros i. rewrite Hmarks. destruct (existsb (transmitted i) loop_evs); [|done].
  by rewrite fmap_is_Some.
Qed.

End Pipeline.

Lemma len_fillna_sheet s : len (fillna_sheet s) = len s.
Proof. destruct s; simpl; by rewrite ?length_fmap. Qed.

Lemma existsb_stage evs :
  existsb reported_missing (main.Stage <$> evs) = existsb is_missing evs.
Proof. induction evs as [|ev evs IH]; [done|]. cbn [fmap list_fmap existsb]. by rewrite <- IH. Qed.

Lemma cv_path_not_tmp_lm raw : cv_path raw ≠ letter_generator.tmp_html.
Proof. done. Qed.

Section Pipeline.
Context `{Externals}.

Lemma offer_loader_read_inv sheet w r w' evs :
  offer_loader._read sheet w = (r, w', evs) →
  w' = w ∧ evs = [] ∧
  match r with
  | Ok df => ∃ raw, workbook w !! sheet = Some raw ∧ df = fillna_sheet raw
  | Raise e => workbook w !! sheet = None
  end.
Proof.
  unfold offer_loader._read, read_excel, mbind, M_bind, mret, M_ret.
  destruct (workbook w !! sheet) as [raw|]; intros [= <- <- <-]; [|done].
  split; [done|]. split; [done|]. by exists raw.
Qed.

(** The three stages in turn: each runs on the world the one before left,
    and the first that raises ends the run. *)
Lemma stages_inv w r w' evs :
  main.stages w = (r, w', evs) →
  ∃ r1 w1 e1,
    cv_generator.generate_cvs false w = (r1, w1, e1) ∧
    match r1 with
    | Raise e => r = Raise e ∧ w' = w1 ∧ evs = e1
    | Ok _ =>
        ∃ r2 w2 e2,
          letter_generator.generate_letters false w1 = (r2, w2, e2) ∧
          match r2 with
          | Raise e => r = Raise e ∧ w' = w2 ∧ evs = e1 ++ e2
          | Ok _ =>
              ∃ r3 e3,
                email_sender.send_applications false w2 = (r3, w', e3) ∧
                evs = e1 ++ e2 ++ e3 ∧
                match r3 with
                | Raise e => r = Raise e
                | Ok _ =>
                    match r with
                    | Ok offers =>
                        ∃ raw, workbook w' !! "joboffers" = Some raw ∧
                               offers = fillna_sheet raw
                    | Raise _ => workbook w' !! "joboffers" = None
                    end
                end
          end
    end.
Proof.
  unfold main.stages. intros Hrun.
  apply bind_inv in Hrun as [(e & H1 & ->)|([] & w1 & e1 & o1 & H1 & Hrun & ->)].
  { by exists (Raise e), w', evs. }
  exists (Ok ()), w1, e1. split; [done|].
  apply bind_inv in Hrun as [(e & H2 & ->)|([] & w2 & e2 & o2 & H2 & Hrun & ->)].
  { by exists (Raise e), w', o1. }
  exists (Ok ()), w2, e2. split; [done|].
  apply bind_inv in Hrun as [(e & H3 & ->)|([] & w3 & e3 & o3 & H3 & Hrun & ->)].
  { by exists (Raise e), o2. }
  apply offer_loader_read_inv in Hrun as (-> & -> & Hr).
  exists (Ok ()), e3. rewrite app_nil_r. split; [done|]. split; [done|].
  by destruct r.
Qed.

(** X19: when [main] returns, what it shows is the events of the three
    stages followed by the two lines of the recap, and the recap counts the
    rows the joboffers and applications sheets had when the run began: the
    pipeline adds and removes no row. *)
Theorem main_recap w w' outs :
  main.main w = (Ok (), w', outs) →
  ∃ offers apps evs,
    workbook w !! "joboffers" = Some offers ∧
    workbook w !! "applications" = Some (SApplications apps) ∧
    outs = (main.Stage <$> evs) ++
           [main.OffersRecorded (len offers); main.ApplicationsTotal (length apps)].
Proof.
  unfold main.main.
  destruct (main.stages w) as [[[offers|e] w1] e1] eqn:Hstages; [|done].
  destruct (offer_loader.load_applications w1) as [[[sheet|e] w2] e2] eqn:Hload; [|done].
  intros [= <- <-].
  apply offer_loader_read_inv in Hload as (-> & -> & raw2 & Hraw2 & ->).
  apply stages_inv in Hstages as (r1 & wa & ea & Hcv & Hstages).
  destruct r1 as [[]|e]; [|by destruct Hstages].
  destruct Hstages as (r2 & wb & eb & Hlm & Hstages).
  destruct r2 as [[]|e]; [|by destruct Hstages].
  destruct Hstages as (r3 & ec & Hsend & -> & Hstages).
  destruct r3 as [[]|e]; [|done].
  destruct Hstages as (raw & Hraw & ->).
  apply generate_cvs_inv in Hcv as (Hwa & _).
  apply generate_letters_inv in Hlm as (Hwb & _).
  apply send_applications_sheets in Hsend as (Hoffers & apps & apps' & Ha & Ha' & Hlen).
  rewrite Hwb, Hwa in Hoffers, Ha. rewrite Hoffers in Hraw.
  rewrite Ha' in Hraw2. injection Hraw2 as <-.
  exists raw, apps, (ea ++ eb ++ ec). split; [done|]. split; [done|].
  rewrite len_fillna_sheet. simpl. rewrite length_fmap, Hlen.
  by rewrite <- app_assoc.
Qed.

(** X20: in a run of [main] the dispatcher never reports a missing PDF,
    provided [_clean] leaves the names of the profiles as they are and the
    directory matcher finds a file that bears the very name of the pattern:
    the two builders have put on disk every file the dispatcher looks
    for. *)
Theorem pipeline_finds_pdfs w rows r w' outs :
  workbook w !! "profiles" = Some (SProfiles rows) →
  (∀ raw, raw ∈ rows →
     cv_generator.clean_text (nom raw) = nom raw ∧
     cv_generator.clean_text (prenom raw) = prenom raw) →
  (∀ raw, raw ∈ rows →
     glob_exact CV_DIR (email_sender.cv_pattern (PyStr.upper (nom raw)) (prenom raw))) →
  main.main w = (r, w', outs) →
  existsb reported_missing outs = false.
Proof.
  intros Hprofs Hclean Hglob Hmain.
  assert (∀ rs ws es, main.stages w = (rs, ws, es) → existsb is_missing es = false)
    as Hstages.
  { intros rs ws es (r1 & wa & ea & Hcv & Hrest)%stages_inv.
    apply generate_cvs_inv in Hcv as (Hwa & _ & Hea & Hcvs).
    destruct r1 as [[]|e]; [|by destruct Hrest as (_ & _ & ->)].
    destruct Hrest as (r2 & wb & eb & Hlm & Hrest).
    apply generate_letters_inv in Hlm as (Hwb & _ & Heb & Hmono & Hlms).
    destruct r2 as [[]|e]; [|destruct Hrest as (_ & _ & ->); by rewrite existsb_app, Hea].
    destruct Hrest as (r3 & ec & Hsend & -> & _).
    rewrite !existsb_app, Hea, Heb. simpl.
    destruct (existsb is_missing ec) eqn:Hec; [exfalso|done].
    destruct (Hcvs eq_refl) as (rows' & Hrows' & Hfiles).
    rewrite Hprofs in Hrows'. injection Hrows' as <-.
    apply send_applications_inv in Hsend
      as [(e & _ & _ & ->)|(profs & offers & apps & Hp & Ho & Ha & Hsend)]; [done|].
    rewrite Hwb, Hwa in Hp, Ha. rewrite Hprofs in Hp. injection Hp as <-.
    destruct Hsend as [(_ & _ & _ & ->)|(_ & rl & loop_evs & Hloop & Hrl)]; [done|].
    assert (existsb is_missing loop_evs = true) as Hmiss.
    { destruct rl as [[apps' sdf]|e].
      - destruct Hrl as (_ & _ & ->). rewrite existsb_app in Hec.
        apply orb_true_iff in Hec as [?|Hec]; [done|]. by destruct sdf.
      - by destruct Hrl as (_ & _ & ->). }
    destruct (send_loop_missing _ _ _ _ _ _ _ _ _ Hloop Hmiss)
      as (i & row & p & Hin & Hp & Hnone).
    cbn [fillna_sheet] in Hp.
    destruct (find_profile_elem _ _ _ Hp) as [Hprow _].
    destruct Hnone as [Hcv|Hletter].
    - destruct (Hclean p Hprow) as [Hn Hpr].
      assert (is_Some (glob (disk wb) CV_DIR
                (email_sender.cv_pattern (PyStr.upper (nom p)) (prenom p)))) as Hfound.
      { apply (Hglob p Hprow). rewrite <- cv_path_clean by done.
        apply Hmono; [apply cv_path_not_tmp_lm|]. by apply Hfiles. }
      rewrite Hcv in Hfound. by destruct Hfound.
    - rewrite <- Hwa in Hprofs. rewrite <- Hwa in Ha.
      destruct (Hlms eq_refl _ _ Hprofs Ha i row Hin) as (p' & Hp' & Hfile).
      cbn [fillna_sheet] in Hp'. rewrite Hp in Hp'. injection Hp' as <-.
      rewrite Hletter in Hfile. by destruct Hfile. }
  unfold main.main in Hmain.
  destruct (main.stages w) as [[[offers|e] w1] e1] eqn:Hs.
  - destruct (offer_loader.load_applications w1) as [[[sheet|e] w2] e2] eqn:Hload;
      injection Hmain as <- <- <-;
      apply offer_loader_read_inv in Hload as (_ & -> & _);
      rewrite !existsb_app, existsb_stage, (Hstages _ _ _ eq_refl); done.
  - injection Hmain as <- <- <-. by rewrite existsb_stage, (Hstages _ _ _ eq_refl).
Qed.

End Pipeline.


(** ** The concrete setting *)

Lemma demo_sort_values_sorts : @sort_values_sorts Demo.externals.
Proof.
  intros l. split.
  - apply merge_sort_Permutation.
  - assert (Transitive Demo.le_key) by (intros a b c; unfold Demo.le_key; lia).
    assert (Total Demo.le_key) by (intros a b; unfold Demo.le_key; lia).
    apply (StronglySorted_merge_sort Demo.le_key).
Qed.


(** The three selections in the concrete world: the same answer three
    times. *)
Lemma pick_sender_rereads_sheet_witness :
  @pick_three Demo.externals Demo.world =
    (Ok (replicate 3
           (@email_sender.to_dict (Demo.account "a@gmail.com" 5 0),
            Some [Demo.account "a@gmail.com" 5 1; Demo.account "b@outlook.com" 5 3])),
     Demo.world, []).
Proof.
  pose proof (@pick_sender_rereads_sheet Demo.externals Demo.world
    (Demo.account "a@gmail.com" 5 0) (Demo.account "b@outlook.com" 5 3)
    demo_sort_values_sorts eq_refl eq_refl eq_refl eq_refl eq_refl) as [Hrun _].
  exact Hrun.
Defined.

(** One account at its limit: the selection fails and the run opens no
    SMTP session. *)
Lemma pick_sender_exhausted_witness :
  @email_sender.pick_sender Demo.externals Demo.exhausted =
    (Raise (RuntimeError email_sender.no_sender), Demo.exhausted, []) ∧
  existsb is_smtp (@email_sender.send_applications Demo.externals false Demo.exhausted).2 = false.
Proof.
  assert (∀ s, s ∈ [Demo.account "a@gmail.com" 5 5] → @qualifies Demo.externals s = false) as Hq.
  { intros s ->%list_elem_of_singleton. reflexivity. }
  destruct (@pick_sender_exhausted Demo.externals Demo.exhausted _ eq_refl Hq) as [Hp Hrun].
  split; [exact Hp|].
  destruct (@email_sender.send_applications Demo.externals false Demo.exhausted) as [[r w'] evs] eqn:E.
  exact (Hrun false r w' evs E).
Defined.

(** The server refuses row 0: without [force] no session is opened for
    row 1, with [force] one is. *)
Lemma fail_fast_or_force_witness :
  existsb (attempted 1)
    (@email_sender.send_applications Demo.externals false Demo.world).2 = false ∧
  existsb (attempted 1)
    (@email_sender.send_applications Demo.externals true Demo.world).2 = true.
Proof.
  eassert (SmtpSession 0 _ _ _ false ∈
    (@email_sender.dispatch_row Demo.externals false
       (fillna_sheet (SProfiles [Demo.alice]))
       (fillna_sheet (SJobOffers [Demo.offer1; Demo.offer2]))
       0 (fillna_application (Demo.application "p1" "j1" (Str "Y") NaN))
       (fillna_application <$> Demo.two_pending, None) Demo.world).2) as Hin.
  { vm_compute. left. }
  destruct (@fail_fast_or_force Demo.externals Demo.world _ _ _ 0 _ 1 _ _ _ _
              eq_refl eq_refl eq_refl eq_refl Hin) as (Hff & Hno & _).
  split.
  - rewrite Hff. exact Hno.
  - vm_compute. reflexivity.
Defined.


(** A run that returns leaves the sheet of notes as it was. *)
Lemma send_applications_persists_witness :
  workbook (@email_sender.send_applications Demo.externals false Demo.world).1.2 !! "notes"
  = workbook Demo.world !! "notes".
Proof.
  destruct (@email_sender.send_applications Demo.externals false Demo.world)
    as [[r w'] evs] eqn:Hrun.
  assert (email_sender.todo (fillna_application <$> Demo.two_pending) ≠ []) as Htodo
    by (vm_compute; discriminate).
  destruct (@send_applications_persists Demo.externals false Demo.world r w' evs
              Demo.two_pending eq_refl Htodo Hrun) as (_ & _ & Hframe & _).
  by apply Hframe.
Defined.

(** C2 (counterexample): two applications are pending and the only sender
    account has reached its limit; the run ends with the exhaustion error,
    no sheet is written and the workbook is the one the run started from. *)
Lemma send_applications_exhausted_writes_nothing :
  length (email_sender.todo (fillna_application <$> Demo.two_pending)) = 2 ∧
  @email_sender.send_applications Demo.externals false Demo.exhausted =
    (Raise (RuntimeError email_sender.no_sender), Demo.exhausted, []).
Proof. split; vm_compute; reflexivity. Qed.

(** C3 (counterexample): the first of two selected applications names a
    profile that does not exist; both components end with AttributeError,
    nothing is reported and the second application is not processed.  And
    an application that names a job offer that does not exist is not
    skipped: its letter is drafted and written. *)
Lemma missing_profile_aborts_run :
  @letter_generator.generate_letters Demo.externals false Demo.orphan =
    (Raise AttributeError, Demo.orphan, []) ∧
  @email_sender.send_applications Demo.externals false Demo.orphan =
    (Raise AttributeError, Demo.orphan, []) ∧
  (@letter_generator.generate_letters Demo.externals false Demo.no_offer).2 =
    [LetterRequest 0 Demo.alice (Column []);
     Pdfkit "data/lm/LM_DURAND_Alice_j7.pdf";
     Print (LetterDone "data/lm/LM_DURAND_Alice_j7.pdf")].
Proof. repeat split; vm_compute; reflexivity. Qed.

(** With [force]: row 0, refused, reads as before; row 1, accepted, is
    marked. *)
Lemma send_applications_marks_witness :
  ∃ apps',
    workbook (@email_sender.send_applications Demo.externals true Demo.world).1.2
      !! "applications" = Some (SApplications apps') ∧
    (fillna_application <$> apps' !! 0) =
      Some (fillna_application (Demo.application "p1" "j1" (Str "Y") NaN)) ∧
    (email_sent <$> apps' !! 1) = Some (Str "YES").
Proof.
  destruct (@email_sender.send_applications Demo.externals true Demo.world)
    as [[r w'] evs] eqn:Hrun.
  assert (r = Ok () ∧ existsb (transmitted 0) evs = false ∧
          existsb (transmitted 1) evs = true) as (-> & H0 & H1).
  { revert Hrun. vm_compute. by intros [= <- <- <-]. }
  destruct (@send_applications_marks Demo.externals true Demo.world (Ok ()) w' evs
              Demo.two_pending eq_refl Hrun) as (apps' & Hw & Hrows).
  exists apps'. split; [exact Hw|]. split.
  - destruct (Hrows 0 _ eq_refl) as (a' & -> & Ha'). rewrite H0 in Ha'.
    destruct Ha' as (Hfill & _). simpl. by rewrite Hfill.
  - destruct (Hrows 1 _ eq_refl) as (a' & -> & Ha'). rewrite H1 in Ha'.
    destruct Ha' as (Hsent & _). simpl. by rewrite Hsent.
Defined.

(** The application whose email_sent cell holds a no-break space and an
    em space is in both todo sets. *)
Lemma whitespace_sent_is_pending_witness :
  (0, fillna_application
        (Demo.application "p1" "j1" (Str "Y")
           (Str (PyStr.utf8 160 +:+ PyStr.utf8 8195))))
    ∈ letter_generator.todo (fillna_application <$> Demo.wide_blank) ∧
  (0, fillna_application
        (Demo.application "p1" "j1" (Str "Y")
           (Str (PyStr.utf8 160 +:+ PyStr.utf8 8195))))
    ∈ email_sender.todo (fillna_application <$> Demo.wide_blank).
Proof.
  apply (whitespace_sent_is_pending Demo.wide_blank 0
           (Demo.application "p1" "j1" (Str "Y")
              (Str (PyStr.utf8 160 +:+ PyStr.utf8 8195)))).
  - reflexivity.
  - by left.
  - right. eexists. split; [reflexivity|]. vm_compute. reflexivity.
Defined.

(** The selection in the concrete world is a qualifying account. *)
Lemma pick_sender_smallest_witness :
  ∃ rows name chosen,
    workbook Demo.world !! "senders" = Some (SSenders rows) ∧
    (name, chosen) ∈ @avail Demo.externals rows ∧
    email_sender.under_quota chosen = true.
Proof.
  destruct (@pick_sender_smallest Demo.externals Demo.world
              (email_sender.to_dict (Demo.account "a@gmail.com" 5 0))
              [Demo.account "a@gmail.com" 5 1; Demo.account "b@outlook.com" 5 3]
              Demo.world [] demo_sort_values_sorts eq_refl)
    as (rows & name & chosen & Hs & Hin & _ & Hq & _).
  by exists rows, name, chosen.
Defined.

(** Nothing on disk: the row is skipped with the missing-PDF line. *)
Lemma missing_pdf_skips_witness :
  @email_sender.dispatch_row Demo.externals false
    (SProfiles [Demo.alice]) (SJobOffers [Demo.offer1; Demo.offer2]) 0
    (Demo.application "p1" "j1" (Str "Y") (Str ""))
    (fillna_application <$> Demo.two_pending, None) Demo.fresh =
  (Ok (email_sender.Continue (fillna_application <$> Demo.two_pending, None)),
   Demo.fresh, [Print (PdfMissing "p1" "j1")]).
Proof.
  exact (@missing_pdf_skips Demo.externals false
           (SProfiles [Demo.alice]) (SJobOffers [Demo.offer1; Demo.offer2]) 0
           (Demo.application "p1" "j1" (Str "Y") (Str ""))
           (fillna_application <$> Demo.two_pending, None) Demo.fresh Demo.alice
           (Row Demo.offer1) eq_refl eq_refl (or_introl eq_refl)).
Defined.

(** No senders sheet and an Outlook address in the environment. *)
Lemma single_account_fallback_witness :
  @email_sender.pick_sender Demo.externals Demo.single =
    (Ok (email_sender.env_sender (environ Demo.single), None), Demo.single, []) ∧
  email_sender.resolve_host (email_sender.env_sender (environ Demo.single)) =
    Ok "smtp-mail.outlook.com".
Proof.
  destruct (@single_account_fallback Demo.externals Demo.single eq_refl)
    as [Hpick _].
  split; [exact Hpick|reflexivity].
Defined.

(** C4 (counterexample): the flag of the only application is the text
    yes, which Python holds true, and its email_sent cell is missing;
    neither component selects the row: both runs end at once with their
    nothing-to-do line, no letter requested and no session opened. *)
Lemma truthy_flag_not_selected :
  truthy_cell (generate_lm (Demo.application "p1" "j1" (Str "yes") NaN)) = true ∧
  email_sent (Demo.application "p1" "j1" (Str "yes") NaN) = NaN ∧
  workbook Demo.yes_world !! "applications" = Some (SApplications Demo.yes_flag) ∧
  letter_generator.todo (fillna_application <$> Demo.yes_flag) = [] ∧
  email_sender.todo (fillna_application <$> Demo.yes_flag) = [] ∧
  @letter_generator.generate_letters Demo.externals false Demo.yes_world =
    (Ok (), Demo.yes_world, [Print NoLetter]) ∧
  @email_sender.send_applications Demo.externals false Demo.yes_world =
    (Ok (), Demo.yes_world, [Print NoEmail]).
Proof. repeat split; vm_compute; reflexivity. Qed.

(** C5 (counterexample): with [force], the message of row 1 is accepted,
    then row 2 names a profile that does not exist; the run ends with
    AttributeError and the workbook is the one it started from: the
    email_sent cell of row 1 still holds its two spaces and the row is
    still in the todo set, so the next run sends it again. *)
Lemma marks_lost_on_abort :
  (@email_sender.send_applications Demo.externals true Demo.orphan_last).1.1
    = Raise AttributeError ∧
  existsb (transmitted 1)
    (@email_sender.send_applications Demo.externals true Demo.orphan_last).2 = true ∧
  existsb is_write
    (@email_sender.send_applications Demo.externals true Demo.orphan_last).2 = false ∧
  (@email_sender.send_applications Demo.externals true Demo.orphan_last).1.2
    = Demo.orphan_last ∧
  workbook Demo.orphan_last !! "applications"
    = Some (SApplications
              (Demo.two_pending ++ [Demo.application "p9" "j1" (Str "Y") NaN])) ∧
  (email_sent <$> Demo.two_pending !! 1) = Some (Str "  ") ∧
  (1, fillna_application (Demo.application "p1" "j2" (Str "y") (Str "  ")))
    ∈ email_sender.todo
        (fillna_application <$>
           Demo.two_pending ++ [Demo.application "p9" "j1" (Str "Y") NaN]).
Proof.
  repeat split; try (vm_compute; reflexivity).
  apply elem_of_todo. split; [reflexivity|]. split; [by right|].
  right. exists "  ". split; [reflexivity|]. vm_compute. reflexivity.
Qed.

(** One run, two SMTP sessions: both use the first account at count 0, and
    the senders table written at the end has its counter at 1. *)
Example two_sessions_one_increment :
  let '(r, w', evs) := @email_sender.send_applications Demo.externals true Demo.world in
  r = Ok () ∧
  (λ ev, match ev with
         | SmtpSession i _ login _ _ => Some (i, dict_email login, dict_sent_today login)
         | _ => None
         end) <$> filter (λ ev, is_smtp ev = true) evs =
    [Some (0, Some "a@gmail.com", Some 0%Z); Some (1, Some "a@gmail.com", Some 0%Z)] ∧
  workbook w' !! "senders" =
    Some (SSenders [Demo.account "a@gmail.com" 5 1; Demo.account "b@outlook.com" 5 3]).
Proof. vm_compute. by repeat split. Qed.

(** ** The further properties in the concrete setting *)

(** A letter already on disk survives both builders, contents included. *)
Lemma builders_keep_existing_files_witness :
  disk (@cv_generator.generate_cvs Demo.externals false Demo.world).1.2
    !! "data/lm/LM_DURAND_Alice_j1.pdf" = Some "lm1" ∧
  disk (@letter_generator.generate_letters Demo.externals false Demo.world).1.2
    !! "data/lm/LM_DURAND_Alice_j1.pdf" = Some "lm1".
Proof.
  destruct (@builders_keep_existing_files Demo.externals Demo.world
              "data/lm/LM_DURAND_Alice_j1.pdf" "lm1" eq_refl) as [Hcv Hlm].
  split; [apply Hcv|apply Hlm]; discriminate.
Defined.

(** On the empty disk the run returns and the CV of the one profile is
    written. *)
Lemma generate_cvs_writes_every_cv_witness :
  (@cv_generator.generate_cvs Demo.externals false Demo.fresh).1.1 = Ok () ∧
  is_Some (disk (@cv_generator.generate_cvs Demo.externals false Demo.fresh).1.2
             !! cv_path Demo.alice).
Proof.
  destruct (@cv_generator.generate_cvs Demo.externals false Demo.fresh)
    as [[r w'] evs] eqn:Hrun.
  assert (r = Ok ()) as -> by (revert Hrun; vm_compute; by intros [= <- _ _]).
  split; [reflexivity|].
  destruct (@generate_cvs_writes_every_cv Demo.externals false Demo.fresh w' evs Hrun)
    as (rows & Hrows & Hall & _).
  assert (Some (SProfiles rows) = Some (SProfiles [Demo.alice])) as [= ->]
    by (rewrite <- Hrows; reflexivity).
  apply Hall. by left.
Defined.

(** On the empty disk the run returns and the letter of the first
    application is written. *)
Lemma generate_letters_writes_every_letter_witness :
  (@letter_generator.generate_letters Demo.externals false Demo.fresh).1.1 = Ok () ∧
  ∃ p, find_profile (SProfiles [Demo.alice]) (Demo.application "p1" "j1" (Str "Y") NaN)
         = Ok p ∧
       is_Some (disk (@letter_generator.generate_letters Demo.externals false Demo.fresh).1.2
                  !! letter_path p (Demo.application "p1" "j1" (Str "Y") NaN)).
Proof.
  destruct (@letter_generator.generate_letters Demo.externals false Demo.fresh)
    as [[r w'] evs] eqn:Hrun.
  assert (r = Ok ()) as -> by (revert Hrun; vm_compute; by intros [= <- _ _]).
  split; [reflexivity|].
  destruct (@generate_letters_writes_every_letter Demo.externals false Demo.fresh
              w' evs Hrun) as (profs & apps & Hprofs & Happs & Hall).
  assert (Some profs = Some (SProfiles [Demo.alice])) as [= ->]
    by (rewrite <- Hprofs; reflexivity).
  assert (Some (SApplications apps) = Some (SApplications Demo.two_pending)) as [= ->]
    by (rewrite <- Happs; reflexivity).
  apply Hall; [by left|]. split; [by left|by left].
Defined.

(** The message built from the two PDF files of the first application. *)
Lemma build_msg_attachments_witness :
  ∃ msg,
    email_sender.build_msg (Some "a@gmail.com") (Scalar "rh@acme.example") "Candidature"
      [] ["data/cv/CV_DURAND_Alice.pdf"; "data/lm/LM_DURAND_Alice_j1.pdf"] Demo.world
    = (Ok msg, Demo.world, []) ∧
    msg_attachments msg =
      [("data/cv/CV_DURAND_Alice.pdf", "cv"); ("data/lm/LM_DURAND_Alice_j1.pdf", "lm1")].
Proof.
  destruct (email_sender.build_msg (Some "a@gmail.com") (Scalar "rh@acme.example")
              "Candidature" []
              ["data/cv/CV_DURAND_Alice.pdf"; "data/lm/LM_DURAND_Alice_j1.pdf"] Demo.world)
    as [[[msg|e] w'] evs] eqn:Hrun; [|revert Hrun; vm_compute; discriminate].
  destruct (build_msg_attachments _ _ _ _ _ _ _ _ _ Hrun)
    as (-> & -> & Hnames & Hall & _).
  exists msg. split; [reflexivity|].
  destruct (msg_attachments msg) as [|[f1 c1] [|[f2 c2] [|? ?]]]; try discriminate.
  injection Hnames as -> ->.
  apply Forall_cons in Hall as [H1 Hall]. apply Forall_cons in Hall as [H2 _].
  simpl in H1, H2. vm_compute in H1. vm_compute in H2.
  by injection H1 as <-; injection H2 as <-.
Defined.

(** The first session of the forced run: the CV and the letter of the
    first application, sent to the recruiter of its offer. *)
Lemma session_message_witness :
  ∃ host login msg,
    SmtpSession 0 host login msg false
      ∈ (@email_sender.send_applications Demo.externals true Demo.world).2 ∧
    (msg_attachments msg).*1 =
      ["data/cv/CV_DURAND_Alice.pdf"; "data/lm/LM_DURAND_Alice_j1.pdf"] ∧
    msg_to msg = Scalar "rh@un.example".
Proof.
  destruct (@email_sender.send_applications Demo.externals true Demo.world)
    as [[r w'] evs] eqn:Hrun.
  assert (∃ host login msg rest, evs = SmtpSession 0 host login msg false :: rest)
    as (host & login & msg & rest & ->).
  { revert Hrun. vm_compute. intros [= <- <- <-]. by eexists _, _, _, _. }
  destruct (@session_message Demo.externals true Demo.world r w' _ 0 host login msg false
              Hrun (list_elem_of_here _ _))
    as (profs & offers & apps & a & p & offer & cv & cvb & lmb
        & Hp & Ho & Ha & Hi & _ & Hfp & Hfo & Hcv & _ & _ & _ & Hmsg & _).
  exists host, login, msg. split; [by left|].
  injection Hp as <-. injection Ho as <-. injection Ha as <-. injection Hi as <-.
  injection Hfp as <-. injection Hfo as <-. injection Hcv as <-.
  rewrite Hmsg. split; reflexivity.
Defined.

(** The two sessions of the forced run use the same account and host. *)
Lemma one_account_per_run_witness :
  ∃ h1 l1 m1 h2 l2 m2,
    SmtpSession 0 h1 l1 m1 false
      ∈ (@email_sender.send_applications Demo.externals true Demo.world).2 ∧
    SmtpSession 1 h2 l2 m2 true
      ∈ (@email_sender.send_applications Demo.externals true Demo.world).2 ∧
    l1 = l2 ∧ h1 = h2.
Proof.
  destruct (@email_sender.send_applications Demo.externals true Demo.world)
    as [[r w'] evs] eqn:Hrun.
  assert (∃ h1 l1 m1 line h2 l2 m2 rest,
            evs = SmtpSession 0 h1 l1 m1 false :: line :: SmtpSession 1 h2 l2 m2 true :: rest)
    as (h1 & l1 & m1 & line & h2 & l2 & m2 & rest & ->).
  { revert Hrun. vm_compute. intros [= <- <- <-]. by eexists _, _, _, _, _, _, _, _. }
  assert (SmtpSession 1 h2 l2 m2 true
            ∈ SmtpSession 0 h1 l1 m1 false :: line :: SmtpSession 1 h2 l2 m2 true :: rest)
    as Hin2 by (right; right; left).
  destruct (@one_account_per_run Demo.externals true Demo.world r w' _
              0 h1 l1 m1 false 1 h2 l2 m2 true Hrun (list_elem_of_here _ _) Hin2)
    as (Hl & Hh & _).
  exists h1, l1, m1, h2, l2, m2. split; [by left|]. split; [exact Hin2|]. by split.
Defined.

(** No row has two sessions in the forced run. *)
Lemma sessions_in_sheet_order_witness :
  NoDup (session_rows (@email_sender.send_applications Demo.externals true Demo.world).2).
Proof.
  destruct (@email_sender.send_applications Demo.externals true Demo.world)
    as [[r w'] evs] eqn:Hrun.
  exact (proj2 (@sessions_in_sheet_order Demo.externals true Demo.world r w' evs Hrun)).
Defined.

(** Without [force] the run ends on the refusal of its first message. *)
Lemma refusal_ends_run_witness :
  ∃ n, outcomes (@email_sender.send_applications Demo.externals false Demo.world).2
         = replicate n true ++ [false].
Proof.
  destruct (@email_sender.send_applications Demo.externals false Demo.world)
    as [[r w'] evs] eqn:Hrun.
  destruct (@refusal_ends_run Demo.externals Demo.world r w' evs Hrun) as [n [Hn|[Hn _]]].
  - exfalso. revert Hrun Hn. vm_compute. intros [= <- <- <-]. by destruct n.
  - by exists n.
Defined.

(** With [force] the second application is attended. *)
Lemma run_attends_every_pending_witness :
  existsb (attempted 1)
    (@email_sender.send_applications Demo.externals true Demo.world).2 = true ∨
  Print (PdfMissing "p1" "j2")
    ∈ (@email_sender.send_applications Demo.externals true Demo.world).2.
Proof.
  destruct (@email_sender.send_applications Demo.externals true Demo.world)
    as [[r w'] evs] eqn:Hrun.
  assert (r = Ok ()) as -> by (revert Hrun; vm_compute; by intros [= <- <- <-]).
  apply (@run_attends_every_pending Demo.externals true Demo.world w' evs
           Demo.two_pending 1 (Demo.application "p1" "j2" (Str "y") (Str "  ")) Hrun).
  - by left.
  - reflexivity.
  - reflexivity.
  - split; [by right|]. right. by exists "  ".
Defined.

(** The second application, accepted in a first forced run, has no session
    in a second one. *)
Lemma never_mailed_twice_witness :
  existsb (attempted 1)
    (@email_sender.send_applications Demo.externals true
       (@email_sender.send_applications Demo.externals true Demo.world).1.2).2 = false.
Proof.
  destruct (@email_sender.send_applications Demo.externals true Demo.world)
    as [[r w1] evs1] eqn:Hrun1.
  assert (r = Ok () ∧ existsb (transmitted 1) evs1 = true) as [-> Hsent]
    by (revert Hrun1; vm_compute; by intros [= <- <- <-]).
  destruct (@email_sender.send_applications Demo.externals true (Ok (), w1, evs1).1.2)
    as [[r2 w2] evs2] eqn:Hrun2.
  exact (never_mailed_twice Demo.externals Demo.externals true true Demo.world w1 evs1
           r2 w2 evs2 1 Hrun1 Hrun2 Hsent).
Defined.

(** From the empty disk the pipeline returns and counts two offers and two
    applications. *)
Lemma main_recap_witness :
  ∃ evs, (@main.main Demo.externals Demo.fresh).2 =
           (main.Stage <$> evs) ++ [main.OffersRecorded 2; main.ApplicationsTotal 2].
Proof.
  destruct (@main.main Demo.externals Demo.fresh) as [[r w'] outs] eqn:Hmain.
  assert (r = Ok ()) as -> by (revert Hmain; vm_compute; by intros [= <- <- <-]).
  destruct (@main_recap Demo.externals Demo.fresh w' outs Hmain)
    as (offers & apps & evs & Ho & Ha & ->).
  injection Ho as <-. injection Ha as <-. by exists evs.
Defined.

(** From the empty disk the pipeline reports no missing PDF. *)
Lemma pipeline_finds_pdfs_witness :
  existsb reported_missing (@main.main Demo.externals Demo.fresh).2 = false.
Proof.
  destruct (@main.main Demo.externals Demo.fresh) as [[r w'] outs] eqn:Hmain.
  apply (@pipeline_finds_pdfs Demo.externals Demo.fresh [Demo.alice] r w' outs eq_refl);
    [| |exact Hmain].
  - intros raw Hin. apply list_elem_of_singleton in Hin as ->. by split.
  - intros raw Hin files Hfile. unfold glob, Demo.externals.
    by rewrite bool_decide_true.
Defined.
